(** * The travel-concierge backend: event-stream extraction, session cache,
      chat and health endpoints

    A shallow embedding of [backend/vertex_ai_client.py] and
    [backend/main.py], and the properties of the itinerary extractor, of the
    session cache and of the HTTP handlers that rest on them.

    The events the remote agent streams are loosely typed Python values, so
    they are embedded as a small universe of Python values and every
    [isinstance], [in] and truthiness test of the source is written out. *)

From Stdlib Require Import ZArith String Ascii List Bool.
From stdpp Require Import gmap strings list pretty.
Import ListNotations.

Set Warnings "-register-all".
Local Open Scope string_scope.
Local Open Scope list_scope.

(** ** Python values *)

(** The values an event can hold.  A [dict] keeps its items in insertion
    order, as Python does; keys are strings (events are JSON-like records).
    Numbers are integers: the code below only ever tests a number for its
    type and its truth value. *)
Inductive value : Type :=
| VNone
| VBool (b : bool)
| VInt (n : Z)
| VStr (s : string)
| VList (l : list value)
| VDict (d : list (string * value)).

(** [d.get(k)], [k in d] and [d[k]] on the items of a dict. *)
Fixpoint dict_get (k : string) (d : list (string * value)) : option value :=
  match d with
  | [] => None
  | (k', v) :: d' => if String.eqb k k' then Some v else dict_get k d'
  end.

(** [bool(v)]: the truth value Python gives a value in an [if]. *)
Definition truthy (v : value) : bool :=
  match v with
  | VNone => false
  | VBool b => b
  | VInt n => negb (Z.eqb n 0)
  | VStr s => negb (String.eqb s "")
  | VList l => match l with [] => false | _ => true end
  | VDict d => match d with [] => false | _ => true end
  end.

(** [type(v).__name__], as it appears in the messages of a [TypeError]. *)
Definition type_name (v : value) : string :=
  match v with
  | VNone => "NoneType"
  | VBool _ => "bool"
  | VInt _ => "int"
  | VStr _ => "str"
  | VList _ => "list"
  | VDict _ => "dict"
  end.

(** The characters of a string, each as a one-character string. *)
Fixpoint str_chars (s : string) : list value :=
  match s with
  | EmptyString => []
  | String a s' => VStr (String a EmptyString) :: str_chars s'
  end.

(** [for x in v]: the elements of a list, the keys of a dict, the characters
    of a string; anything else is not iterable and raises [TypeError]
    ([None] here). *)
Definition py_iter (v : value) : option (list value) :=
  match v with
  | VList l => Some l
  | VDict d => Some (map (fun kv => VStr (fst kv)) d)
  | VStr s => Some (str_chars s)
  | _ => None
  end.

(** ** Exceptions and outcomes *)

Inductive exn : Type :=
| TypeError (msg : string)
| AttributeError (msg : string)
| ValidationError (msg : string)
| HTTPException (status_code : Z) (detail : value)
| OtherError (msg : string).

Inductive outcome (A : Type) : Type :=
| Return (a : A)
| Raise (e : exn).
Arguments Return {A} a.
Arguments Raise {A} e.

(** ** Strings: [str.join], [str.strip], [str.endswith] *)

(** [sep.join(parts)] with the empty separator.  Python raises [TypeError]
    at the first item that is not a [str]. *)
Fixpoint str_join_from (i : nat) (parts : list value) : outcome string :=
  match parts with
  | [] => Return ""
  | VStr s :: rest =>
      match str_join_from (S i) rest with
      | Return t => Return (s +:+ t)
      | Raise e => Raise e
      end
  | v :: _ =>
      Raise (TypeError ("sequence item " +:+ pretty i +:+ ": expected str instance, "
                          +:+ type_name v +:+ " found"))
  end.

Definition str_join (parts : list value) : outcome string := str_join_from 0 parts.

(** The characters [str.strip()] removes.  A character of a Rocq string
    stands for the code point of the same number (0 to 255); Python's
    whitespace in that range is TAB..CR, FS..US, space, NEL and NBSP. *)
Definition is_space (a : ascii) : bool :=
  let n := nat_of_ascii a in
  (Nat.leb 9 n && Nat.leb n 13) || (Nat.leb 28 n && Nat.leb n 32)
  || Nat.eqb n 133 || Nat.eqb n 160.

Fixpoint lstrip (s : string) : string :=
  match s with
  | EmptyString => EmptyString
  | String a s' => if is_space a then lstrip s' else s
  end.

Fixpoint str_rev (s : string) : string :=
  match s with
  | EmptyString => EmptyString
  | String a s' => str_rev s' +:+ String a EmptyString
  end.

Definition rstrip (s : string) : string := str_rev (lstrip (str_rev s)).

Definition strip (s : string) : string := lstrip (rstrip s).

(** [s.endswith("?")]. *)
Definition endswith_qmark (s : string) : bool :=
  match str_rev s with
  | String a _ => Ascii.eqb a "?"%char
  | EmptyString => false
  end.

(** ** The itinerary extractor: [process_agent_query] *)

(** The local variables of [process_agent_query] that the loop over the
    stream updates.  [collected_active_sub_agents] is a Python [set]. *)
Record collector : Type := Collector {
  collected_display_text_parts : list value;
  collected_structured_itinerary : value;
  collected_suggestions : list value;
  collected_active_sub_agents : gset string;
  requires_follow_up_flag : bool;
  error_message_text : option string;
  full_event_log : list value
}.

Definition initial_collector : collector :=
  Collector [] VNone [] ∅ false None [].

(** *** Step 1: the loop over [event['content']['parts']] *)

(** The text a part contributes: [part['text']] when the part is a dict that
    has the key and the value is truthy. *)
Definition part_text (part : value) : option value :=
  match part with
  | VDict p =>
      match dict_get "text" p with
      | Some t => if truthy t then Some t else None
      | None => None
      end
  | _ => None
  end.

(** The [function_response] test of a part: the response of a function
    response of the [itinerary_agent], when that response is a dict. *)
Definition part_function_response (part : value) : option value :=
  match part with
  | VDict p =>
      match dict_get "function_response" p with
      | Some (VDict fn_response) =>
          match dict_get "name" fn_response with
          | Some (VStr name) =>
              if String.eqb name "itinerary_agent" then
                match dict_get "response" fn_response with
                | Some (VDict r) => Some (VDict r)
                | _ => None
                end
              else None
          | _ => None
          end
      | _ => None
      end
  | _ => None
  end.

(** The [tool_code_execution_result] test of a part: a dict nested under the
    key [itinerary] of a tool output that is itself a dict. *)
Definition part_tool_result (part : value) : option value :=
  match part with
  | VDict p =>
      match dict_get "tool_code_execution_result" p with
      | Some (VDict tool_output) =>
          match dict_get "itinerary" tool_output with
          | Some (VDict it) => Some (VDict it)
          | _ => None
          end
      | _ => None
      end
  | _ => None
  end.

(** The [for part in ...] loop.  It threads the text parts collected so far
    and [current_event_itinerary]; either itinerary test that succeeds
    assigns it and leaves the loop with [break]. *)
Fixpoint scan_parts (parts : list value) (texts : list value) (cur : value)
  : list value * value :=
  match parts with
  | [] => (texts, cur)
  | part :: rest =>
      let texts' :=
        match part_text part with
        | Some t => texts ++ [t]
        | None => texts
        end in
      match part_function_response part with
      | Some r => (texts', r)
      | None =>
          match part_tool_result part with
          | Some it => (texts', it)
          | None => scan_parts rest texts' cur
          end
      end
  end.

(** The guard of step 1: [event['content']['parts']] when the event is a
    dict whose [content] is a dict with a key [parts]. *)
Definition event_parts (event : value) : option value :=
  match event with
  | VDict ev =>
      match dict_get "content" ev with
      | Some (VDict content) => dict_get "parts" content
      | _ => None
      end
  | _ => None
  end.

(** *** Step 2: [event['actions']['state_delta']['itinerary']] *)

Definition check_state_delta (event : value) (cur : value) : value :=
  match event with
  | VDict ev =>
      match dict_get "actions" ev with
      | Some (VDict actions) =>
          match dict_get "state_delta" actions with
          | Some (VDict state_delta) =>
              match dict_get "itinerary" state_delta with
              | Some (VDict it) => if truthy (VDict it) then VDict it else cur
              | _ => cur
              end
          | _ => cur
          end
      | _ => cur
      end
  | _ => cur
  end.

(** *** Step 3: the top-level and wrapped [itinerary] keys *)

Definition fallback_keys : list string :=
  ["tool_output"; "tool_result"; "structured_output"; "output"].

(** The [for key_to_check in ...] loop of step 3. *)
Fixpoint check_wrapped (keys : list string) (ev : list (string * value)) (cur : value)
  : value :=
  match keys with
  | [] => cur
  | key_to_check :: keys' =>
      match dict_get key_to_check ev with
      | Some (VDict wrapped) =>
          match dict_get "itinerary" wrapped with
          | Some (VDict it) =>
              if truthy (VDict it) then VDict it else check_wrapped keys' ev cur
          | _ => check_wrapped keys' ev cur
          end
      | _ => check_wrapped keys' ev cur
      end
  end.

Definition check_fallbacks (event : value) (cur : value) : value :=
  match event with
  | VDict ev =>
      if truthy cur then cur
      else
        let cur1 :=
          match dict_get "itinerary" ev with
          | Some (VDict it) => if truthy (VDict it) then VDict it else cur
          | _ => cur
          end in
        if truthy cur1 then cur1 else check_wrapped fallback_keys ev cur1
  | _ => cur
  end.

(** *** The rest of the loop body: sub-agents, suggestions, flag, error *)

Definition collect_sub_agent (ev : list (string * value)) (agents : gset string)
  : gset string :=
  match dict_get "author" ev with
  | Some (VStr author) => {[ author ]} ∪ agents
  | _ =>
      match dict_get "source_agent" ev with
      | Some (VStr source_agent) => {[ source_agent ]} ∪ agents
      | _ => agents
      end
  end.

Definition collect_suggestions (ev : list (string * value)) (suggestions : list value)
  : list value :=
  match dict_get "suggestions" ev with
  | Some (VList l) => suggestions ++ l
  | _ => suggestions
  end.

Definition collect_follow_up (ev : list (string * value)) (flag : bool) : bool :=
  match dict_get "requires_follow_up" ev with
  | Some (VBool b) => b
  | _ => flag
  end.

Definition collect_error (ev : list (string * value)) (err : option string)
  : option string :=
  match dict_get "error" ev with
  | Some (VStr e) => Some e
  | _ =>
      match dict_get "error_message" ev with
      | Some (VStr e) => Some e
      | _ => err
      end
  end.

(** *** One iteration of [for event in ...stream_query(...)] *)

(** What one iteration does to the locals: it ends normally, or an exception
    leaves it (and the loop) with the locals as they were at that point. *)
Inductive step : Type :=
| Next (c : collector)
| Raised (c : collector) (e : string).

(** Steps 2 and 3, the final update of [collected_structured_itinerary] and
    the collection of the other data; [texts] and [itinerary] are the two
    locals step 1 may have changed. *)
Definition after_parts (c : collector) (event : value) (texts : list value)
    (itinerary : value) (cur : value) : collector :=
  let cur := check_state_delta event cur in
  let cur := check_fallbacks event cur in
  let itinerary := if truthy cur then cur else itinerary in
  match event with
  | VDict ev =>
      Collector texts itinerary
        (collect_suggestions ev (collected_suggestions c))
        (collect_sub_agent ev (collected_active_sub_agents c))
        (collect_follow_up ev (requires_follow_up_flag c))
        (collect_error ev (error_message_text c))
        (full_event_log c)
  | _ =>
      Collector texts itinerary (collected_suggestions c)
        (collected_active_sub_agents c) (requires_follow_up_flag c)
        (error_message_text c) (full_event_log c)
  end.

Definition log_event (c : collector) (event : value) : collector :=
  Collector (collected_display_text_parts c) (collected_structured_itinerary c)
    (collected_suggestions c) (collected_active_sub_agents c)
    (requires_follow_up_flag c) (error_message_text c)
    (full_event_log c ++ [event]).

Definition process_event (c : collector) (event : value) : step :=
  let c := log_event c event in
  match event_parts event with
  | Some parts =>
      match py_iter parts with
      | Some ps =>
          let '(texts, cur) := scan_parts ps (collected_display_text_parts c) VNone in
          let itinerary :=
            if truthy cur then cur else collected_structured_itinerary c in
          Next (after_parts c event texts itinerary cur)
      | None =>
          Raised c ("'" +:+ type_name parts +:+ "' object is not iterable")
      end
  | None =>
      Next (after_parts c event (collected_display_text_parts c)
              (collected_structured_itinerary c) VNone)
  end.

(** *** The stream and the [try] block *)

(** What [stream_query] gives when it is iterated: finitely many events,
    after which the generator is exhausted or raises; [e] is [str] of the
    exception. *)
Inductive stream_end : Type :=
| Exhausted
| StreamRaises (e : string).

Record stream : Type := Stream {
  stream_events : list value;
  stream_ending : stream_end
}.

(** The [except Exception as e] handler. *)
Definition handle_exception (c : collector) (e : string) : collector :=
  Collector (collected_display_text_parts c) (collected_structured_itinerary c)
    (collected_suggestions c) (collected_active_sub_agents c)
    (requires_follow_up_flag c)
    (Some ("ERROR during stream_query: " +:+ e))
    (full_event_log c).

(** The [for] loop inside the [try] block, with its handler. *)
Fixpoint drain (c : collector) (events : list value) (ending : stream_end)
  : collector :=
  match events with
  | [] =>
      match ending with
      | Exhausted => c
      | StreamRaises e => handle_exception c e
      end
  | event :: rest =>
      match process_event c event with
      | Next c' => drain c' rest ending
      | Raised c' e => handle_exception c' e
      end
  end.

(** *** The returned dict *)

(** The dict [process_agent_query] returns.  The early return of the
    uninitialized case has only four of the keys; a key that can be missing
    is an [option], [None] standing for its absence.  [active_sub_agents] is
    [list(set)]: the names once each, in an order Python leaves open, so the
    model keeps the set. *)
Module AgentDict.
Record t : Type := Make {
  session_id : value;
  display_text : string;
  structured_itinerary_raw : option value;
  suggestions : option (list value);
  active_sub_agents : option (gset string);
  requires_follow_up : option bool;
  error_message : option string;
  full_event_log : list value
}.
End AgentDict.

(** The statements after the [try] block. *)
Definition finish (session_id : value) (c : collector) : outcome AgentDict.t :=
  match str_join (collected_display_text_parts c) with
  | Raise e => Raise e
  | Return final_display_text =>
      let flag :=
        if negb (requires_follow_up_flag c)
           && endswith_qmark (strip final_display_text)
        then true else requires_follow_up_flag c in
      Return (AgentDict.Make session_id final_display_text
                (Some (collected_structured_itinerary c))
                (Some (collected_suggestions c))
                (Some (collected_active_sub_agents c))
                (Some flag)
                (error_message_text c)
                (full_event_log c))
  end.

(** *** The remote engine *)

(** The keyword arguments of [stream_query]. *)
Record query_args : Type := QueryArgs {
  qa_message : string;
  qa_session_id : option value;
  qa_user_id : option string
}.

(** What [create_session] gives back: a dict, an object with or without an
    attribute [id], or an exception. *)
Inductive session_info : Type :=
| SessionDict (d : list (string * value))
| SessionObject (id : option value).

(** The remote engine as it answers at the time of one request.  It is
    opaque: all the code sees is whether it has a [create_session], what a
    call of it gives and what a [stream_query] yields. *)
Record engine : Type := Engine {
  has_create_session : bool;
  create_session : string -> outcome session_info;
  stream_query : query_args -> stream
}.

Definition build_query_args (user_query : string) (session_id : value)
    (user_id : string) : query_args :=
  QueryArgs user_query
    (if truthy session_id then Some session_id else None)
    (if truthy (VStr user_id) then Some user_id else None).

Definition not_initialized_msg : string :=
  "Agent not initialized (checked in process_agent_query).".

Definition process_agent_query (IS_INITIALIZED : bool)
    (REMOTE_AGENT_ENGINE : option engine)
    (user_query : string) (session_id : value) (user_id : string)
  : outcome AgentDict.t :=
  match IS_INITIALIZED, REMOTE_AGENT_ENGINE with
  | true, Some eng =>
      let s := stream_query eng (build_query_args user_query session_id user_id) in
      finish session_id (drain initial_collector (stream_events s) (stream_ending s))
  | _, _ =>
      Return (AgentDict.Make session_id not_initialized_msg None None None None
                (Some not_initialized_msg) [])
  end.

(** ** The FastAPI application: [main.py] *)

(** The module [vertex_ai_client] as [main.py] sees it: its two globals. *)
Record client_module : Type := ClientModule {
  IS_INITIALIZED : bool;
  REMOTE_AGENT_ENGINE : option engine
}.

(** The module-level state of [main.py].  [vertex_ai_client] is [None] when
    the import failed. *)
Record globals : Type := Globals {
  vertex_ai_client : option client_module;
  db_available : bool;
  _fastapi_agent_service_initialized : bool;
  _firestore_client_initialized : bool;
  _sdk_session_id_cache : gmap string value
}.

Record UserInput : Type := MkUserInput {
  query : string;
  session_id : option string
}.

(** What the code uses of pydantic for the model [Itinerary]:
    [Itinerary.model_validate(raw)], which raises [AttributeError] where the
    method does not exist (pydantic V1), the constructor called with the
    items of [raw] as keyword arguments, and the validation of a [List[str]] field, which [AgentResponse(...)]
    applies to [suggestions].  The type [Itinerary] is the type of the
    validated model instances. *)
Record pydantic (Itinerary : Type) : Type := Pydantic {
  model_validate : list (string * value) -> outcome Itinerary;
  Itinerary_init : list (string * value) -> outcome Itinerary;
  validate_str_list : list value -> outcome (list string)
}.
Arguments model_validate {Itinerary} _ _.
Arguments Itinerary_init {Itinerary} _ _.
Arguments validate_str_list {Itinerary} _ _.

Module AgentResponse.
Record t (Itinerary : Type) : Type := Make {
  session_id : string;
  display_text : string;
  suggestions : option (list string);
  structured_itinerary : option Itinerary;
  active_sub_agents : option (gset string);
  requires_follow_up : bool;
  error_message : option string
}.
Arguments Make {Itinerary} _ _ _ _ _ _ _.
Arguments session_id {Itinerary} _.
Arguments display_text {Itinerary} _.
Arguments suggestions {Itinerary} _.
Arguments structured_itinerary {Itinerary} _.
Arguments active_sub_agents {Itinerary} _.
Arguments requires_follow_up {Itinerary} _.
Arguments error_message {Itinerary} _.
End AgentResponse.

(** *** The session cache *)

(** [user_input.session_id or str(uuid.uuid4())]; [fresh_uuid] is the string
    [uuid4] would give. *)
Definition client_managed_session_id (user_input : UserInput) (fresh_uuid : string)
  : string :=
  match session_id user_input with
  | Some s => if truthy (VStr s) then s else fresh_uuid
  | None => fresh_uuid
  end.

Definition stable_agent_user_id (client_managed_session_id : string) : string :=
  "web_user_" +:+ client_managed_session_id.

(** [session_info.get("id")] for a dict, [session_info.id] for an object
    that has the attribute, [None] otherwise. *)
Definition returned_sdk_id (info : session_info) : value :=
  match info with
  | SessionDict d =>
      match dict_get "id" d with
      | Some v => v
      | None => VNone
      end
  | SessionObject (Some id) => id
  | SessionObject None => VNone
  end.

(** What resolving the SDK session id gives: the id passed to the agent
    query, the cache afterwards, and the user ids [create_session] was
    called with. *)
Record resolution : Type := Resolution {
  sdk_session_id_for_agent_query : value;
  cache_after : gmap string value;
  create_session_calls : list string
}.

(** Lines 103 to 130 of [chat_with_agent_endpoint]. *)
Definition resolve_sdk_session_id (cache : gmap string value) (eng : engine)
    (stable_agent_user_id client_managed_session_id : string) : resolution :=
  let cached :=
    match cache !! stable_agent_user_id with
    | Some v => v
    | None => VNone
    end in
  if truthy cached then Resolution cached cache []
  else
    let fallback calls :=
      Resolution (VStr client_managed_session_id)
        (<[stable_agent_user_id := VStr client_managed_session_id]> cache) calls in
    if has_create_session eng then
      match create_session eng stable_agent_user_id with
      | Return session_info =>
          let returned := returned_sdk_id session_info in
          if truthy returned then
            Resolution returned (<[stable_agent_user_id := returned]> cache)
              [stable_agent_user_id]
          else fallback [stable_agent_user_id]
      | Raise _ => fallback [stable_agent_user_id]
      end
    else fallback [].

(** *** [POST /chat] *)

(** The [try] statement around the parsing of the raw itinerary.  An
    exception raised by the [AttributeError] handler itself is not caught by
    the clauses that follow it. *)
Definition parse_itinerary {Itinerary : Type} (pyd : pydantic Itinerary)
    (db_available : bool) (raw_itinerary_data : value) : outcome (option Itinerary) :=
  match raw_itinerary_data with
  | VDict raw =>
      if truthy raw_itinerary_data && db_available then
        match model_validate pyd raw with
        | Return it => Return (Some it)
        | Raise (AttributeError _) =>
            match Itinerary_init pyd raw with
            | Return it => Return (Some it)
            | Raise e => Raise e
            end
        | Raise _ => Return None
        end
      else Return None
  | _ => Return None
  end.

(** What a handler of [POST /chat] leaves behind: what it returned or
    raised, the session cache, and the calls of [create_session] it made. *)
Record chat_result (Itinerary : Type) : Type := ChatResult {
  chat_outcome : outcome (AgentResponse.t Itinerary);
  chat_cache : gmap string value;
  chat_create_session_calls : list string
}.
Arguments ChatResult {Itinerary} _ _ _.
Arguments chat_outcome {Itinerary} _.
Arguments chat_cache {Itinerary} _.
Arguments chat_create_session_calls {Itinerary} _.

(** The construction of the [AgentResponse] from the agent's dict, with the
    [.get] defaults of the source. *)
Definition build_response {Itinerary : Type} (pyd : pydantic Itinerary)
    (client_managed_session_id : string) (agent_dict_response : AgentDict.t)
    (parsed_itinerary : option Itinerary) : outcome (AgentResponse.t Itinerary) :=
  let make suggestions :=
    AgentResponse.Make client_managed_session_id
      (AgentDict.display_text agent_dict_response)
      suggestions
      parsed_itinerary
      (AgentDict.active_sub_agents agent_dict_response)
      (match AgentDict.requires_follow_up agent_dict_response with
       | Some b => b
       | None => false
       end)
      (AgentDict.error_message agent_dict_response) in
  match AgentDict.suggestions agent_dict_response with
  | Some l =>
      match validate_str_list pyd l with
      | Return l' => Return (make (Some l'))
      | Raise e => Raise e
      end
  | None => Return (make None)
  end.

Definition chat_with_agent_endpoint {Itinerary : Type} (pyd : pydantic Itinerary)
    (g : globals) (fresh_uuid : string) (user_input : UserInput)
  : chat_result Itinerary :=
  let cache := _sdk_session_id_cache g in
  if negb (_fastapi_agent_service_initialized g) then
    ChatResult (Raise (HTTPException 503 (VStr "Agent service not available."))) cache []
  else
    match vertex_ai_client g with
    | Some (ClientModule true (Some eng)) =>
        let client_managed_session_id := client_managed_session_id user_input fresh_uuid in
        let stable_agent_user_id := stable_agent_user_id client_managed_session_id in
        let r := resolve_sdk_session_id cache eng stable_agent_user_id
                   client_managed_session_id in
        let answer :=
          match process_agent_query true (Some eng) (query user_input)
                  (sdk_session_id_for_agent_query r) stable_agent_user_id with
          | Raise e => Raise e
          | Return agent_dict_response =>
              let raw_itinerary_data :=
                match AgentDict.structured_itinerary_raw agent_dict_response with
                | Some v => v
                | None => VNone
                end in
              match parse_itinerary pyd (db_available g) raw_itinerary_data with
              | Raise e => Raise e
              | Return parsed_itinerary =>
                  build_response pyd client_managed_session_id agent_dict_response
                    parsed_itinerary
              end
          end in
        ChatResult answer (cache_after r) (create_session_calls r)
    | _ =>
        ChatResult (Raise (HTTPException 503 (VStr "Agent engine component missing.")))
          cache []
    end.

(** *** [GET /health] *)

(** [d[k] = v] on the items of a dict. *)
Fixpoint dict_set (k : string) (v : value) (d : list (string * value))
  : list (string * value) :=
  match d with
  | [] => [(k, v)]
  | (k', v') :: d' =>
      if String.eqb k k' then (k, v) :: d' else (k', v') :: dict_set k v d'
  end.

(** [" ".join(l)] on a list of strings. *)
Fixpoint join_spaces (l : list string) : string :=
  match l with
  | [] => ""
  | [s] => s
  | s :: rest => s +:+ " " +:+ join_spaces rest
  end.

(** What a handler hands to the framework with [return]: a JSON-like body,
    or, as [health_check] does, an exception object used as a value. *)
Inductive returned : Type :=
| Body (v : value)
| ExceptionObject (e : exn).

Definition health_check (g : globals) : outcome returned :=
  let client_module_ok :=
    match vertex_ai_client g with
    | Some m => VBool (IS_INITIALIZED m)
    | None => VNone
    end in
  let service_status :=
    [ ("status", VStr "degraded");
      ("agent_initialized_in_fastapi", VBool (_fastapi_agent_service_initialized g));
      ("client_module_flag_initialized", client_module_ok);
      ("firestore_client_initialized", VBool (_firestore_client_initialized g));
      ("message", VList []) ] in
  let agent_ok := _fastapi_agent_service_initialized g && truthy client_module_ok in
  let message1 :=
    if agent_ok then [] else ["Agent service initialization pending or failed."] in
  let message2 :=
    if _firestore_client_initialized g then message1
    else message1 ++ ["Firestore client initialization pending or failed."] in
  let all_ok := agent_ok && _firestore_client_initialized g in
  if all_ok then
    Return (Body (VDict (dict_set "message"
                           (VList (map VStr (message2 ++ ["All services nominal."])))
                           (dict_set "status" (VStr "ok") service_status))))
  else
    Return (ExceptionObject
              (HTTPException 503
                 (VDict (dict_set "message" (VStr (join_spaces message2))
                           service_status)))).

(** The status line FastAPI sends for a handler of a route declared without
    a status code: 200 with the serialized value when the handler returns,
    the status code of an [HTTPException] it raises, 500 for any other
    exception. *)
Definition http_status {A : Type} (o : outcome A) : Z :=
  match o with
  | Return _ => 200
  | Raise (HTTPException status_code _) => status_code
  | Raise _ => 500
  end.

(** ** Notions used in the statements *)

(** An event makes the loop raise when its [parts] cannot be iterated. *)
Definition event_raises (event : value) : bool :=
  match event_parts event with
  | Some parts =>
      match py_iter parts with
      | Some _ => false
      | None => true
      end
  | None => false
  end.

(** The events the loop processes to the end of its body: those before the
    first one that makes it raise. *)
Fixpoint consumed (events : list value) : list value :=
  match events with
  | [] => []
  | event :: rest => if event_raises event then [] else event :: consumed rest
  end.

(** The scan of the parts of an event, started afresh. *)
Definition scanned (event : value) : list value * value :=
  match event_parts event with
  | Some parts =>
      match py_iter parts with
      | Some ps => scan_parts ps [] VNone
      | None => ([], VNone)
      end
  | None => ([], VNone)
  end.

(** The text parts the scan of an event collects. *)
Definition scanned_texts (event : value) : list value := fst (scanned event).

(** The three discovery paths, each taken alone: (a) the parts, (b) the
    state delta, (c) the top-level and wrapped keys. *)
Definition path_a (event : value) : value := snd (scanned event).
Definition path_b (event : value) : value := check_state_delta event VNone.
Definition path_c (event : value) : value := check_fallbacks event VNone.

(** The itinerary an event is found to carry: the state delta's if it has a
    non-empty one, else the one found in the parts if non-empty, else the
    one under a top-level or wrapped key.  A value that is not truthy means
    that the event carries none. *)
Definition event_itinerary (event : value) : value :=
  if truthy (path_b event) then path_b event
  else if truthy (path_a event) then path_a event
  else path_c event.

(** The itinerary kept after a sequence of events, starting from [old]. *)
Definition last_itinerary (events : list value) (old : value) : value :=
  fold_left (fun it e => if truthy (event_itinerary e) then event_itinerary e else it)
    events old.

(** The other data one event contributes. *)
Definition explicit_flag (event : value) : option bool :=
  match event with
  | VDict ev =>
      match dict_get "requires_follow_up" ev with
      | Some (VBool b) => Some b
      | _ => None
      end
  | _ => None
  end.

Definition event_error (event : value) : option string :=
  match event with
  | VDict ev => collect_error ev None
  | _ => None
  end.

Definition event_suggestions (event : value) : list value :=
  match event with
  | VDict ev => collect_suggestions ev []
  | _ => []
  end.

Definition event_sub_agents (event : value) : gset string :=
  match event with
  | VDict ev => collect_sub_agent ev ∅
  | _ => ∅
  end.

(** The effect of one iteration that ends normally, field by field. *)
Definition absorb (c : collector) (event : value) : collector :=
  Collector
    (collected_display_text_parts c ++ scanned_texts event)
    (if truthy (event_itinerary event) then event_itinerary event
     else collected_structured_itinerary c)
    (collected_suggestions c ++ event_suggestions event)
    (event_sub_agents event ∪ collected_active_sub_agents c)
    (default (requires_follow_up_flag c) (explicit_flag event))
    (match event_error event with
     | Some e => Some e
     | None => error_message_text c
     end)
    (full_event_log c ++ [event]).

(** The first event that makes the loop raise, and the [str] of the
    [TypeError] it raises. *)
Fixpoint first_raising (events : list value) : option value :=
  match events with
  | [] => None
  | event :: rest => if event_raises event then Some event else first_raising rest
  end.

Definition raise_message (event : value) : string :=
  match event_parts event with
  | Some parts => "'" +:+ type_name parts +:+ "' object is not iterable"
  | None => ""
  end.

(** The [str] of the exception that left the loop, if one did. *)
Definition loop_error (events : list value) (ending : stream_end) : option string :=
  match first_raising events with
  | Some bad => Some (raise_message bad)
  | None =>
      match ending with
      | Exhausted => None
      | StreamRaises e => Some e
      end
  end.

(** The dict returned for a stream, given the joined display text [text]. *)
Definition summary (session_id : value) (events : list value) (ending : stream_end)
    (text : string) : AgentDict.t :=
  let evs := consumed events in
  AgentDict.Make session_id text
    (Some (last_itinerary evs VNone))
    (Some (concat (map event_suggestions evs)))
    (Some (⋃ (map event_sub_agents evs)))
    (Some (default false (last (omap explicit_flag evs))
           || endswith_qmark (strip text)))
    (match loop_error events ending with
     | Some e => Some ("ERROR during stream_query: " +:+ e)
     | None => last (omap event_error evs)
     end)
    (evs ++ match first_raising events with Some bad => [bad] | None => [] end).

(** Every non-empty [text] field of the parts of an event, in part order. *)
Definition all_text_parts (event : value) : list value :=
  match event_parts event with
  | Some (VList ps) => omap part_text ps
  | _ => []
  end.

(** An event with its top-level [error] and [error_message] keys removed. *)
Definition error_key (kv : string * value) : bool :=
  String.eqb (fst kv) "error" || String.eqb (fst kv) "error_message".

Definition without_error (event : value) : value :=
  match event with
  | VDict ev => VDict (List.filter (fun kv => negb (error_key kv)) ev)
  | _ => event
  end.

Definition is_str (v : value) : bool :=
  match v with
  | VStr _ => true
  | _ => false
  end.

(** The cache after a sequence of resolutions, each by the engine as it
    answers at that time and for the client-managed id given. *)
Definition resolve_all (cache : gmap string value) (requests : list (engine * string))
  : gmap string value :=
  fold_left
    (fun m (request : engine * string) =>
       cache_after (resolve_sdk_session_id m (fst request)
                      (stable_agent_user_id (snd request)) (snd request)))
    requests cache.

Definition dependencies_initialized (g : globals) : bool :=
  _fastapi_agent_service_initialized g
  && match vertex_ai_client g with
     | Some m => IS_INITIALIZED m
     | None => false
     end
  && _firestore_client_initialized g.

(** A response with its structured itinerary left out. *)
Definition drop_itinerary {Itinerary : Type} (resp : AgentResponse.t Itinerary)
  : AgentResponse.t Itinerary :=
  AgentResponse.Make (AgentResponse.session_id resp) (AgentResponse.display_text resp)
    (AgentResponse.suggestions resp) None (AgentResponse.active_sub_agents resp)
    (AgentResponse.requires_follow_up resp) (AgentResponse.error_message resp).

Definition outcome_map {A B : Type} (f : A -> B) (o : outcome A) : outcome B :=
  match o with
  | Return a => Return (f a)
  | Raise e => Raise e
  end.

(** ** Test data *)

(** An engine whose [stream_query] yields the given events and then ends as
    given, whatever it is asked, and that has no [create_session]. *)
Definition engine_yielding (events : list value) (ending : stream_end) : engine :=
  Engine false (fun _ => Raise (OtherError "no create_session"))
    (fun _ => Stream events ending).

(** The example of the specification: two text events around an empty state
    delta. *)
Definition spec_example : list value :=
  [ VDict [("content", VDict [("parts", VList [VDict [("text", VStr "Day 1: ")]])])];
    VDict [("actions", VDict [("state_delta", VDict [("itinerary", VDict [])])])];
    VDict [("content", VDict [("parts", VList [VDict [("text", VStr "arrive SEA.")]])])] ].

Definition rome : value := VDict [("trip_name", VStr "Rome weekend")].
Definition paris : value := VDict [("trip_name", VStr "Paris getaway")].

(** A part holding the function response of the itinerary agent. *)
Definition rome_response_part : value :=
  VDict [("function_response",
          VDict [("name", VStr "itinerary_agent"); ("response", rome)])].


Definition event_rome : value :=
  VDict [("content", VDict [("parts", VList [rome_response_part])])].

Definition event_paris : value :=
  VDict [("actions", VDict [("state_delta", VDict [("itinerary", paris)])])].

Definition event_text (s : string) : value :=
  VDict [("content", VDict [("parts", VList [VDict [("text", VStr s)]])])].


(** A function response of the itinerary agent followed, in the same event,
    by a text part. *)
Definition event_text_after_itinerary : value :=
  VDict [("content",
          VDict [("parts",
                  VList [rome_response_part;
                         VDict [("text", VStr "Here is your Rome weekend.")]])])].

Definition event_flag (b : bool) : value := VDict [("requires_follow_up", VBool b)].

Definition event_error_first : value := VDict [("error", VStr "quota exceeded")].
Definition event_error_second : value :=
  VDict [("error_message", VStr "tool timed out")].

Definition events_with_errors : list value :=
  [event_text "Searching. "; event_error_first; event_rome;
   event_error_second; event_text "Done."].

Definition events_before_failure : list value :=
  [event_text "Day 1: "; event_rome; event_text "arrive FCO."].

(** An event whose only part has a [text] that is not a string. *)
Definition event_text_number : value :=
  VDict [("content", VDict [("parts", VList [VDict [("text", VInt 5)]])])].

(** An engine whose [create_session] returns a dict with the given id. *)
Definition engine_creating (id : string) : engine :=
  Engine true (fun _ => Return (SessionDict [("id", VStr id)]))
    (fun _ => Stream [] Exhausted).

(** An engine whose [create_session] raises. *)
Definition engine_failing : engine :=
  Engine true (fun _ => Raise (OtherError "create_session failed"))
    (fun _ => Stream [] Exhausted).

Definition globals_down : globals := Globals None false false false ∅.

(** A [List[str]] validation that accepts strings only. *)
Fixpoint strict_str_list (l : list value) : outcome (list string) :=
  match l with
  | [] => Return []
  | VStr s :: rest =>
      match strict_str_list rest with
      | Return l' => Return (s :: l')
      | Raise e => Raise e
      end
  | _ :: _ => Raise (ValidationError "suggestions: Input should be a valid string")
  end.

(** A validation of itineraries that asks for a string [start_date], one
    that accepts every dict, and the pydantic V1 situation, where
    [model_validate] does not exist and the constructor rejects the dict. *)
Definition require_start_date (raw : list (string * value))
  : outcome (list (string * value)) :=
  match dict_get "start_date" raw with
  | Some (VStr _) => Return raw
  | _ => Raise (ValidationError "start_date: Field required")
  end.

Definition pydantic_strict : pydantic (list (string * value)) :=
  Pydantic _ require_start_date require_start_date strict_str_list.

Definition pydantic_lenient : pydantic (list (string * value)) :=
  Pydantic _ (fun raw => Return raw) (fun raw => Return raw) strict_str_list.

Definition pydantic_v1 : pydantic (list (string * value)) :=
  Pydantic _
    (fun _ => Raise (AttributeError "type object 'Itinerary' has no attribute 'model_validate'"))
    require_start_date strict_str_list.

(** An engine that creates the session [id] and streams the given events. *)
Definition engine_with (id : string) (events : list value) (ending : stream_end)
  : engine :=
  Engine true (fun _ => Return (SessionDict [("id", VStr id)]))
    (fun _ => Stream events ending).

Definition globals_ready (eng : engine) : globals :=
  Globals (Some (ClientModule true (Some eng))) true true true ∅.

Definition fresh_uuid_example : string := "1b4e28ba-2fa1-41d2-883f-0016d3cca427".

Definition input_trip_42 : UserInput := MkUserInput "plan a trip" (Some "trip-42").

Definition events_malformed : list value :=
  [event_text "Here is a draft. "; event_rome; event_text "Shall I book it?"].

Definition input_empty_session : UserInput := MkUserInput "plan a trip" (Some "").

(** ** Notions used in the further properties of the extractor *)



(** A returned dict with one more event at the end of its log. *)
Definition with_logged (event : value) (d : AgentDict.t) : AgentDict.t :=
  AgentDict.Make (AgentDict.session_id d) (AgentDict.display_text d)
    (AgentDict.structured_itinerary_raw d) (AgentDict.suggestions d)
    (AgentDict.active_sub_agents d) (AgentDict.requires_follow_up d)
    (AgentDict.error_message d) (AgentDict.full_event_log d ++ [event]).

(** The [str] of the [TypeError] that iterating a value that is not
    iterable raises. *)
Definition not_iterable_message (parts : value) : string :=
  "'" +:+ type_name parts +:+ "' object is not iterable".

(** An event that names the sub-agent [name]: by a string [author], or, when
    it has no string [author], by a string [source_agent]. *)
Definition names_sub_agent (name : string) (event : value) : Prop :=
  exists ev,
    event = VDict ev
    /\ (dict_get "author" ev = Some (VStr name)
        \/ ((forall a, dict_get "author" ev <> Some (VStr a))
            /\ dict_get "source_agent" ev = Some (VStr name))).

(** A part at which the scan of the parts stops. *)
Definition carries_itinerary (part : value) : bool :=
  match part_function_response part, part_tool_result part with
  | None, None => false
  | _, _ => true
  end.

(** An event whose [parts] is [None]. *)
Definition event_parts_none : value :=
  VDict [("content", VDict [("parts", VNone)])].

Definition event_authored (author : string) (s : string) : value :=
  VDict [("author", VStr author);
         ("source_agent", VStr "root_agent");
         ("content", VDict [("parts", VList [VDict [("text", VStr s)]])])].

(** ** Notions used in the further properties of the chat endpoint *)

(** Every id the cache holds is truthy. *)
Definition cache_ids_truthy (cache : gmap string value) : Prop :=
  map_Forall (fun _ v => truthy v = true) cache.

(** An engine whose [create_session] gives a dict without an id. *)
Definition engine_without_id : engine :=
  Engine true (fun _ => Return (SessionDict [("name", VStr "sessions/1")]))
    (fun _ => Stream [] Exhausted).

Definition globals_not_started : globals :=
  Globals (Some (ClientModule false None)) true false false ∅.

Definition rome_dated : list (string * value) :=
  [("trip_name", VStr "Rome weekend"); ("start_date", VStr "2025-06-01")].

Definition event_rome_dated : value :=
  VDict [("actions", VDict [("state_delta", VDict [("itinerary", VDict rome_dated)])])].

Definition globals_without_db : globals :=
  Globals (Some (ClientModule true (Some (engine_with "sess-1" [event_rome] Exhausted))))
    false true false ∅.

(** ** Initialization: [initialize_globals_and_agent],
       [initialize_firestore_client] and [startup_event] *)

(** The Firestore client as it answers at the time of one request.  A
    document is the dict [to_dict()] gives; [document_get] gives [None] for
    a snapshot that does not exist; [query_stream] gives the documents of a
    collection whose [user_id] is the one given, whose [status] is the one
    given if any, ordered by [start_date]. *)
Record firestore : Type := Firestore {
  document_get : string -> string -> outcome (option (list (string * value)));
  query_stream :
    string -> string -> option string -> outcome (list (list (string * value)))
}.

(** The file [.env] beside the client module: absent, holding variables, or
    making the [try] block around its loading fail. *)
Inductive dotenv : Type :=
| DotenvMissing
| DotenvFile (vars : gmap string string)
| DotenvFails.

(** What lies outside the process at the time of a call: the [.env] file,
    [vertexai.init], [agent_engines.get] and [firestore.Client]. *)
Record platform : Type := Platform {
  dotenv_file : dotenv;
  vertexai_init : string -> string -> outcome unit;
  agent_engines_get : string -> outcome (option engine);
  firestore_Client : string -> option string -> outcome firestore
}.

(** [load_dotenv] does not override: a variable of the file is set only if
    the environment does not have it. *)
Definition load_dotenv (file : dotenv) (environ : gmap string string)
  : gmap string string :=
  match file with
  | DotenvFile vars => environ ∪ vars
  | _ => environ
  end.

(** The truth value of what [os.getenv] gives. *)
Definition env_truthy (o : option string) : bool :=
  match o with
  | Some s => negb (String.eqb s "")
  | None => false
  end.

Record initialization : Type := Initialization {
  init_returned : bool;
  init_module : client_module;
  init_environ : gmap string string
}.

Definition initialize_globals_and_agent (p : platform)
    (environ : gmap string string) (m : client_module) : initialization :=
  if IS_INITIALIZED m then Initialization true m environ
  else
    let environ := load_dotenv (dotenv_file p) environ in
    let project_id := environ !! "GOOGLE_CLOUD_PROJECT" in
    let location := environ !! "GOOGLE_CLOUD_LOCATION" in
    let agent_resource_id := environ !! "REASONING_ENGINE_RESOURCE_NAME" in
    let failed :=
      Initialization false (ClientModule false (REMOTE_AGENT_ENGINE m)) environ in
    match project_id, location, agent_resource_id with
    | Some project, Some loc, Some resource =>
        if env_truthy project_id && env_truthy location && env_truthy agent_resource_id
        then
          match vertexai_init p project loc with
          | Return _ =>
              match agent_engines_get p resource with
              | Return (Some eng) =>
                  Initialization true (ClientModule true (Some eng)) environ
              | Return None =>
                  Initialization false (ClientModule false None) environ
              | Raise _ => failed
              end
          | Raise _ => failed
          end
        else failed
    | _, _, _ => failed
    end.

(** [initialize_firestore_client]: what it returns and [FIRESTORE_CLIENT]
    afterwards. *)
Definition initialize_firestore_client (p : platform) (environ : gmap string string)
    (FIRESTORE_CLIENT : option firestore)
    (project_id : option string) (database_id : string)
  : bool * option firestore :=
  match FIRESTORE_CLIENT with
  | Some _ => (true, FIRESTORE_CLIENT)
  | None =>
      let effective_project_id := environ !! "GOOGLE_CLOUD_PROJECT" in
      let database_id := environ !! "GOOGLE_FIRESTORE_DB" in
      match effective_project_id with
      | Some project =>
          if env_truthy effective_project_id then
            match firestore_Client p project database_id with
            | Return client => (true, Some client)
            | Raise _ => (false, None)
            end
          else (false, None)
      | None => (false, None)
      end
  end.

(** The state of the server process: the globals of [main.py], the
    environment variables, and [FIRESTORE_CLIENT] of [db.py]. *)
Record server : Type := Server {
  main_globals : globals;
  os_environ : gmap string string;
  FIRESTORE_CLIENT : option firestore
}.

Definition startup_event (p : platform) (s : server) : server :=
  let g := main_globals s in
  let agent :=
    match vertex_ai_client g with
    | Some m =>
        let r := initialize_globals_and_agent p (os_environ s) m in
        (init_returned r, Some (init_module r), init_environ r)
    | None => (false, None, os_environ s)
    end in
  let store :=
    if db_available g then
      initialize_firestore_client p (agent.2) (FIRESTORE_CLIENT s) None "ai-agent-dev"
    else (false, FIRESTORE_CLIENT s) in
  Server (Globals (agent.1.2) (db_available g) (agent.1.1) (store.1) ∅)
    (agent.2) (store.2).

(** The module keeps its two globals consistent: it is not marked
    initialized without an engine. *)
Definition module_consistent (m : client_module) : Prop :=
  IS_INITIALIZED m = true -> exists eng, REMOTE_AGENT_ENGINE m = Some eng.

(** Test data: a platform on which everything succeeds, one whose [.env]
    file lacks the location, and a freshly started process. *)
Definition env_complete : gmap string string :=
  {[ "GOOGLE_CLOUD_PROJECT" := "demo-project";
     "GOOGLE_CLOUD_LOCATION" := "us-central1";
     "REASONING_ENGINE_RESOURCE_NAME" := "projects/1/locations/us-central1/reasoningEngines/7" ]}.

Definition firestore_empty : firestore :=
  Firestore (fun _ _ => Return None) (fun _ _ _ => Return []).

Definition platform_ok : platform :=
  Platform (DotenvFile env_complete) (fun _ _ => Return tt)
    (fun _ => Return (Some (engine_creating "sess-1")))
    (fun _ _ => Return firestore_empty).

Definition platform_broken_sdk : platform :=
  Platform (DotenvFile env_complete) (fun _ _ => Raise (OtherError "no credentials"))
    (fun _ => Raise (OtherError "not found"))
    (fun _ _ => Raise (OtherError "no credentials")).

Definition platform_no_location : platform :=
  Platform (DotenvFile {[ "GOOGLE_CLOUD_PROJECT" := "demo-project";
                          "GOOGLE_CLOUD_LOCATION" := "" ]})
    (fun _ _ => Return tt)
    (fun _ => Return (Some (engine_creating "sess-1")))
    (fun _ _ => Return firestore_empty).

Definition module_fresh : client_module := ClientModule false None.

Definition server_fresh : server :=
  Server (Globals (Some module_fresh) true false false
            {[ "web_user_old" := VStr "stale" ]})
    ∅ None.

(** ** The trip store: [db.py] and the [/trips] endpoints *)

Definition TRIPS_COLLECTION : string := "user_trips_v2".

(** The guard [if not FIRESTORE_CLIENT and not initialize_firestore_client()]
    at the head of the functions of [db.py]: [FIRESTORE_CLIENT] after it;
    the function goes on exactly when that is set. *)
Definition ensure_firestore_client (p : platform) (environ : gmap string string)
    (FIRESTORE_CLIENT : option firestore) : option firestore :=
  match FIRESTORE_CLIENT with
  | Some client => Some client
  | None => (initialize_firestore_client p environ None None "ai-agent-dev").2
  end.

(** The validation of stored itinerary details, inside the outer [try] of
    [get_trip_details_from_firestore]: every exception ends in [None].  A
    value that is not a dict is rejected by [model_validate] and cannot be
    unpacked by the constructor. *)
Definition validate_stored_itinerary {Itinerary : Type} (pyd : pydantic Itinerary)
    (itinerary_details_dict : value) : option Itinerary :=
  match itinerary_details_dict with
  | VDict raw =>
      match model_validate pyd raw with
      | Return it => Some it
      | Raise (AttributeError _) =>
          match Itinerary_init pyd raw with
          | Return it => Some it
          | Raise _ => None
          end
      | Raise _ => None
      end
  | _ => None
  end.

Definition get_trip_details_from_firestore {Itinerary : Type} (pyd : pydantic Itinerary)
    (p : platform) (environ : gmap string string)
    (FIRESTORE_CLIENT : option firestore) (trip_id : string)
  : option Itinerary * option firestore :=
  match ensure_firestore_client p environ FIRESTORE_CLIENT with
  | None => (None, None)
  | Some client =>
      (match document_get client TRIPS_COLLECTION trip_id with
       | Return (Some trip_data_dict) =>
           match dict_get "itinerary_details" trip_data_dict with
           | Some itinerary_details_dict =>
               if truthy itinerary_details_dict
               then validate_stored_itinerary pyd itinerary_details_dict
               else None
           | None => None
           end
       | Return None => None
       | Raise _ => None
       end, Some client)
  end.

(** [GET /trips/{trip_id}]: what the handler returns or raises, and the
    server afterwards. *)
Definition get_trip_details_api_endpoint {Itinerary : Type} (pyd : pydantic Itinerary)
    (p : platform) (s : server) (trip_id : string) : outcome Itinerary * server :=
  let g := main_globals s in
  if negb (_firestore_client_initialized g) || negb (db_available g) then
    (Raise (HTTPException 503 (VStr "Database service not available.")), s)
  else
    let r := get_trip_details_from_firestore pyd p (os_environ s)
               (FIRESTORE_CLIENT s) trip_id in
    (match r.1 with
     | Some itinerary_model => Return itinerary_model
     | None =>
         Raise (HTTPException 404
                  (VStr ("Trip with ID " +:+ trip_id +:+ " not found.")))
     end,
     Server g (os_environ s) r.2).

(** [d.get(k)]: [None] for a missing key. *)
Definition dict_get_or_none (k : string) (d : list (string * value)) : value :=
  default VNone (dict_get k d).

(** The summary [get_trips_for_user_from_firestore] builds of a document. *)
Definition trip_summary_of (trip_data : list (string * value))
  : list (string * value) :=
  [ ("trip_id", dict_get_or_none "trip_id" trip_data);
    ("trip_name", default (VStr "Untitled Trip") (dict_get "trip_name" trip_data));
    ("start_date", dict_get_or_none "start_date" trip_data);
    ("end_date", dict_get_or_none "end_date" trip_data);
    ("status", dict_get_or_none "status" trip_data) ].

Definition get_trips_for_user_from_firestore (p : platform)
    (environ : gmap string string) (FIRESTORE_CLIENT : option firestore)
    (user_id : string) (status : option string)
  : list (list (string * value)) * option firestore :=
  match ensure_firestore_client p environ FIRESTORE_CLIENT with
  | None => ([], None)
  | Some client =>
      (match query_stream client TRIPS_COLLECTION user_id
               (if env_truthy status then status else None) with
       | Return docs => map trip_summary_of docs
       | Raise _ => []
       end, Some client)
  end.

Record TripSummary : Type := MkTripSummary {
  trip_id : string;
  trip_name : string;
  start_date : option string;
  end_date : option string;
  status : option string
}.

(** The validation of a [str] field and of an [Optional[str]] field: a
    string is taken as it is, [None] is rejected by the first and accepted
    by the second; what is done with a value of another type depends on the
    version of pydantic and is the parameter [coerce_str].  [None] as result
    stands for a [ValidationError]. *)
Definition validate_str (coerce_str : value -> option string) (v : value)
  : option string :=
  match v with
  | VStr s => Some s
  | VNone => None
  | _ => coerce_str v
  end.

Definition validate_optional_str (coerce_str : value -> option string) (v : value)
  : option (option string) :=
  match v with
  | VStr s => Some (Some s)
  | VNone => Some None
  | _ => option_map Some (coerce_str v)
  end.

(** The constructor of [TripSummary] called with the items of a summary
    dict as keyword arguments; [None] stands for a [ValidationError]. *)
Definition TripSummary_init (coerce_str : value -> option string)
    (d : list (string * value)) : option TripSummary :=
  match validate_str coerce_str (dict_get_or_none "trip_id" d),
        validate_str coerce_str (dict_get_or_none "trip_name" d),
        validate_optional_str coerce_str (dict_get_or_none "start_date" d),
        validate_optional_str coerce_str (dict_get_or_none "end_date" d),
        validate_optional_str coerce_str (dict_get_or_none "status" d) with
  | Some i, Some n, Some s, Some e, Some st => Some (MkTripSummary i n s e st)
  | _, _, _, _, _ => None
  end.

(** The entry of [GET /trips] for a stored document, if it gets one: the
    summary that [get_trips_for_user_from_firestore] builds of the
    document, validated by the constructor of [TripSummary]. *)
Definition listed_trip (coerce_str : value -> option string)
    (doc : list (string * value)) : option TripSummary :=
  TripSummary_init coerce_str (trip_summary_of doc).

(** A field that is missing, null or a string. *)
Definition str_or_absent (field : option value) : bool :=
  match field with
  | None | Some VNone | Some (VStr _) => true
  | Some _ => false
  end.

(** [GET /trips]. *)
Definition list_trips_api_endpoint (coerce_str : value -> option string)
    (p : platform) (s : server) (client_session_id : string) (status : option string)
  : outcome (list TripSummary) * server :=
  let g := main_globals s in
  if negb (_firestore_client_initialized g) || negb (db_available g) then
    (Raise (HTTPException 503 (VStr "Database service not available.")), s)
  else
    let user_id_for_db := "db_user_" +:+ client_session_id in
    let r := get_trips_for_user_from_firestore p (os_environ s) (FIRESTORE_CLIENT s)
               user_id_for_db status in
    (Return (omap (TripSummary_init coerce_str) r.1), Server g (os_environ s) r.2).

(** Test data: a store with one trip of alice that validates, one without
    a trip id, and one with a null name. *)
Definition stored_rome : list (string * value) :=
  [("trip_id", VStr "t-1"); ("user_id", VStr "db_user_alice");
   ("start_date", VStr "2025-06-01"); ("status", VStr "upcoming");
   ("itinerary_details", VDict rome_dated)].

Definition stored_without_id : list (string * value) :=
  [("trip_name", VStr "Lost trip"); ("user_id", VStr "db_user_alice")].

Definition stored_null_name : list (string * value) :=
  [("trip_id", VStr "t-3"); ("trip_name", VNone)].

Definition firestore_alice : firestore :=
  Firestore
    (fun _ id => if String.eqb id "t-1" then Return (Some stored_rome) else Return None)
    (fun _ _ _ => Return [stored_rome; stored_without_id; stored_null_name]).

Definition firestore_down : firestore :=
  Firestore (fun _ _ => Raise (OtherError "deadline exceeded"))
    (fun _ _ _ => Raise (OtherError "deadline exceeded")).

Definition server_with (client : firestore) : server :=
  Server (Globals None true false true ∅) ∅ (Some client).

(** No coercion: a value that is not a string is rejected. *)
Definition no_coercion (v : value) : option string := None.

(** ** The command-line loop: [run_cli_chat_loop] *)

Definition cli_user_id : string := "interactive_cli_user_001".

(** [c.lower()] on the code points 0 to 255: the letters A to Z and the
    capital letters of Latin-1 (192 to 222, the multiplication sign 215
    apart) are moved by 32. *)
Definition ascii_lower (a : ascii) : ascii :=
  let n := nat_of_ascii a in
  if (Nat.leb 65 n && Nat.leb n 90)
     || (Nat.leb 192 n && Nat.leb n 222 && negb (Nat.eqb n 215))
  then ascii_of_nat (n + 32) else a.

Fixpoint str_lower (s : string) : string :=
  match s with
  | EmptyString => EmptyString
  | String a s' => String (ascii_lower a) (str_lower s')
  end.

(** [user_message.lower() in ["exit", "quit"]]. *)
Definition is_exit (user_message : string) : bool :=
  String.eqb (str_lower user_message) "exit"
  || String.eqb (str_lower user_message) "quit".

(** [not user_message.strip()]. *)
Definition is_blank (user_message : string) : bool :=
  String.eqb (strip user_message) "".

(** The session of the loop: the id [create_session] returns when the
    engine has the method, the call succeeds and the id is truthy; a fresh
    UUID otherwise. *)
Definition create_cli_session (eng : engine) (fresh_uuid : string) : value :=
  if has_create_session eng then
    match create_session eng cli_user_id with
    | Return session_info =>
        let returned_id := returned_sdk_id session_info in
        if truthy returned_id then returned_id else VStr fresh_uuid
    | Raise _ => VStr fresh_uuid
    end
  else VStr fresh_uuid.

(** One turn of the loop: the arguments [stream_query] was called with and
    the display text printed. *)
Record cli_turn : Type := CliTurn {
  turn_query : query_args;
  turn_printed : string
}.

(** The [while True] loop over the lines typed.  [input()] raises
    [EOFError] when there is no line left, and an exception of
    [process_agent_query] is not caught; either leaves the loop. *)
Fixpoint cli_loop (eng : engine) (current_cli_session_id : value)
    (lines : list string) : list cli_turn * outcome unit :=
  match lines with
  | [] => ([], Raise (OtherError "EOF when reading a line"))
  | user_message :: rest =>
      if is_exit user_message then ([], Return tt)
      else if is_blank user_message then cli_loop eng current_cli_session_id rest
      else
        match process_agent_query true (Some eng) user_message
                current_cli_session_id cli_user_id with
        | Return response_data =>
            let r := cli_loop eng current_cli_session_id rest in
            (CliTurn (build_query_args user_message current_cli_session_id cli_user_id)
               (AgentDict.display_text response_data) :: r.1, r.2)
        | Raise e => ([], Raise e)
        end
  end.

Definition run_cli_chat_loop (IS_INITIALIZED : bool)
    (REMOTE_AGENT_ENGINE : option engine) (fresh_uuid : string)
    (lines : list string) : list cli_turn * outcome unit :=
  match IS_INITIALIZED, REMOTE_AGENT_ENGINE with
  | true, Some eng => cli_loop eng (create_cli_session eng fresh_uuid) lines
  | _, _ => ([], Return tt)
  end.

(** The lines typed before the first exit command. *)
Fixpoint before_exit (lines : list string) : list string :=
  match lines with
  | [] => []
  | l :: rest => if is_exit l then [] else l :: before_exit rest
  end.

Definition cli_lines : list string :=
  ["Plan a weekend in Rome"; "   "; "Quit"; "never sent"].

(** ** The memory tools of the agent: [tools/memory.py] *)

(** [KeyError(key)], which the universe of exceptions above has no
    constructor for. *)
Definition KeyError (key : string) : exn := OtherError ("KeyError: '" +:+ key +:+ "'").

(** [s in t] on strings: [s] occurs in [t]. *)
Fixpoint is_substring (s t : string) : bool :=
  String.prefix s t
  || match t with
     | EmptyString => false
     | String _ t' => is_substring s t'
     end.

(** [x == s] for a string [s]: only an equal string is equal to it. *)
Definition eq_str (s : string) (x : value) : bool :=
  match x with
  | VStr s' => String.eqb s s'
  | _ => false
  end.

(** [s in container] for a string [s]: an equal item of a list, a
    substring of a string, a key of a dict; [TypeError] for a container
    that is none of these. *)
Definition py_contains (s : string) (container : value) : outcome bool :=
  match container with
  | VList l => Return (existsb (eq_str s) l)
  | VStr t => Return (is_substring s t)
  | VDict d => Return (match dict_get s d with Some _ => true | None => false end)
  | _ =>
      Raise (TypeError ("argument of type '" +:+ type_name container
                          +:+ "' is not iterable"))
  end.

(** [l.remove(s)]: the list without its first item equal to [s]. *)
Fixpoint list_remove (s : string) (l : list value) : list value :=
  match l with
  | [] => []
  | x :: l' => if eq_str s x then l' else x :: list_remove s l'
  end.

Definition no_attribute (container : value) (attribute : string) : exn :=
  AttributeError ("'" +:+ type_name container +:+ "' object has no attribute '"
                    +:+ attribute +:+ "'").

(** [container[key]] for a string key: the value under the key of a dict,
    [KeyError] if it has none, [TypeError] for anything else. *)
Definition py_subscript (container : value) (key : string) : outcome value :=
  match container with
  | VDict d =>
      match dict_get key d with
      | Some x => Return x
      | None => Raise (KeyError key)
      end
  | VStr _ => Raise (TypeError "string indices must be integers, not 'str'")
  | VList _ => Raise (TypeError "list indices must be integers or slices, not str")
  | _ => Raise (TypeError ("'" +:+ type_name container
                             +:+ "' object is not subscriptable"))
  end.

(** The double quote, and the status messages of the tools. *)
Definition dquote : string := String "034"%char EmptyString.

Definition status_message (verb key s : string) : string :=
  verb +:+ " " +:+ dquote +:+ key +:+ dquote +:+ ": " +:+ dquote +:+ s +:+ dquote.

(** The dict a tool returns: its status message under ["status"]. *)
Definition tool_status (verb key s : string) : value :=
  VDict [("status", VStr (status_message verb key s))].

(** The tools work on the session state, [tool_context.state], a mapping
    from keys to values; a tool gives back the dict it returned, or the
    exception it raised, and the state it leaves.  The list under a key is
    changed in place; the values under different keys are taken to be
    different objects. *)
Definition memorize (key s : string) (state : gmap string value)
  : outcome value * gmap string value :=
  (Return (tool_status "Stored" key s), <[key := VStr s]> state).

Definition memorize_list (key s : string) (state : gmap string value)
  : outcome value * gmap string value :=
  let mem_dict :=
    match state !! key with
    | Some _ => state
    | None => <[key := VList []]> state
    end in
  let held := default VNone (mem_dict !! key) in
  match py_contains s held with
  | Raise e => (Raise e, mem_dict)
  | Return true => (Return (tool_status "Stored" key s), mem_dict)
  | Return false =>
      match held with
      | VList l =>
          (Return (tool_status "Stored" key s),
           <[key := VList (l ++ [VStr s])]> mem_dict)
      | _ => (Raise (no_attribute held "append"), mem_dict)
      end
  end.

Definition forget (key s : string) (state : gmap string value)
  : outcome value * gmap string value :=
  match state !! key with
  | None => (Raise (KeyError key), state)
  | Some held0 =>
      let state1 :=
        match held0 with
        | VNone => <[key := VList []]> state
        | _ => state
        end in
      let held := match held0 with VNone => VList [] | _ => held0 end in
      match py_contains s held with
      | Raise e => (Raise e, state1)
      | Return false => (Return (tool_status "Removed" key s), state1)
      | Return true =>
          match held with
          | VList l =>
              (Return (tool_status "Removed" key s),
               <[key := VList (list_remove s l)]> state1)
          | _ => (Raise (no_attribute held "remove"), state1)
          end
      end
  end.

(** The keys of [travel_concierge.shared_libraries.constants] that
    [_set_initial_states] uses.  The module is not among the sources; its
    constants are parameters. *)
Record constants : Type := Constants {
  SYSTEM_TIME : string;
  ITIN_INITIALIZED : string;
  ITIN_KEY : string;
  START_DATE : string;
  END_DATE : string;
  ITIN_START_DATE : string;
  ITIN_END_DATE : string;
  ITIN_DATETIME : string
}.

(** [target.update(source)]. *)
Definition dict_update (source : list (string * value)) (target : gmap string value)
  : gmap string value :=
  foldr (fun kv m => <[kv.1 := kv.2]> m) target source.

(** [_set_initial_states]; [now] is [str(datetime.now())]. *)
Definition _set_initial_states (k : constants) (now : string)
    (source : list (string * value)) (target : gmap string value)
  : outcome unit * gmap string value :=
  let target :=
    match target !! SYSTEM_TIME k with
    | Some _ => target
    | None => <[SYSTEM_TIME k := VStr now]> target
    end in
  match target !! ITIN_INITIALIZED k with
  | Some _ => (Return tt, target)
  | None =>
      let target := <[ITIN_INITIALIZED k := VBool true]> target in
      let target := dict_update source target in
      let itinerary := default (VDict []) (dict_get (ITIN_KEY k) source) in
      if truthy itinerary then
        match py_subscript itinerary (START_DATE k) with
        | Raise e => (Raise e, target)
        | Return start =>
            let target := <[ITIN_START_DATE k := start]> target in
            match py_subscript itinerary (END_DATE k) with
            | Raise e => (Raise e, target)
            | Return finish =>
                let target := <[ITIN_END_DATE k := finish]> target in
                (Return tt, <[ITIN_DATETIME k := start]> target)
            end
        end
      else (Return tt, target)
  end.

(** Test data. *)
Definition state_likes : gmap string value :=
  {[ "likes" := VList [VStr "museums"]; "seat" := VStr "window seat" ]}.

Definition constants_example : constants :=
  Constants "_time" "_itin_initialized" "itinerary" "start_date" "end_date"
    "itinerary_start_date" "itinerary_end_date" "itinerary_datetime".

Definition source_example : list (string * value) :=
  [("user_profile", VDict [("home", VStr "San Diego")]);
   ("itinerary", VDict [("start_date", VStr "2025-06-01");
                        ("end_date", VStr "2025-06-03")])].

(** * Properties *)

(** ** Lemmas on the extractor *)

Lemma scan_parts_acc (ps : list value) (texts : list value) (cur : value) :
  scan_parts ps texts cur
  = (texts ++ fst (scan_parts ps [] cur), snd (scan_parts ps [] cur)).
Proof.
  revert texts. induction ps as [|part rest IH]; intros texts; simpl.
  - by rewrite app_nil_r.
  - destruct (part_function_response part) as [r|];
      [|destruct (part_tool_result part) as [it|]]; simpl;
      try (destruct (part_text part); simpl; by rewrite ?app_nil_r).
    rewrite IH. rewrite (IH (match part_text part with Some t => [t] | None => [] end)).
    simpl. destruct (part_text part); simpl; by rewrite <- ?app_assoc, ?app_nil_r.
Qed.

Lemma check_state_delta_cases (event : value) (cur : value) :
  check_state_delta event cur
  = if truthy (path_b event) then path_b event else cur.
Proof.
  unfold path_b, check_state_delta.
  repeat (case_match; subst; simpl in *; try done).
Qed.

Lemma check_wrapped_cases (keys : list string) (ev : list (string * value)) (cur : value) :
  (check_wrapped keys ev cur = cur /\ check_wrapped keys ev VNone = VNone)
  \/ (truthy (check_wrapped keys ev cur) = true
      /\ check_wrapped keys ev cur = check_wrapped keys ev VNone).
Proof.
  induction keys as [|k keys IH]; simpl; [by left|].
  repeat (case_match; subst; simpl in *; try done); by right.
Qed.

Lemma check_fallbacks_truthy (event : value) (cur : value) :
  truthy cur = true -> check_fallbacks event cur = cur.
Proof. intros H. unfold check_fallbacks. destruct event; try done. by rewrite H. Qed.

Lemma check_fallbacks_falsy (event : value) (cur : value) :
  truthy cur = false ->
  (truthy (path_c event) = false /\ check_fallbacks event cur = cur)
  \/ (truthy (path_c event) = true /\ check_fallbacks event cur = path_c event).
Proof.
  intros H. unfold path_c, check_fallbacks.
  destruct event as [| | | | |ev]; try (left; by split).
  rewrite H. cbn [truthy]. cbv zeta.
  destruct (dict_get "itinerary" ev) as [[| | | | |it]|];
    try (destruct it as [|kv it]; [|right; by split]);
    cbn [truthy]; rewrite ?H;
    (destruct (check_wrapped_cases fallback_keys ev cur) as [[-> ->]|[Ht E]];
     [left; by split | right; rewrite <- E; by split]).
Qed.

Lemma path_c_none_or_truthy (event : value) :
  path_c event = VNone \/ truthy (path_c event) = true.
Proof.
  destruct (check_fallbacks_falsy event VNone eq_refl) as [[_ H]|[H _]]; auto.
Qed.

Lemma after_parts_itinerary (c : collector) (event : value) (texts : list value)
    (old : value) :
  collected_structured_itinerary
    (after_parts c event texts
       (if truthy (path_a event) then path_a event else old) (path_a event))
  = if truthy (event_itinerary event) then event_itinerary event else old.
Proof.
  assert (E : forall itin cur, collected_structured_itinerary
                (after_parts c event texts itin cur)
              = let cur2 := check_fallbacks event (check_state_delta event cur) in
                if truthy cur2 then cur2 else itin).
  { intros itin cur. unfold after_parts. by destruct event. }
  rewrite E. cbv zeta. unfold event_itinerary.
  rewrite check_state_delta_cases.
  destruct (truthy (path_b event)) eqn:Hb.
  - rewrite (check_fallbacks_truthy _ _ Hb). by rewrite Hb.
  - destruct (truthy (path_a event)) eqn:Ha.
    + rewrite (check_fallbacks_truthy _ _ Ha). by rewrite Ha.
    + destruct (check_fallbacks_falsy event (path_a event) Ha) as [[Hc ->]|[Hc ->]].
      * by rewrite Ha, Hc.
      * done.
Qed.

Lemma collect_suggestions_acc (ev : list (string * value)) (l : list value) :
  collect_suggestions ev l = l ++ collect_suggestions ev [].
Proof.
  unfold collect_suggestions.
  destruct (dict_get "suggestions" ev) as [[| | | | |]|]; by rewrite ?app_nil_r.
Qed.

Lemma collect_sub_agent_acc (ev : list (string * value)) (s : gset string) :
  collect_sub_agent ev s = collect_sub_agent ev ∅ ∪ s.
Proof.
  unfold collect_sub_agent.
  destruct (dict_get "author" ev) as [[| | | | |]|];
    try (destruct (dict_get "source_agent" ev) as [[| | | | |]|]);
    by rewrite ?union_empty_r_L, ?union_empty_l_L.
Qed.

Lemma collect_error_acc (ev : list (string * value)) (err : option string) :
  collect_error ev err
  = match collect_error ev None with Some e => Some e | None => err end.
Proof.
  unfold collect_error.
  destruct (dict_get "error" ev) as [[| | | | |]|];
    try (destruct (dict_get "error_message" ev) as [[| | | | |]|]); done.
Qed.

Lemma collect_follow_up_acc (ev : list (string * value)) (flag : bool) :
  collect_follow_up ev flag = default flag (explicit_flag (VDict ev)).
Proof.
  unfold collect_follow_up, explicit_flag.
  by destruct (dict_get "requires_follow_up" ev) as [[| | | | |]|].
Qed.

Lemma after_parts_fields (c : collector) (event : value) (texts : list value)
    (itinerary cur : value) :
  after_parts c event texts itinerary cur
  = Collector texts
      (collected_structured_itinerary (after_parts c event texts itinerary cur))
      (collected_suggestions c ++ event_suggestions event)
      (event_sub_agents event ∪ collected_active_sub_agents c)
      (default (requires_follow_up_flag c) (explicit_flag event))
      (match event_error event with
       | Some e => Some e
       | None => error_message_text c
       end)
      (full_event_log c).
Proof.
  unfold after_parts, event_suggestions, event_sub_agents, event_error.
  destruct event as [| | | | |ev];
    cbn [collected_structured_itinerary explicit_flag default];
    rewrite ?app_nil_r, ?union_empty_l_L; try reflexivity.
  rewrite (collect_suggestions_acc ev (collected_suggestions c)).
  rewrite (collect_sub_agent_acc ev (collected_active_sub_agents c)).
  rewrite (collect_error_acc ev (error_message_text c)).
  rewrite (collect_follow_up_acc ev (requires_follow_up_flag c)).
  reflexivity.
Qed.

Lemma scanned_from (c : collector) (event : value) (parts : value) (ps : list value) :
  event_parts event = Some parts -> py_iter parts = Some ps ->
  scan_parts ps (collected_display_text_parts c) VNone
  = (collected_display_text_parts c ++ scanned_texts event, path_a event).
Proof.
  intros Hp Hi. unfold scanned_texts, path_a, scanned. rewrite Hp, Hi.
  apply scan_parts_acc.
Qed.

Lemma scanned_nothing (event : value) :
  event_parts event = None -> scanned_texts event = [] /\ path_a event = VNone.
Proof. intros Hp. unfold scanned_texts, path_a, scanned. by rewrite Hp. Qed.

(** An iteration over an event whose parts can be iterated ends normally and
    absorbs the event. *)
Lemma process_event_absorb (c : collector) (event : value) :
  event_raises event = false -> process_event c event = Next (absorb c event).
Proof.
  intros Hr. unfold process_event, event_raises in *.
  change (collected_display_text_parts (log_event c event))
    with (collected_display_text_parts c).
  change (collected_structured_itinerary (log_event c event))
    with (collected_structured_itinerary c).
  destruct (event_parts event) as [parts|] eqn:Hp.
  - destruct (py_iter parts) as [ps|] eqn:Hi; [|discriminate].
    rewrite (scanned_from c event parts ps Hp Hi).
    rewrite after_parts_fields, after_parts_itinerary. reflexivity.
  - destruct (scanned_nothing event Hp) as [Ht Ha].
    pose proof (after_parts_itinerary (log_event c event) event
                  (collected_display_text_parts c)
                  (collected_structured_itinerary c)) as Hi.
    rewrite Ha in Hi. cbn [truthy] in Hi.
    rewrite after_parts_fields, Hi. unfold absorb. rewrite Ht, app_nil_r.
    reflexivity.
Qed.

Lemma process_event_raised (c : collector) (event : value) :
  event_raises event = true ->
  process_event c event = Raised (log_event c event) (raise_message event).
Proof.
  intros Hr. unfold process_event, raise_message. unfold event_raises in Hr.
  destruct (event_parts event) as [parts|]; [|done].
  by destruct (py_iter parts).
Qed.

(** ** The loop over the stream *)

(** What the loop leaves in the locals: the consumed events absorbed one
    after the other, then the handler if the loop was left by an exception,
    the one of an event that cannot be scanned or the one of the stream. *)
Lemma drain_spec (events : list value) (ending : stream_end) (c : collector) :
  drain c events ending
  = let c' := fold_left absorb (consumed events) c in
    match first_raising events with
    | Some bad => handle_exception (log_event c' bad) (raise_message bad)
    | None =>
        match ending with
        | Exhausted => c'
        | StreamRaises e => handle_exception c' e
        end
    end.
Proof.
  revert c. induction events as [|event rest IH]; intros c; simpl; [done|].
  destruct (event_raises event) eqn:Hr.
  - by rewrite (process_event_raised _ _ Hr).
  - rewrite (process_event_absorb _ _ Hr). simpl. apply IH.
Qed.

Lemma consumed_all (events : list value) :
  first_raising events = None <-> consumed events = events.
Proof.
  induction events as [|event rest IH]; simpl; [done|].
  destruct (event_raises event); [split; done|].
  rewrite IH. split; [by intros ->|by intros [= ->]].
Qed.

Lemma default_last_cons {A : Type} (a b : A) (l : list A) :
  default a (last (b :: l)) = default b (last l).
Proof. rewrite last_cons. by destruct (last l). Qed.

Lemma last_cons_or {A : Type} (b : A) (l : list A) (old : option A) :
  match last (b :: l) with Some e => Some e | None => old end
  = match last l with Some e => Some e | None => Some b end.
Proof. rewrite last_cons. by destruct (last l). Qed.

Section AbsorbedFields.
Variable events : list value.
Variable c : collector.

Lemma absorbed_texts :
  collected_display_text_parts (fold_left absorb events c)
  = collected_display_text_parts c ++ concat (map scanned_texts events).
Proof using Type.
  revert c. induction events as [|e l IH]; intros c0; simpl.
  - by rewrite app_nil_r.
  - rewrite IH. simpl. by rewrite <- app_assoc.
Qed.

Lemma absorbed_itinerary :
  collected_structured_itinerary (fold_left absorb events c)
  = last_itinerary events (collected_structured_itinerary c).
Proof using Type.
  unfold last_itinerary. revert c.
  induction events as [|e l IH]; intros c0; simpl; [done|]. by rewrite IH.
Qed.

Lemma absorbed_suggestions :
  collected_suggestions (fold_left absorb events c)
  = collected_suggestions c ++ concat (map event_suggestions events).
Proof using Type.
  revert c. induction events as [|e l IH]; intros c0; simpl.
  - by rewrite app_nil_r.
  - rewrite IH. simpl. by rewrite <- app_assoc.
Qed.

Lemma absorbed_sub_agents :
  collected_active_sub_agents (fold_left absorb events c)
  = ⋃ (map event_sub_agents events) ∪ collected_active_sub_agents c.
Proof using Type.
  revert c. induction events as [|e l IH]; intros c0; simpl.
  - by rewrite union_empty_l_L.
  - rewrite IH. simpl. by rewrite (assoc_L (∪)), (comm_L (∪) (event_sub_agents e)).
Qed.

Lemma absorbed_flag :
  requires_follow_up_flag (fold_left absorb events c)
  = default (requires_follow_up_flag c) (last (omap explicit_flag events)).
Proof using Type.
  revert c. induction events as [|e l IH]; intros c0; simpl; [done|].
  rewrite IH. simpl. destruct (explicit_flag e) as [b|]; simpl; [|done].
  symmetry. apply default_last_cons.
Qed.

Lemma absorbed_error :
  error_message_text (fold_left absorb events c)
  = match last (omap event_error events) with
    | Some e => Some e
    | None => error_message_text c
    end.
Proof using Type.
  revert c. induction events as [|e l IH]; intros c0; simpl; [done|].
  rewrite IH. simpl. destruct (event_error e) as [m|]; simpl; [|done].
  symmetry. apply last_cons_or.
Qed.

Lemma absorbed_log :
  full_event_log (fold_left absorb events c) = full_event_log c ++ events.
Proof using Type.
  revert c. induction events as [|e l IH]; intros c0; simpl.
  - by rewrite app_nil_r.
  - rewrite IH. simpl. by rewrite <- app_assoc.
Qed.
End AbsorbedFields.

(** [process_agent_query] on an initialized client: it raises exactly when
    joining the collected text parts does, and returns [summary] otherwise. *)
Lemma process_agent_query_summary (eng : engine) (user_query : string)
    (session_id : value) (user_id : string) :
  let s := stream_query eng (build_query_args user_query session_id user_id) in
  process_agent_query true (Some eng) user_query session_id user_id
  = match str_join (concat (map scanned_texts (consumed (stream_events s)))) with
    | Return text => Return (summary session_id (stream_events s) (stream_ending s) text)
    | Raise e => Raise e
    end.
Proof.
  intros s. unfold process_agent_query. fold s.
  unfold finish. rewrite drain_spec. cbv zeta.
  set (evs := consumed (stream_events s)).
  set (c' := fold_left absorb evs initial_collector).
  assert (Ht : collected_display_text_parts c' = concat (map scanned_texts evs))
    by apply absorbed_texts.
  assert (Hi : collected_structured_itinerary c' = last_itinerary evs VNone)
    by apply absorbed_itinerary.
  assert (Hs : collected_suggestions c' = concat (map event_suggestions evs))
    by apply absorbed_suggestions.
  assert (Ha : collected_active_sub_agents c' = ⋃ (map event_sub_agents evs)).
  { unfold c'. rewrite absorbed_sub_agents. simpl. by rewrite union_empty_r_L. }
  assert (Hf : requires_follow_up_flag c'
               = default false (last (omap explicit_flag evs)))
    by apply absorbed_flag.
  assert (He : error_message_text c' = last (omap event_error evs)).
  { unfold c'. rewrite absorbed_error. simpl. by destruct (last (omap event_error evs)). }
  assert (Hl : full_event_log c' = evs) by apply absorbed_log.
  unfold summary, loop_error. fold evs.
  assert (Hb : forall b q : bool, (if negb b && q then true else b) = b || q)
    by (by intros [] []).
  destruct (first_raising (stream_events s)) as [bad|]; simpl.
  - rewrite Ht. destruct (str_join _); [|done].
    by rewrite Hi, Hs, Ha, Hf, Hl, Hb.
  - destruct (stream_ending s); simpl; rewrite Ht; (destruct (str_join _); [|done]);
      by rewrite Hi, Hs, Ha, Hf, ?He, Hl, Hb, app_nil_r.
Qed.

(** ** The itinerary found in one event *)

Lemma last_itinerary_app (pre post : list value) (old : value) :
  last_itinerary (pre ++ post) old = last_itinerary post (last_itinerary pre old).
Proof. unfold last_itinerary. apply fold_left_app. Qed.



Lemma last_itinerary_old_or_truthy (events : list value) (old : value) :
  last_itinerary events old = old \/ truthy (last_itinerary events old) = true.
Proof.
  revert old. induction events as [|e l IH]; intros old; [by left|].
  unfold last_itinerary. simpl. destruct (truthy (event_itinerary e)) eqn:He.
  - right. destruct (IH (event_itinerary e)) as [H|H]; [|done].
    unfold last_itinerary in H. by rewrite H.
  - apply IH.
Qed.




(** ** The itinerary kept across events *)



(** The example of the specification: the empty state delta is ignored and
    the two texts are joined. *)
Example spec_example_result :
  exists d,
    process_agent_query true (Some (engine_yielding spec_example Exhausted))
      "plan a trip" (VStr "s1") "web_user_1" = Return d
    /\ AgentDict.display_text d = "Day 1: arrive SEA."
    /\ AgentDict.structured_itinerary_raw d = Some VNone.
Proof. eexists. split; [vm_compute; reflexivity|]. split; reflexivity. Qed.

(** ** The display text *)

(** C3 does not hold of the code.  The [break] that ends the search for an
    itinerary also ends the collection of text: the text part that follows
    the function response of the itinerary agent in the same event is
    missing from the display text. *)
Theorem display_text_omits_text_after_itinerary :
  str_join (concat (map all_text_parts [event_text_after_itinerary]))
  = Return "Here is your Rome weekend."
  /\ exists d,
      process_agent_query true
        (Some (engine_yielding [event_text_after_itinerary] Exhausted))
        "plan a trip" (VStr "s1") "web_user_1" = Return d
      /\ AgentDict.display_text d = "".
Proof.
  split; [vm_compute; reflexivity|].
  eexists. split; [vm_compute; reflexivity|reflexivity].
Qed.

(** Where no part of an event carries an itinerary the scan collects every
    text part of the event. *)
Lemma scan_parts_without_break (ps : list value) :
  Forall (fun p => part_function_response p = None /\ part_tool_result p = None) ps ->
  fst (scan_parts ps [] VNone) = omap part_text ps.
Proof.
  induction 1 as [|p l [Hf Ht] _ IH]; simpl; [done|].
  rewrite Hf, Ht, scan_parts_acc. simpl. rewrite IH.
  by destruct (part_text p).
Qed.

(** ** The follow-up flag *)

(** C4, as amended.  The flag returned is true exactly when the last
    consumed event that carries a boolean [requires_follow_up] sets it to
    true, or the display text, stripped, ends with a question mark, also
    when an event has set the field to false. *)
Theorem requires_follow_up_last_flag_or_question
    (eng : engine) (user_query : string) (session_id : value) (user_id : string)
    (d : AgentDict.t) :
  process_agent_query true (Some eng) user_query session_id user_id = Return d ->
  let evs :=
    consumed (stream_events
                (stream_query eng (build_query_args user_query session_id user_id))) in
  AgentDict.requires_follow_up d
  = Some (default false (last (omap explicit_flag evs))
          || endswith_qmark (strip (AgentDict.display_text d))).
Proof.
  intros H evs. rewrite process_agent_query_summary in H. cbv zeta in H. fold evs in H.
  destruct (str_join _) as [text|]; [|discriminate]. by injection H as <-.
Qed.

(** An explicit false followed by a text that ends with a question mark
    gives true. *)
Lemma requires_follow_up_last_flag_or_question_witness :
  exists d,
    process_agent_query true
      (Some (engine_yielding [event_flag false; event_text "Which dates? "] Exhausted))
      "plan a trip" (VStr "s1") "web_user_1" = Return d
    /\ AgentDict.display_text d = "Which dates? "
    /\ AgentDict.requires_follow_up d = Some true.
Proof.
  assert (H : { d | process_agent_query true
                      (Some (engine_yielding
                               [event_flag false; event_text "Which dates? "] Exhausted))
                      "plan a trip" (VStr "s1") "web_user_1" = Return d
                    /\ AgentDict.display_text d = "Which dates? " })
    by (eexists; split; [vm_compute; reflexivity|reflexivity]).
  destruct H as (d & H & Ht). exists d. split; [exact H|]. split; [exact Ht|].
  pose proof (requires_follow_up_last_flag_or_question
                (engine_yielding [event_flag false; event_text "Which dates? "] Exhausted)
                "plan a trip" (VStr "s1") "web_user_1" d H) as Hf.
  rewrite Ht in Hf. vm_compute in Hf. exact Hf.
Defined.

(** C4 fails as stated: an event sets the flag, to true, and the flag
    returned is false, because a later event sets it to false and the text
    does not end with a question mark. *)
Lemma requires_follow_up_not_any_event :
  explicit_flag (event_flag true) = Some true
  /\ exists d,
      process_agent_query true
        (Some (engine_yielding
                 [event_flag true; event_flag false; event_text "Booked."] Exhausted))
        "plan a trip" (VStr "s1") "web_user_1" = Return d
      /\ AgentDict.requires_follow_up d = Some false.
Proof.
  split; [reflexivity|]. eexists. split; [vm_compute; reflexivity|reflexivity].
Qed.

(** ** The error message *)

Lemma dict_get_without_error (k : string) (ev : list (string * value)) :
  k <> "error" -> k <> "error_message" ->
  dict_get k (List.filter (fun kv => negb (error_key kv)) ev) = dict_get k ev.
Proof.
  intros H1 H2. induction ev as [|[k' v] ev IH]; simpl; [done|].
  unfold error_key at 1. simpl.
  destruct (String.eqb_spec k' "error") as [->|_]; simpl.
  - destruct (String.eqb_spec k "error"); [done|apply IH].
  - destruct (String.eqb_spec k' "error_message") as [->|_]; simpl.
    + destruct (String.eqb_spec k "error_message"); [done|apply IH].
    + by rewrite IH.
Qed.

Lemma without_error_parts (event : value) :
  event_parts (without_error event) = event_parts event.
Proof.
  destruct event as [| | | | |ev]; try reflexivity.
  unfold event_parts. cbn [without_error].
  by rewrite (dict_get_without_error "content" ev).
Qed.

Lemma without_error_raises (event : value) :
  event_raises (without_error event) = event_raises event.
Proof. unfold event_raises. by rewrite without_error_parts. Qed.

Lemma without_error_scanned (event : value) :
  scanned (without_error event) = scanned event.
Proof. unfold scanned. by rewrite without_error_parts. Qed.

Lemma without_error_path_b (event : value) :
  path_b (without_error event) = path_b event.
Proof.
  unfold path_b, check_state_delta.
  destruct event as [| | | | |ev]; try reflexivity.
  cbn [without_error]. by rewrite (dict_get_without_error "actions" ev).
Qed.

Lemma without_error_wrapped (keys : list string) (ev : list (string * value))
    (cur : value) :
  Forall (fun k => k <> "error" /\ k <> "error_message") keys ->
  check_wrapped keys (List.filter (fun kv => negb (error_key kv)) ev) cur
  = check_wrapped keys ev cur.
Proof.
  induction 1 as [|k keys [H1 H2] _ IH]; [reflexivity|].
  cbn [check_wrapped]. by rewrite (dict_get_without_error k ev H1 H2), IH.
Qed.

Lemma without_error_path_c (event : value) :
  path_c (without_error event) = path_c event.
Proof.
  unfold path_c, check_fallbacks.
  destruct event as [| | | | |ev]; try reflexivity.
  cbn [without_error]. rewrite (dict_get_without_error "itinerary" ev) by discriminate.
  assert (Hk : Forall (fun k => k <> "error" /\ k <> "error_message") fallback_keys)
    by (repeat constructor; discriminate).
  cbv zeta. by rewrite !(without_error_wrapped fallback_keys ev _ Hk).
Qed.

Lemma without_error_itinerary (event : value) :
  event_itinerary (without_error event) = event_itinerary event.
Proof.
  unfold event_itinerary, path_a.
  by rewrite without_error_scanned, without_error_path_b, without_error_path_c.
Qed.

Lemma without_error_other_data (event : value) :
  event_suggestions (without_error event) = event_suggestions event
  /\ event_sub_agents (without_error event) = event_sub_agents event
  /\ explicit_flag (without_error event) = explicit_flag event.
Proof.
  destruct event as [| | | | |ev]; try done.
  unfold event_suggestions, event_sub_agents, explicit_flag,
    collect_suggestions, collect_sub_agent.
  cbn [without_error].
  rewrite (dict_get_without_error "suggestions" ev) by discriminate.
  rewrite (dict_get_without_error "author" ev) by discriminate.
  rewrite (dict_get_without_error "source_agent" ev) by discriminate.
  by rewrite (dict_get_without_error "requires_follow_up" ev) by discriminate.
Qed.

Lemma without_error_consumed (events : list value) :
  consumed (map without_error events) = map without_error (consumed events).
Proof.
  induction events as [|e l IH]; simpl; [done|].
  rewrite without_error_raises. destruct (event_raises e); [done|]. simpl. by rewrite IH.
Qed.

Lemma without_error_summary (events : list value) :
  concat (map scanned_texts (map without_error events))
  = concat (map scanned_texts events)
  /\ last_itinerary (map without_error events) VNone = last_itinerary events VNone
  /\ concat (map event_suggestions (map without_error events))
     = concat (map event_suggestions events)
  /\ ⋃ (map event_sub_agents (map without_error events))
     = ⋃ (map event_sub_agents events)
  /\ omap explicit_flag (map without_error events) = omap explicit_flag events.
Proof.
  assert (Hmap : forall (B : Type) (f : value -> B),
             (forall e, f (without_error e) = f e) ->
             map f (map without_error events) = map f events).
  { intros B f Hf. rewrite map_map. apply map_ext. intros e. apply Hf. }
  split; [|split; [|split; [|split]]].
  - rewrite (Hmap _ scanned_texts); [done|].
    intros e. unfold scanned_texts. by rewrite without_error_scanned.
  - unfold last_itinerary. generalize VNone.
    induction events as [|e l IH]; intros old; [done|].
    cbn [map fold_left]. rewrite without_error_itinerary. apply IH.
    intros B f Hf. rewrite map_map. apply map_ext. intros e'. apply Hf.
  - rewrite (Hmap _ event_suggestions); [done|].
    intros e. apply without_error_other_data.
  - rewrite (Hmap _ event_sub_agents); [done|].
    intros e. apply without_error_other_data.
  - clear Hmap. induction events as [|e l IH]; [done|].
    cbn [map]. change (omap explicit_flag (without_error e :: map without_error l))
      with (match explicit_flag (without_error e) with
            | Some b => b :: omap explicit_flag (map without_error l)
            | None => omap explicit_flag (map without_error l)
            end).
    rewrite IH. by destruct (without_error_other_data e) as (_ & _ & ->).
Qed.

(** C5, as amended.  The error message returned is the last error string
    among the consumed events (the event's [error] if that is a string, else
    its [error_message]), or the message built from the exception when one
    left the loop; and the error fields suppress nothing: the display text,
    the itinerary, the suggestions, the sub-agent names and the flag are
    those the same stream gives with the error fields removed. *)
Theorem error_message_is_last_error
    (eng : engine) (user_query : string) (session_id : value) (user_id : string)
    (d : AgentDict.t) :
  process_agent_query true (Some eng) user_query session_id user_id = Return d ->
  let s := stream_query eng (build_query_args user_query session_id user_id) in
  AgentDict.error_message d
  = match loop_error (stream_events s) (stream_ending s) with
    | Some e => Some ("ERROR during stream_query: " +:+ e)
    | None => last (omap event_error (consumed (stream_events s)))
    end
  /\ exists d',
      process_agent_query true
        (Some (engine_yielding (map without_error (stream_events s)) (stream_ending s)))
        user_query session_id user_id = Return d'
      /\ AgentDict.display_text d = AgentDict.display_text d'
      /\ AgentDict.structured_itinerary_raw d = AgentDict.structured_itinerary_raw d'
      /\ AgentDict.suggestions d = AgentDict.suggestions d'
      /\ AgentDict.active_sub_agents d = AgentDict.active_sub_agents d'
      /\ AgentDict.requires_follow_up d = AgentDict.requires_follow_up d'.
Proof.
  intros H s. rewrite process_agent_query_summary in H. cbv zeta in H. fold s in H.
  rewrite process_agent_query_summary. cbv zeta. simpl.
  rewrite without_error_consumed.
  destruct (without_error_summary (consumed (stream_events s)))
    as (Et & Ei & Es & Ea & Ef).
  rewrite Et.
  destruct (str_join _) as [text|]; [|discriminate]. injection H as <-.
  split; [done|]. eexists. split; [reflexivity|].
  unfold summary. simpl. rewrite without_error_consumed, Ei, Es, Ea, Ef. done.
Qed.

(** Two error strings among text and itinerary events: the second is
    returned, and the text and the itinerary are all there. *)
Lemma error_message_is_last_error_witness :
  exists d,
    process_agent_query true (Some (engine_yielding events_with_errors Exhausted))
      "plan a trip" (VStr "s1") "web_user_1" = Return d
    /\ AgentDict.error_message d = Some "tool timed out"
    /\ AgentDict.display_text d = "Searching. Done."
    /\ AgentDict.structured_itinerary_raw d = Some rome.
Proof.
  assert (H : { d | process_agent_query true
                      (Some (engine_yielding events_with_errors Exhausted))
                      "plan a trip" (VStr "s1") "web_user_1" = Return d
                    /\ AgentDict.display_text d = "Searching. Done."
                    /\ AgentDict.structured_itinerary_raw d = Some rome })
    by (eexists; split; [vm_compute; reflexivity|split; reflexivity]).
  destruct H as (d & H & Ht & Hi). exists d. split; [exact H|].
  split; [|split; [exact Ht|exact Hi]].
  pose proof (proj1 (error_message_is_last_error
                       (engine_yielding events_with_errors Exhausted)
                       "plan a trip" (VStr "s1") "web_user_1" d H)) as He.
  vm_compute in He. exact He.
Defined.

(** C5 fails as stated: of two error strings the one returned is the
    second, not the first. *)
Lemma error_message_is_not_first_error :
  event_error event_error_first = Some "quota exceeded"
  /\ exists d,
      process_agent_query true
        (Some (engine_yielding [event_error_first; event_error_second] Exhausted))
        "plan a trip" (VStr "s1") "web_user_1" = Return d
      /\ AgentDict.error_message d = Some "tool timed out"
      /\ AgentDict.error_message d <> Some "quota exceeded".
Proof.
  split; [reflexivity|].
  eexists. split; [vm_compute; reflexivity|]. split; [reflexivity|discriminate].
Qed.

(** ** A stream that raises *)

Lemma str_join_from_strings (parts : list value) (i : nat) :
  Forall (fun v => is_str v = true) parts ->
  exists text, str_join_from i parts = Return text.
Proof.
  intros H. revert i. induction H as [|v l Hv _ IH]; intros i; simpl; [by eexists|].
  destruct v; try discriminate. destruct (IH (S i)) as [t ->]. by eexists.
Qed.

(** C6, as amended.  When the stream raises after the events [evs] have
    been consumed, and the text parts collected from them are strings, so
    that they can be joined, [process_agent_query] returns: the exception
    does not leave it.  What it returns is what the events [evs] give: as
    display text the join of the text parts collected from them, the last
    non-empty itinerary they carry, their suggestions, the names of their
    sub-agents and the follow-up flag; each event is logged once, and the
    error message is built from the exception. *)
Theorem stream_failure_returns_partial_result
    (eng : engine) (user_query : string) (session_id : value) (user_id : string)
    (evs : list value) (e : string) :
  stream_query eng (build_query_args user_query session_id user_id)
  = Stream evs (StreamRaises e) ->
  consumed evs = evs ->
  Forall (fun v => is_str v = true) (concat (map scanned_texts evs)) ->
  exists d,
    process_agent_query true (Some eng) user_query session_id user_id = Return d
    /\ str_join (concat (map scanned_texts evs)) = Return (AgentDict.display_text d)
    /\ AgentDict.structured_itinerary_raw d = Some (last_itinerary evs VNone)
    /\ AgentDict.suggestions d = Some (concat (map event_suggestions evs))
    /\ AgentDict.active_sub_agents d = Some (⋃ (map event_sub_agents evs))
    /\ AgentDict.requires_follow_up d
       = Some (default false (last (omap explicit_flag evs))
               || endswith_qmark (strip (AgentDict.display_text d)))
    /\ AgentDict.error_message d = Some ("ERROR during stream_query: " +:+ e)
    /\ AgentDict.full_event_log d = evs.
Proof.
  intros Hs Hc Ht.
  rewrite process_agent_query_summary. cbv zeta. rewrite Hs.
  cbn [stream_events stream_ending]. rewrite Hc.
  destruct (str_join_from_strings _ 0 Ht) as [text Hj]. unfold str_join. rewrite Hj.
  eexists. split; [reflexivity|].
  unfold summary, loop_error. cbv zeta. rewrite Hc.
  apply consumed_all in Hc. rewrite Hc.
  cbn [AgentDict.display_text AgentDict.structured_itinerary_raw
       AgentDict.suggestions AgentDict.active_sub_agents
       AgentDict.requires_follow_up AgentDict.error_message
       AgentDict.full_event_log].
  rewrite app_nil_r. repeat split; reflexivity.
Qed.

(** Two text events around an itinerary, and then a failure of the stream:
    the text and the itinerary are returned with the error. *)
Lemma stream_failure_returns_partial_result_witness :
  exists d,
    process_agent_query true
      (Some (engine_yielding events_before_failure
               (StreamRaises "503 Service Unavailable")))
      "plan a trip" (VStr "s1") "web_user_1" = Return d
    /\ AgentDict.display_text d = "Day 1: arrive FCO."
    /\ AgentDict.structured_itinerary_raw d = Some rome
    /\ AgentDict.error_message d
       = Some "ERROR during stream_query: 503 Service Unavailable"
    /\ AgentDict.full_event_log d = events_before_failure.
Proof.
  destruct (stream_failure_returns_partial_result
              (engine_yielding events_before_failure
                 (StreamRaises "503 Service Unavailable"))
              "plan a trip" (VStr "s1") "web_user_1"
              events_before_failure "503 Service Unavailable")
    as (d & Hd & Htext & Hit & _ & _ & _ & Herr & Hlog).
  - reflexivity.
  - vm_compute. reflexivity.
  - vm_compute. repeat constructor.
  - exists d. split; [exact Hd|].
    split; [|split; [|split; [exact Herr|exact Hlog]]].
    + assert (Hj : str_join (concat (map scanned_texts events_before_failure))
                   = Return "Day 1: arrive FCO.") by (vm_compute; reflexivity).
      rewrite Hj in Htext. injection Htext as <-. reflexivity.
    + rewrite Hit. vm_compute. reflexivity.
Defined.

(** C6 fails as stated: with a text part that is not a string among the
    events consumed before the failure of the stream, the join after the
    [try] block raises a [TypeError], which leaves [process_agent_query]. *)
Lemma stream_failure_with_non_string_text_raises :
  consumed [event_text_number] = [event_text_number]
  /\ exists msg,
      process_agent_query true
        (Some (engine_yielding [event_text_number]
                 (StreamRaises "503 Service Unavailable")))
        "plan a trip" (VStr "s1") "web_user_1" = Raise (TypeError msg).
Proof.
  split; [vm_compute; reflexivity|].
  eexists. vm_compute. reflexivity.
Qed.

(** ** The session cache *)

Lemma resolve_hit (cache : gmap string value) (eng : engine) (uid cid : string)
    (v : value) :
  cache !! uid = Some v -> truthy v = true ->
  resolve_sdk_session_id cache eng uid cid = Resolution v cache [].
Proof. intros Hc Hv. unfold resolve_sdk_session_id. by rewrite Hc, Hv. Qed.

Lemma resolve_caches (cache : gmap string value) (eng : engine) (uid cid : string) :
  cid <> "" ->
  let r := resolve_sdk_session_id cache eng uid cid in
  cache_after r !! uid = Some (sdk_session_id_for_agent_query r)
  /\ truthy (sdk_session_id_for_agent_query r) = true.
Proof.
  intros Hcid. assert (Ht : truthy (VStr cid) = true).
  { cbn [truthy]. by destruct (String.eqb_spec cid ""). }
  cbv zeta. unfold resolve_sdk_session_id.
  set (cached := match cache !! uid with Some v => v | None => VNone end).
  destruct (truthy cached) eqn:Hv.
  - cbn [cache_after sdk_session_id_for_agent_query]. split; [|done].
    unfold cached in *. destruct (cache !! uid); [done|discriminate].
  - destruct (has_create_session eng);
      [destruct (create_session eng uid) as [info|];
       [destruct (truthy (returned_sdk_id info)) eqn:Hi|]|];
      cbn [cache_after sdk_session_id_for_agent_query];
      by rewrite lookup_insert_eq.
Qed.

Lemma resolve_keeps (cache : gmap string value) (eng : engine) (uid' cid' : string)
    (uid : string) (v : value) :
  cache !! uid = Some v -> truthy v = true ->
  cache_after (resolve_sdk_session_id cache eng uid' cid') !! uid = Some v.
Proof.
  intros Hc Hv. destruct (decide (uid' = uid)) as [->|Hne].
  - by rewrite (resolve_hit _ _ _ _ _ Hc Hv).
  - unfold resolve_sdk_session_id.
    destruct (truthy match cache !! uid' with Some v0 => v0 | None => VNone end);
      [done|].
    destruct (has_create_session eng);
      [destruct (create_session eng uid') as [info|];
       [destruct (truthy (returned_sdk_id info))|]|];
      cbn [cache_after]; by rewrite lookup_insert_ne.
Qed.

Lemma resolve_all_keeps (requests : list (engine * string))
    (cache : gmap string value) (uid : string) (v : value) :
  cache !! uid = Some v -> truthy v = true ->
  resolve_all cache requests !! uid = Some v.
Proof.
  revert cache. induction requests as [|[eng cid'] l IH]; intros cache Hc Hv; [done|].
  unfold resolve_all. simpl. apply IH; [|done]. by apply resolve_keeps.
Qed.

(** The client-managed id is not empty when the fresh UUID is not. *)
Lemma client_managed_session_id_not_empty (user_input : UserInput)
    (fresh_uuid : string) :
  fresh_uuid <> "" -> client_managed_session_id user_input fresh_uuid <> "".
Proof.
  intros Hu. unfold client_managed_session_id.
  destruct (session_id user_input) as [s|]; [|done].
  cbn [truthy]. by destruct (String.eqb_spec s "").
Qed.

(** C7.  Once an identity has been resolved, every later resolution for it,
    whatever was resolved in between and whatever the engine would then
    answer, returns the id of the first one, calls [create_session] no more
    and leaves the cache as it is.  The client-managed id is not empty: it
    is a session id the client sent or a fresh UUID. *)
Theorem session_resolution_is_idempotent
    (cache : gmap string value) (eng1 eng2 : engine)
    (between : list (engine * string)) (cid : string) :
  cid <> "" ->
  let uid := stable_agent_user_id cid in
  let r1 := resolve_sdk_session_id cache eng1 uid cid in
  let cache' := resolve_all (cache_after r1) between in
  let r2 := resolve_sdk_session_id cache' eng2 uid cid in
  sdk_session_id_for_agent_query r2 = sdk_session_id_for_agent_query r1
  /\ create_session_calls r2 = []
  /\ cache_after r2 = cache'.
Proof.
  intros Hcid uid r1 cache' r2.
  destruct (resolve_caches cache eng1 uid cid Hcid) as [Hc Hv]. fold r1 in Hc, Hv.
  pose proof (resolve_all_keeps between _ _ _ Hc Hv) as Hk. fold cache' in Hk.
  unfold r2. by rewrite (resolve_hit _ _ _ _ _ Hk Hv).
Qed.

(** The engine creates [sess-1] for alice; after a resolution for bob, and
    with an engine that would now create [sess-2], alice still gets
    [sess-1] and [create_session] is not called. *)
Lemma session_resolution_is_idempotent_witness :
  let uid := stable_agent_user_id "alice" in
  let r1 := resolve_sdk_session_id ∅ (engine_creating "sess-1") uid "alice" in
  let cache' := resolve_all (cache_after r1) [(engine_failing, "bob")] in
  let r2 := resolve_sdk_session_id cache' (engine_creating "sess-2") uid "alice" in
  sdk_session_id_for_agent_query r1 = VStr "sess-1"
  /\ create_session_calls r1 = ["web_user_alice"]
  /\ sdk_session_id_for_agent_query r2 = sdk_session_id_for_agent_query r1
  /\ create_session_calls r2 = [].
Proof.
  intros uid r1 cache' r2.
  split; [reflexivity|]. split; [reflexivity|].
  destruct (session_resolution_is_idempotent ∅ (engine_creating "sess-1")
              (engine_creating "sess-2") [(engine_failing, "bob")] "alice")
    as (H1 & H2 & _); [discriminate|].
  split; [exact H1|exact H2].
Defined.

(** ** The health check *)

(** C8, as amended.  [health_check] never raises, so the request is answered
    with status 200.  When every dependency is initialized it returns the
    status dict, with status [ok] and the flags; when one is not, it returns
    (does not raise) an [HTTPException] made with status code 503 whose
    detail is the status dict, with status [degraded] and the flags. *)
Theorem health_check_returns_503_object (g : globals) :
  http_status (health_check g) = 200%Z
  /\ exists status_dict,
      health_check g
      = Return (if dependencies_initialized g then Body (VDict status_dict)
                else ExceptionObject (HTTPException 503 (VDict status_dict)))
      /\ dict_get "status" status_dict
         = Some (VStr (if dependencies_initialized g then "ok" else "degraded"))
      /\ dict_get "agent_initialized_in_fastapi" status_dict
         = Some (VBool (_fastapi_agent_service_initialized g))
      /\ dict_get "client_module_flag_initialized" status_dict
         = Some (match vertex_ai_client g with
                 | Some m => VBool (IS_INITIALIZED m)
                 | None => VNone
                 end)
      /\ dict_get "firestore_client_initialized" status_dict
         = Some (VBool (_firestore_client_initialized g)).
Proof.
  destruct g as [[[init eng]|] db agent fs cache];
    destruct agent, fs; try destruct init;
    (split; [reflexivity|]); eexists; (split; [reflexivity|]);
    repeat split; reflexivity.
Qed.

(** C8 fails as stated: with no dependency initialized the handler returns,
    and the status of the response is 200, not 503. *)
Lemma health_check_status_is_not_503 :
  dependencies_initialized globals_down = false
  /\ http_status (health_check globals_down) = 200%Z
  /\ http_status (health_check globals_down) <> 503%Z.
Proof. split; [reflexivity|]. split; [reflexivity|discriminate]. Qed.

(** ** The chat endpoint *)

(** The handler, once its guards are passed. *)
Lemma chat_with_agent_endpoint_ready {Itinerary : Type} (pyd : pydantic Itinerary)
    (g : globals) (eng : engine) (fresh_uuid : string) (user_input : UserInput) :
  _fastapi_agent_service_initialized g = true ->
  vertex_ai_client g = Some (ClientModule true (Some eng)) ->
  let cid := client_managed_session_id user_input fresh_uuid in
  let uid := stable_agent_user_id cid in
  let r := resolve_sdk_session_id (_sdk_session_id_cache g) eng uid cid in
  chat_with_agent_endpoint pyd g fresh_uuid user_input
  = ChatResult
      match process_agent_query true (Some eng) (query user_input)
              (sdk_session_id_for_agent_query r) uid with
      | Raise e => Raise e
      | Return d =>
          match parse_itinerary pyd (db_available g)
                  (default VNone (AgentDict.structured_itinerary_raw d)) with
          | Raise e => Raise e
          | Return parsed => build_response pyd cid d parsed
          end
      end
      (cache_after r) (create_session_calls r).
Proof.
  intros Hs Hc. cbv zeta. unfold chat_with_agent_endpoint. rewrite Hs, Hc.
  cbn [negb]. reflexivity.
Qed.

(** The itinerary the agent returns is never an empty dict. *)
Lemma agent_itinerary_not_empty (eng : engine) (user_query : string)
    (session_id : value) (user_id : string) (d : AgentDict.t)
    (raw : list (string * value)) :
  process_agent_query true (Some eng) user_query session_id user_id = Return d ->
  AgentDict.structured_itinerary_raw d = Some (VDict raw) ->
  raw <> [].
Proof.
  intros H Hraw. rewrite process_agent_query_summary in H. cbv zeta in H.
  destruct (str_join _) as [text|]; [|discriminate]. injection H as <-.
  cbn [summary AgentDict.structured_itinerary_raw] in Hraw. injection Hraw as Hraw.
  destruct (last_itinerary_old_or_truthy
              (consumed (stream_events
                           (stream_query eng
                              (build_query_args user_query session_id user_id))))
              VNone) as [E|E]; rewrite Hraw in E; [discriminate|].
  by intros ->.
Qed.

Lemma build_response_drop {Itinerary : Type} (pyd pyd' : pydantic Itinerary)
    (cid : string) (d : AgentDict.t) (parsed : option Itinerary) :
  validate_str_list pyd' = validate_str_list pyd ->
  build_response pyd cid d None
  = outcome_map drop_itinerary (build_response pyd' cid d parsed).
Proof.
  intros Hv. unfold build_response. rewrite Hv.
  destruct (AgentDict.suggestions d) as [l|]; [|reflexivity].
  by destruct (validate_str_list pyd l).
Qed.

(** Where [model_validate] exists (pydantic V2) a malformed itinerary is
    dropped: when the agent's raw itinerary is a dict that [model_validate]
    rejects with a [ValidationError], the handler does what it does with a
    validation that accepts the dict, raising where that raises and
    returning where that returns, except that the structured itinerary of
    the response is [None]: the other fields, the cache and the calls are
    the same. *)
Theorem malformed_itinerary_is_dropped {Itinerary : Type}
    (pyd pyd' : pydantic Itinerary) (g : globals) (eng : engine)
    (fresh_uuid : string) (user_input : UserInput) (d : AgentDict.t)
    (raw : list (string * value)) (msg : string) (it : Itinerary) :
  _fastapi_agent_service_initialized g = true ->
  vertex_ai_client g = Some (ClientModule true (Some eng)) ->
  let cid := client_managed_session_id user_input fresh_uuid in
  let uid := stable_agent_user_id cid in
  let r := resolve_sdk_session_id (_sdk_session_id_cache g) eng uid cid in
  process_agent_query true (Some eng) (query user_input)
    (sdk_session_id_for_agent_query r) uid = Return d ->
  AgentDict.structured_itinerary_raw d = Some (VDict raw) ->
  model_validate pyd raw = Raise (ValidationError msg) ->
  model_validate pyd' raw = Return it ->
  validate_str_list pyd' = validate_str_list pyd ->
  let res := chat_with_agent_endpoint pyd g fresh_uuid user_input in
  let res' := chat_with_agent_endpoint pyd' g fresh_uuid user_input in
  chat_outcome res = outcome_map drop_itinerary (chat_outcome res')
  /\ chat_cache res = chat_cache res'
  /\ chat_create_session_calls res = chat_create_session_calls res'
  /\ forall resp,
      chat_outcome res = Return resp ->
      AgentResponse.structured_itinerary resp = None
      /\ AgentResponse.session_id resp = cid
      /\ AgentResponse.display_text resp = AgentDict.display_text d
      /\ AgentResponse.active_sub_agents resp = AgentDict.active_sub_agents d
      /\ AgentResponse.requires_follow_up resp
         = default false (AgentDict.requires_follow_up d)
      /\ AgentResponse.error_message resp = AgentDict.error_message d.
Proof.
  intros Hs Hc cid uid r Hd Hraw Hbad Hgood Hv res res'.
  unfold res, res'.
  rewrite !(chat_with_agent_endpoint_ready _ g eng fresh_uuid user_input Hs Hc).
  cbv zeta. fold cid uid r. rewrite Hd, Hraw.
  cbn [chat_outcome chat_cache chat_create_session_calls].
  change (default VNone (Some (VDict raw))) with (VDict raw).
  assert (Hp : parse_itinerary pyd (db_available g) (VDict raw) = Return None).
  { unfold parse_itinerary. rewrite Hbad. by destruct (_ && _). }
  assert (Hp' : exists parsed,
             parse_itinerary pyd' (db_available g) (VDict raw) = Return parsed).
  { unfold parse_itinerary. rewrite Hgood. destruct (_ && _); by eexists. }
  destruct Hp' as [parsed Hp']. rewrite Hp, Hp'.
  split; [by apply build_response_drop|]. split; [done|]. split; [done|].
  intros resp. unfold build_response.
  destruct (AgentDict.suggestions d) as [l|];
    [destruct (validate_str_list pyd l); [|discriminate]|];
    intros [= <-]; cbn; by destruct (AgentDict.requires_follow_up d).
Qed.

(** The itinerary [rome] has no [start_date]: it is dropped and the text is
    kept. *)
Lemma malformed_itinerary_is_dropped_witness :
  exists resp,
    chat_outcome (chat_with_agent_endpoint pydantic_strict
                    (globals_ready (engine_with "sess-1" events_malformed Exhausted))
                    fresh_uuid_example input_trip_42) = Return resp
    /\ AgentResponse.structured_itinerary resp = None
    /\ AgentResponse.display_text resp = "Here is a draft. Shall I book it?".
Proof.
  assert (H : { d | process_agent_query true
                      (Some (engine_with "sess-1" events_malformed Exhausted))
                      "plan a trip" (VStr "sess-1") "web_user_trip-42" = Return d
                    /\ AgentDict.structured_itinerary_raw d = Some rome
                    /\ AgentDict.display_text d = "Here is a draft. Shall I book it?" })
    by (eexists; split; [vm_compute; reflexivity|split; reflexivity]).
  destruct H as (d & Hd & Hraw & Htext).
  assert (Hr : { resp | chat_outcome
                          (chat_with_agent_endpoint pydantic_strict
                             (globals_ready (engine_with "sess-1" events_malformed Exhausted))
                             fresh_uuid_example input_trip_42) = Return resp })
    by (eexists; vm_compute; reflexivity).
  destruct Hr as [resp Hr]. exists resp. split; [exact Hr|].
  destruct (malformed_itinerary_is_dropped pydantic_strict pydantic_lenient
              (globals_ready (engine_with "sess-1" events_malformed Exhausted))
              (engine_with "sess-1" events_malformed Exhausted)
              fresh_uuid_example input_trip_42 d
              [("trip_name", VStr "Rome weekend")]
              "start_date: Field required"
              [("trip_name", VStr "Rome weekend")]
              eq_refl eq_refl Hd Hraw eq_refl eq_refl eq_refl)
    as (_ & _ & _ & Hresp).
  destruct (Hresp resp Hr) as (Hi & _ & Ht & _).
  split; [exact Hi|]. rewrite Ht. exact Htext.
Defined.

(** C9.  The claim fails on the pydantic V1 branch that the handler writes
    out.  With the database models available, when [model_validate] is
    missing, so that the call raises [AttributeError], and the constructor
    rejects the agent's raw itinerary with a [ValidationError], that
    exception is raised inside the handler of the [AttributeError], where
    the [except ValidationError] and [except Exception] clauses of the same
    [try] do not apply: it leaves the endpoint, and the request gets no
    response. *)
Theorem malformed_itinerary_raises_on_v1 {Itinerary : Type}
    (pyd : pydantic Itinerary) (g : globals) (eng : engine)
    (fresh_uuid : string) (user_input : UserInput) (d : AgentDict.t)
    (raw : list (string * value)) (attr msg : string) :
  _fastapi_agent_service_initialized g = true ->
  vertex_ai_client g = Some (ClientModule true (Some eng)) ->
  db_available g = true ->
  let cid := client_managed_session_id user_input fresh_uuid in
  let uid := stable_agent_user_id cid in
  let r := resolve_sdk_session_id (_sdk_session_id_cache g) eng uid cid in
  process_agent_query true (Some eng) (query user_input)
    (sdk_session_id_for_agent_query r) uid = Return d ->
  AgentDict.structured_itinerary_raw d = Some (VDict raw) ->
  model_validate pyd raw = Raise (AttributeError attr) ->
  Itinerary_init pyd raw = Raise (ValidationError msg) ->
  chat_outcome (chat_with_agent_endpoint pyd g fresh_uuid user_input)
  = Raise (ValidationError msg).
Proof.
  intros Hs Hc Hdb cid uid r Hd Hraw Hattr Hinit.
  rewrite (chat_with_agent_endpoint_ready pyd g eng fresh_uuid user_input Hs Hc).
  cbv zeta. fold cid uid r. rewrite Hd, Hraw. cbn [chat_outcome].
  change (default VNone (Some (VDict raw))) with (VDict raw).
  pose proof (agent_itinerary_not_empty _ _ _ _ d raw Hd Hraw) as Hne.
  unfold parse_itinerary. rewrite Hdb, Hattr, Hinit.
  destruct raw as [|kv raw]; [contradiction|]. reflexivity.
Qed.

(** The itinerary [rome] has no [start_date]: on pydantic V1 the request
    fails with the [ValidationError] of the constructor. *)
Lemma malformed_itinerary_raises_on_v1_witness :
  chat_outcome (chat_with_agent_endpoint pydantic_v1
                  (globals_ready (engine_with "sess-1" events_malformed Exhausted))
                  fresh_uuid_example input_trip_42)
  = Raise (ValidationError "start_date: Field required").
Proof.
  assert (H : { d | process_agent_query true
                      (Some (engine_with "sess-1" events_malformed Exhausted))
                      "plan a trip" (VStr "sess-1") "web_user_trip-42" = Return d
                    /\ AgentDict.structured_itinerary_raw d = Some rome })
    by (eexists; split; [vm_compute; reflexivity|reflexivity]).
  destruct H as (d & Hd & Hraw).
  exact (malformed_itinerary_raises_on_v1 pydantic_v1
           (globals_ready (engine_with "sess-1" events_malformed Exhausted))
           (engine_with "sess-1" events_malformed Exhausted)
           fresh_uuid_example input_trip_42 d
           [("trip_name", VStr "Rome weekend")]
           "type object 'Itinerary' has no attribute 'model_validate'"
           "start_date: Field required"
           eq_refl eq_refl eq_refl Hd Hraw eq_refl eq_refl).
Defined.

(** C10, as amended.  Whenever the handler returns a response, its session
    id is the client-managed one, whatever the cache holds and whatever id
    the engine creates: the session id of the request when that is a
    non-empty string, the fresh UUID when the request has none or an empty
    one. *)
Theorem response_session_id_is_client_managed {Itinerary : Type}
    (pyd : pydantic Itinerary) (g : globals) (fresh_uuid : string)
    (user_input : UserInput) (resp : AgentResponse.t Itinerary) :
  chat_outcome (chat_with_agent_endpoint pyd g fresh_uuid user_input) = Return resp ->
  AgentResponse.session_id resp = client_managed_session_id user_input fresh_uuid
  /\ (forall X, session_id user_input = Some X -> X <> "" ->
      AgentResponse.session_id resp = X)
  /\ (session_id user_input = None \/ session_id user_input = Some "" ->
      AgentResponse.session_id resp = fresh_uuid).
Proof.
  intros H.
  assert (E : AgentResponse.session_id resp
              = client_managed_session_id user_input fresh_uuid).
  { unfold chat_with_agent_endpoint in H.
    destruct (_fastapi_agent_service_initialized g); [|discriminate].
    destruct (vertex_ai_client g) as [[[] [eng|]]|]; try discriminate.
    cbn [negb chat_outcome] in H.
    destruct (process_agent_query _ _ _ _ _) as [d|]; [|discriminate].
    destruct (parse_itinerary _ _ _) as [parsed|]; [|discriminate].
    unfold build_response in H.
    destruct (AgentDict.suggestions d) as [l|];
      [destruct (validate_str_list pyd l); [|discriminate]|];
      by injection H as <-. }
  rewrite E. unfold client_managed_session_id. split; [done|]. split.
  - intros X -> HX. cbn [truthy]. by destruct (String.eqb_spec X "").
  - by intros [->| ->].
Qed.

(** The client sends [trip-42], the engine creates [sess-1], the response
    carries [trip-42]. *)
Lemma response_session_id_is_client_managed_witness :
  exists resp,
    chat_outcome (chat_with_agent_endpoint pydantic_strict
                    (globals_ready (engine_with "sess-1" events_malformed Exhausted))
                    fresh_uuid_example input_trip_42) = Return resp
    /\ sdk_session_id_for_agent_query
         (resolve_sdk_session_id ∅ (engine_with "sess-1" events_malformed Exhausted)
            "web_user_trip-42" "trip-42") = VStr "sess-1"
    /\ AgentResponse.session_id resp = "trip-42".
Proof.
  assert (Hr : { resp | chat_outcome
                          (chat_with_agent_endpoint pydantic_strict
                             (globals_ready (engine_with "sess-1" events_malformed Exhausted))
                             fresh_uuid_example input_trip_42) = Return resp })
    by (eexists; vm_compute; reflexivity).
  destruct Hr as [resp Hr]. exists resp. split; [exact Hr|].
  split; [vm_compute; reflexivity|].
  refine (proj1 (proj2 (response_session_id_is_client_managed pydantic_strict
                          (globals_ready (engine_with "sess-1" events_malformed Exhausted))
                          fresh_uuid_example input_trip_42 resp Hr))
            "trip-42" eq_refl _).
  discriminate.
Defined.

(** C10 fails as stated: a client that sends the empty string as its
    session id does not receive it back but a fresh UUID. *)
Lemma empty_session_id_is_not_returned :
  session_id input_empty_session = Some ""
  /\ exists resp,
      chat_outcome (chat_with_agent_endpoint pydantic_strict
                      (globals_ready (engine_with "sess-1" events_malformed Exhausted))
                      fresh_uuid_example input_empty_session) = Return resp
      /\ AgentResponse.session_id resp = fresh_uuid_example
      /\ AgentResponse.session_id resp <> "".
Proof.
  split; [reflexivity|].
  eexists. split; [vm_compute; reflexivity|]. split; [reflexivity|discriminate].
Qed.

(** * Further properties *)

(** ** When the query returns *)

Lemma str_join_from_outcome (parts : list value) (i : nat) :
  match str_join_from i parts with
  | Return _ => Forall (fun v => is_str v = true) parts
  | Raise e =>
      (exists msg, e = TypeError msg)
      /\ ~ Forall (fun v => is_str v = true) parts
  end.
Proof.
  revert i. induction parts as [|v l IH]; intros i; cbn [str_join_from].
  - constructor.
  - destruct v as [| | |s| |];
      try (split; [by eexists|intros H; inversion H; discriminate]).
    specialize (IH (S i)). destruct (str_join_from (S i) l) as [t|e].
    + by constructor.
    + destruct IH as [He Hn]. split; [done|].
      intros H. apply Hn. by inversion H.
Qed.

(** X1.  [process_agent_query] returns exactly when every text part it
    collected from the consumed events is a string; the only exception that
    leaves it is the [TypeError] of the final join. *)
Theorem process_agent_query_returns_iff_texts_are_str
    (eng : engine) (user_query : string) (session_id : value) (user_id : string) :
  let texts :=
    concat (map scanned_texts
              (consumed (stream_events
                           (stream_query eng
                              (build_query_args user_query session_id user_id))))) in
  ((exists d, process_agent_query true (Some eng) user_query session_id user_id
              = Return d)
   <-> Forall (fun v => is_str v = true) texts)
  /\ (forall e, process_agent_query true (Some eng) user_query session_id user_id
               = Raise e -> exists msg, e = TypeError msg).
Proof.
  intros texts. rewrite process_agent_query_summary. cbv zeta. fold texts.
  unfold str_join. pose proof (str_join_from_outcome texts 0) as H.
  destruct (str_join_from 0 texts) as [t|e0].
  - split; [split; [done|by eexists]|discriminate].
  - destruct H as [He Hn]. split.
    + split; [by intros [d Hd]|done].
    + by intros e [= <-].
Qed.

(** ** Events the loop cannot scan, and events it does not recognize *)

Lemma consumed_app (evs1 evs2 : list value) :
  consumed evs1 = evs1 ->
  consumed (evs1 ++ evs2) = evs1 ++ consumed evs2
  /\ first_raising (evs1 ++ evs2) = first_raising evs2.
Proof.
  induction evs1 as [|e l IH]; intros H; [done|].
  cbn [consumed first_raising app] in *.
  destruct (event_raises e); [discriminate|].
  injection H as H. destruct (IH H) as [-> ->]. done.
Qed.

Lemma consumed_raising (bad : value) (rest : list value) :
  event_raises bad = true ->
  consumed (bad :: rest) = [] /\ first_raising (bad :: rest) = Some bad.
Proof. intros H. cbn [consumed first_raising]. by rewrite H. Qed.

(** X2.  An event whose [parts] cannot be iterated acts as a failure of the
    stream at that point: the events after it are not read, whatever they
    are and however the stream would have ended, the data collected before
    it is returned with the [TypeError] as error message, and the event
    itself is in the log. *)
Theorem uniterable_parts_end_the_stream
    (pre rest : list value) (bad parts : value) (ending : stream_end)
    (user_query : string) (session_id : value) (user_id : string) :
  consumed pre = pre ->
  event_parts bad = Some parts ->
  py_iter parts = None ->
  process_agent_query true (Some (engine_yielding (pre ++ bad :: rest) ending))
    user_query session_id user_id
  = outcome_map (with_logged bad)
      (process_agent_query true
         (Some (engine_yielding pre (StreamRaises (not_iterable_message parts))))
         user_query session_id user_id).
Proof.
  intros Hpre Hparts Hiter.
  assert (Hbad : event_raises bad = true).
  { unfold event_raises. by rewrite Hparts, Hiter. }
  rewrite !process_agent_query_summary. cbv zeta.
  cbn [engine_yielding stream_query stream_events stream_ending].
  destruct (consumed_app pre (bad :: rest) Hpre) as [Hc Hf].
  destruct (consumed_raising bad rest Hbad) as [Hc' Hf'].
  rewrite Hc, Hc', app_nil_r, Hpre.
  destruct (str_join _) as [text|]; [|done].
  cbn [outcome_map]. f_equal. unfold summary, loop_error, with_logged.
  rewrite Hc, Hc', Hf, Hf', app_nil_r, Hpre.
  apply consumed_all in Hpre. rewrite Hpre.
  unfold raise_message, not_iterable_message. rewrite Hparts.
  cbn [AgentDict.session_id AgentDict.display_text AgentDict.structured_itinerary_raw
       AgentDict.suggestions AgentDict.active_sub_agents AgentDict.requires_follow_up
       AgentDict.error_message AgentDict.full_event_log].
  by rewrite app_nil_r.
Qed.




Lemma uniterable_parts_end_the_stream_witness :
  process_agent_query true
    (Some (engine_yielding ([event_text "Day 1: "] ++ event_parts_none :: [event_rome])
             Exhausted))
    "plan a trip" (VStr "s1") "web_user_1"
  = outcome_map (with_logged event_parts_none)
      (process_agent_query true
         (Some (engine_yielding [event_text "Day 1: "]
                  (StreamRaises "'NoneType' object is not iterable")))
         "plan a trip" (VStr "s1") "web_user_1").
Proof.
  apply (uniterable_parts_end_the_stream [event_text "Day 1: "] [event_rome]
           event_parts_none VNone Exhausted); vm_compute; reflexivity.
Defined.


(** ** The sub-agent names *)

Lemma event_sub_agents_spec (name : string) (event : value) :
  name ∈ event_sub_agents event <-> names_sub_agent name event.
Proof.
  unfold names_sub_agent, event_sub_agents.
  destruct event as [| | | | |ev];
    try (split; [intros H; by apply elem_of_empty in H|by intros (ev & [=] & _)]).
  unfold collect_sub_agent. split.
  - intros H. exists ev. split; [done|].
    destruct (dict_get "author" ev) as [[| | |a| |]|];
      try (right; split; [done|];
           destruct (dict_get "source_agent" ev) as [[| | |sa| |]|];
           try (by apply elem_of_empty in H);
           apply elem_of_union in H as [H|H];
           [apply elem_of_singleton in H; by subst|by apply elem_of_empty in H]).
    left. apply elem_of_union in H as [H|H];
      [apply elem_of_singleton in H; by subst|by apply elem_of_empty in H].
  - intros (ev' & [= <-] & [Ha|[Hna Hs]]).
    + rewrite Ha. apply elem_of_union. left. by apply elem_of_singleton.
    + rewrite Hs.
      destruct (dict_get "author" ev) as [[| | |a| |]|];
        try (apply elem_of_union; left; by apply elem_of_singleton).
      by destruct (Hna a).
Qed.

(** X4.  The sub-agent names returned are exactly the names the consumed
    events give: the [author] of an event when that is a string, and its
    [source_agent] only when it has no string [author]. *)
Theorem active_sub_agents_are_the_named
    (eng : engine) (user_query : string) (session_id : value) (user_id : string)
    (d : AgentDict.t) :
  process_agent_query true (Some eng) user_query session_id user_id = Return d ->
  exists agents,
    AgentDict.active_sub_agents d = Some agents
    /\ forall name,
        name ∈ agents
        <-> exists e,
              e ∈ consumed (stream_events
                              (stream_query eng
                                 (build_query_args user_query session_id user_id)))
              /\ names_sub_agent name e.
Proof.
  intros H. rewrite process_agent_query_summary in H. cbv zeta in H.
  destruct (str_join _) as [text|]; [|discriminate]. injection H as <-.
  eexists. split; [reflexivity|]. intros name.
  rewrite elem_of_union_list. split.
  - intros (X & HX & Hn). apply list_elem_of_In, in_map_iff in HX as (e & <- & He).
    exists e. split; [by apply list_elem_of_In|by apply event_sub_agents_spec].
  - intros (e & He & Hn). exists (event_sub_agents e). split.
    + apply list_elem_of_In, in_map_iff. exists e. split; [done|by apply list_elem_of_In].
    + by apply event_sub_agents_spec.
Qed.

Lemma active_sub_agents_are_the_named_witness :
  exists d agents,
    process_agent_query true
      (Some (engine_yielding [event_authored "planning_agent" "Here you go."] Exhausted))
      "plan a trip" (VStr "s1") "web_user_1" = Return d
    /\ AgentDict.active_sub_agents d = Some agents
    /\ "planning_agent" ∈ agents
    /\ "root_agent" ∉ agents.
Proof.
  assert (H : { d | process_agent_query true
                      (Some (engine_yielding
                               [event_authored "planning_agent" "Here you go."] Exhausted))
                      "plan a trip" (VStr "s1") "web_user_1" = Return d })
    by (eexists; vm_compute; reflexivity).
  destruct H as [d H].
  destruct (active_sub_agents_are_the_named _ _ _ _ d H) as (agents & Ha & Hn).
  exists d, agents. split; [exact H|]. split; [exact Ha|]. split.
  - apply Hn. exists (event_authored "planning_agent" "Here you go."). split.
    + apply list_elem_of_here.
    + eexists. split; [reflexivity|]. left. reflexivity.
  - intros Hin. apply Hn in Hin as (e & He & ev & -> & Hcase).
    apply list_elem_of_singleton in He. injection He as ->.
    destruct Hcase as [Hc|[Hc _]]; [discriminate Hc|].
    by apply (Hc "planning_agent").
Defined.

(** ** The display text, where it is complete, and how streams compose *)

Lemma consumed_does_not_raise (e : value) (events : list value) :
  e ∈ consumed events -> event_raises e = false.
Proof.
  induction events as [|e' l IH]; cbn [consumed]; intros H.
  - by apply not_elem_of_nil in H.
  - destruct (event_raises e') eqn:Hr; [by apply not_elem_of_nil in H|].
    apply elem_of_cons in H as [->|H]; [done|by apply IH].
Qed.

Lemma scan_parts_complete (ps : list value) :
  Forall (fun p => carries_itinerary p = false) ps ->
  fst (scan_parts ps [] VNone) = omap part_text ps.
Proof.
  intros H. apply scan_parts_without_break.
  eapply Forall_impl; [exact H|]. intros p Hp. unfold carries_itinerary in Hp.
  destruct (part_function_response p); [discriminate|].
  by destruct (part_tool_result p).
Qed.

Lemma omap_part_text_keys (d : list (string * value)) :
  omap part_text (map (fun kv => VStr (fst kv)) d) = [].
Proof. by induction d as [|kv d IH]. Qed.

Lemma omap_part_text_chars (s : string) : omap part_text (str_chars s) = [].
Proof. by induction s as [|a s IH]. Qed.

Lemma keys_carry_no_itinerary (d : list (string * value)) :
  Forall (fun p => carries_itinerary p = false) (map (fun kv => VStr (fst kv)) d).
Proof. induction d as [|kv d IH]; by constructor. Qed.

Lemma chars_carry_no_itinerary (s : string) :
  Forall (fun p => carries_itinerary p = false) (str_chars s).
Proof. induction s as [|a s IH]; by constructor. Qed.

Lemma scanned_texts_complete (e : value) :
  event_raises e = false ->
  (forall ps, event_parts e = Some (VList ps) ->
              Forall (fun p => carries_itinerary p = false) ps) ->
  scanned_texts e = all_text_parts e.
Proof.
  intros Hr Hps. unfold scanned_texts, scanned, all_text_parts, event_raises in *.
  destruct (event_parts e) as [parts|]; [|done].
  destruct parts as [| | |s|ps|d]; try discriminate; cbn [py_iter].
  - rewrite scan_parts_complete by apply chars_carry_no_itinerary.
    apply omap_part_text_chars.
  - by rewrite scan_parts_complete by by apply Hps.
  - rewrite scan_parts_complete by apply keys_carry_no_itinerary.
    apply omap_part_text_keys.
Qed.

(** X5.  When no part of a consumed event carries an itinerary (neither a
    function response of the itinerary agent nor a tool result with a
    nested itinerary), the display text is the concatenation of every
    non-empty text part of every consumed event, in order. *)
Theorem display_text_is_complete_without_itinerary_parts
    (eng : engine) (user_query : string) (session_id : value) (user_id : string)
    (d : AgentDict.t) :
  let evs :=
    consumed (stream_events
                (stream_query eng (build_query_args user_query session_id user_id))) in
  process_agent_query true (Some eng) user_query session_id user_id = Return d ->
  (forall e ps, e ∈ evs -> event_parts e = Some (VList ps) ->
                Forall (fun p => carries_itinerary p = false) ps) ->
  str_join (concat (map all_text_parts evs)) = Return (AgentDict.display_text d).
Proof.
  intros evs H Hno. rewrite process_agent_query_summary in H. cbv zeta in H.
  fold evs in H.
  assert (E : map scanned_texts evs = map all_text_parts evs).
  { apply map_ext_in. intros e He. apply list_elem_of_In in He.
    apply scanned_texts_complete.
    - by apply (consumed_does_not_raise e _ He).
    - intros ps Hps. by apply (Hno e ps). }
  rewrite E in H. destruct (str_join _) as [text|]; [|discriminate].
  by injection H as <-.
Qed.

Lemma display_text_is_complete_without_itinerary_parts_witness :
  exists d,
    process_agent_query true (Some (engine_yielding spec_example Exhausted))
      "plan a trip" (VStr "s1") "web_user_1" = Return d
    /\ str_join (concat (map all_text_parts spec_example))
       = Return (AgentDict.display_text d).
Proof.
  assert (H : { d | process_agent_query true (Some (engine_yielding spec_example Exhausted))
                      "plan a trip" (VStr "s1") "web_user_1" = Return d })
    by (eexists; vm_compute; reflexivity).
  destruct H as [d H]. exists d. split; [exact H|].
  apply (display_text_is_complete_without_itinerary_parts
           (engine_yielding spec_example Exhausted)
           "plan a trip" (VStr "s1") "web_user_1" d H).
  intros e ps He Hps.
  assert (Hc : consumed spec_example = spec_example) by (vm_compute; reflexivity).
  cbn [engine_yielding stream_query stream_events] in He. rewrite Hc in He.
  unfold spec_example in He.
  repeat (apply elem_of_cons in He as [->|He]);
    [| |idtac|by apply not_elem_of_nil in He];
    try (injection Hps as <-; repeat constructor).
  discriminate Hps.
Defined.

Lemma str_append_assoc (s1 s2 s3 : string) :
  (s1 +:+ s2) +:+ s3 = s1 +:+ (s2 +:+ s3).
Proof.
  induction s1 as [|a s1 IH]; [done|].
  change (String a ((s1 +:+ s2) +:+ s3) = String a (s1 +:+ (s2 +:+ s3))).
  by rewrite IH.
Qed.

Lemma str_join_from_shift (l : list value) (i j : nat) (t : string) :
  str_join_from i l = Return t -> str_join_from j l = Return t.
Proof.
  revert i j t. induction l as [|v l IH]; intros i j t H; [done|].
  cbn [str_join_from] in *. destruct v as [| | |s| |]; try discriminate.
  destruct (str_join_from (S i) l) as [t'|] eqn:Ht; [|discriminate].
  by rewrite (IH (S i) (S j) t' Ht).
Qed.

Lemma str_join_from_app (l1 l2 : list value) (i j k : nat) (t1 t2 : string) :
  str_join_from i l1 = Return t1 ->
  str_join_from j l2 = Return t2 ->
  str_join_from k (l1 ++ l2) = Return (t1 +:+ t2).
Proof.
  revert i k t1. induction l1 as [|v l IH]; intros i k t1 H1 H2.
  - cbn [str_join_from] in H1. injection H1 as <-.
    cbn [app String.append]. by apply (str_join_from_shift l2 j).
  - cbn [app str_join_from] in *.
    destruct v as [| | |s| |]; try discriminate.
    destruct (str_join_from (S i) l) as [t|] eqn:Ht; [|discriminate].
    injection H1 as <-.
    rewrite (IH (S i) (S k) t Ht H2). f_equal. symmetry. apply str_append_assoc.
Qed.

Lemma str_join_app_inv (l1 l2 : list value) (t : string) :
  str_join (l1 ++ l2) = Return t ->
  exists t1 t2,
    str_join l1 = Return t1 /\ str_join l2 = Return t2 /\ t = t1 +:+ t2.
Proof.
  unfold str_join. intros H.
  pose proof (str_join_from_outcome (l1 ++ l2) 0) as Ho. rewrite H in Ho.
  apply Forall_app in Ho as [H1 H2].
  destruct (str_join_from_strings l1 0 H1) as [t1 E1].
  destruct (str_join_from_strings l2 0 H2) as [t2 E2].
  exists t1, t2. split; [done|]. split; [done|].
  pose proof (str_join_from_app l1 l2 0 0 0 t1 t2 E1 E2) as E.
  rewrite E in H. by injection H.
Qed.

Lemma last_itinerary_cons (e : value) (l : list value) (old : value) :
  last_itinerary (e :: l) old
  = last_itinerary l (if truthy (event_itinerary e) then event_itinerary e else old).
Proof. reflexivity. Qed.

Lemma last_itinerary_from (events : list value) (old : value) :
  last_itinerary events old
  = if truthy (last_itinerary events VNone) then last_itinerary events VNone else old.
Proof.
  revert old. induction events as [|e l IH]; intros old; [done|].
  rewrite !last_itinerary_cons.
  destruct (truthy (event_itinerary e)) eqn:He; [|apply IH].
  destruct (last_itinerary_old_or_truthy l (event_itinerary e)) as [E|E].
  - by rewrite E, He.
  - by rewrite E.
Qed.

(** X6.  Processing a stream is processing its two halves and merging: when
    the first half is consumed whole, the display text, the suggestions and
    the log of the whole are the concatenations of those of the halves, the
    sub-agent names their union, the itinerary that of the second half if
    it found one and else that of the first, and likewise the error
    message. *)
Theorem stream_halves_compose
    (evs1 evs2 : list value) (ending : stream_end)
    (user_query : string) (session_id : value) (user_id : string) (d : AgentDict.t) :
  consumed evs1 = evs1 ->
  process_agent_query true (Some (engine_yielding (evs1 ++ evs2) ending))
    user_query session_id user_id = Return d ->
  exists d1 d2,
    process_agent_query true (Some (engine_yielding evs1 Exhausted))
      user_query session_id user_id = Return d1
    /\ process_agent_query true (Some (engine_yielding evs2 ending))
         user_query session_id user_id = Return d2
    /\ AgentDict.display_text d
       = AgentDict.display_text d1 +:+ AgentDict.display_text d2
    /\ default [] (AgentDict.suggestions d)
       = default [] (AgentDict.suggestions d1) ++ default [] (AgentDict.suggestions d2)
    /\ default ∅ (AgentDict.active_sub_agents d)
       = default ∅ (AgentDict.active_sub_agents d1)
         ∪ default ∅ (AgentDict.active_sub_agents d2)
    /\ default VNone (AgentDict.structured_itinerary_raw d)
       = (if truthy (default VNone (AgentDict.structured_itinerary_raw d2))
          then default VNone (AgentDict.structured_itinerary_raw d2)
          else default VNone (AgentDict.structured_itinerary_raw d1))
    /\ AgentDict.error_message d
       = match AgentDict.error_message d2 with
         | Some e => Some e
         | None => AgentDict.error_message d1
         end
    /\ AgentDict.full_event_log d
       = AgentDict.full_event_log d1 ++ AgentDict.full_event_log d2.
Proof.
  intros Hc H. rewrite process_agent_query_summary in H.
  rewrite !process_agent_query_summary. cbv zeta in *.
  cbn [engine_yielding stream_query stream_events stream_ending] in *.
  destruct (consumed_app evs1 evs2 Hc) as [Hc12 Hf12].
  rewrite Hc12, map_app, concat_app in H. rewrite Hc.
  destruct (str_join (concat (map scanned_texts evs1)
                      ++ concat (map scanned_texts (consumed evs2))))
    as [text|] eqn:Hj; [|discriminate].
  destruct (str_join_app_inv _ _ _ Hj) as (t1 & t2 & -> & -> & ->).
  injection H as <-. do 2 eexists. split; [reflexivity|]. split; [reflexivity|].
  unfold summary, loop_error. rewrite Hc12, Hc, Hf12.
  pose proof (proj2 (consumed_all evs1) Hc) as Hf1. rewrite Hf1.
  cbn [AgentDict.session_id AgentDict.display_text AgentDict.structured_itinerary_raw
       AgentDict.suggestions AgentDict.active_sub_agents AgentDict.requires_follow_up
       AgentDict.error_message AgentDict.full_event_log].
  split; [done|].
  split; [by rewrite map_app, concat_app|].
  split; [by rewrite map_app, union_list_app_L|].
  split.
  { change (default VNone (Some ?x)) with x.
    by rewrite last_itinerary_app, last_itinerary_from. }
  split.
  - rewrite omap_app, last_app.
    destruct (first_raising evs2); [done|]. by destruct ending.
  - by rewrite app_nil_r, app_assoc.
Qed.

Lemma stream_halves_compose_witness :
  exists d d1 d2,
    process_agent_query true
      (Some (engine_yielding ([event_text "Day 1: "; event_rome]
                              ++ [event_paris; event_text "arrive CDG."]) Exhausted))
      "plan a trip" (VStr "s1") "web_user_1" = Return d
    /\ process_agent_query true
         (Some (engine_yielding [event_text "Day 1: "; event_rome] Exhausted))
         "plan a trip" (VStr "s1") "web_user_1" = Return d1
    /\ process_agent_query true
         (Some (engine_yielding [event_paris; event_text "arrive CDG."] Exhausted))
         "plan a trip" (VStr "s1") "web_user_1" = Return d2
    /\ AgentDict.display_text d
       = AgentDict.display_text d1 +:+ AgentDict.display_text d2.
Proof.
  assert (H : { d | process_agent_query true
                      (Some (engine_yielding ([event_text "Day 1: "; event_rome]
                                              ++ [event_paris; event_text "arrive CDG."])
                               Exhausted))
                      "plan a trip" (VStr "s1") "web_user_1" = Return d })
    by (eexists; vm_compute; reflexivity).
  destruct H as [d H].
  destruct (stream_halves_compose [event_text "Day 1: "; event_rome]
              [event_paris; event_text "arrive CDG."] Exhausted
              "plan a trip" (VStr "s1") "web_user_1" d)
    as (d1 & d2 & H1 & H2 & Ht & _).
  - vm_compute. reflexivity.
  - exact H.
  - exists d, d1, d2. split; [exact H|]. split; [exact H1|]. split; [exact H2|exact Ht].
Defined.

(** ** The session cache, further *)

Lemma stable_agent_user_id_inj (cid cid' : string) :
  stable_agent_user_id cid = stable_agent_user_id cid' -> cid = cid'.
Proof. unfold stable_agent_user_id. apply (inj (String.append "web_user_")). Qed.

Lemma resolve_frame (cache : gmap string value) (eng : engine) (uid cid uid' : string) :
  uid' <> uid ->
  cache_after (resolve_sdk_session_id cache eng uid cid) !! uid' = cache !! uid'.
Proof.
  intros Hne. unfold resolve_sdk_session_id.
  destruct (truthy match cache !! uid with Some v => v | None => VNone end); [done|].
  destruct (has_create_session eng);
    [destruct (create_session eng uid) as [info|];
     [destruct (truthy (returned_sdk_id info))|]|];
    cbn [cache_after]; by rewrite lookup_insert_ne.
Qed.

Lemma chat_cache_cases {Itinerary : Type} (pyd : pydantic Itinerary) (g : globals)
    (fresh_uuid : string) (user_input : UserInput) :
  chat_cache (chat_with_agent_endpoint pyd g fresh_uuid user_input)
  = _sdk_session_id_cache g
  \/ exists eng,
      let cid := client_managed_session_id user_input fresh_uuid in
      chat_cache (chat_with_agent_endpoint pyd g fresh_uuid user_input)
      = cache_after (resolve_sdk_session_id (_sdk_session_id_cache g) eng
                       (stable_agent_user_id cid) cid).
Proof.
  unfold chat_with_agent_endpoint.
  destruct (_fastapi_agent_service_initialized g); [|by left].
  destruct (vertex_ai_client g) as [[[] [eng|]]|]; try by left.
  right. by exists eng.
Qed.

(** X7.  A request of one client never touches the session cached for
    another: the identities derived from distinct client-managed ids are
    distinct, and the handler writes the cache under its own identity
    only. *)
Theorem chat_leaves_other_clients_sessions {Itinerary : Type}
    (pyd : pydantic Itinerary) (g : globals) (fresh_uuid : string)
    (user_input : UserInput) (other : string) :
  other <> client_managed_session_id user_input fresh_uuid ->
  chat_cache (chat_with_agent_endpoint pyd g fresh_uuid user_input)
    !! stable_agent_user_id other
  = _sdk_session_id_cache g !! stable_agent_user_id other.
Proof.
  intros Hne.
  destruct (chat_cache_cases pyd g fresh_uuid user_input) as [->|[eng ->]]; [done|].
  apply resolve_frame. intros E. by apply Hne, stable_agent_user_id_inj.
Qed.

Lemma chat_leaves_other_clients_sessions_witness :
  chat_cache (chat_with_agent_endpoint pydantic_strict
                (Globals (Some (ClientModule true (Some (engine_creating "sess-2"))))
                   true true true {[ "web_user_alice" := VStr "sess-1" ]})
                fresh_uuid_example (MkUserInput "plan a trip" (Some "bob")))
    !! stable_agent_user_id "alice"
  = Some (VStr "sess-1").
Proof.
  rewrite (chat_leaves_other_clients_sessions pydantic_strict _ fresh_uuid_example
             (MkUserInput "plan a trip" (Some "bob")) "alice");
    [vm_compute; reflexivity|discriminate].
Defined.

(** X8.  On a cache miss, when the engine has no [create_session], or the
    call raises, or what it returns has no truthy id, the session id used
    for the query is the client-managed id itself, and it is cached. *)
Theorem fallback_session_is_the_client_managed_id
    (cache : gmap string value) (eng : engine) (uid cid : string) :
  truthy (default VNone (cache !! uid)) = false ->
  has_create_session eng = false
  \/ (exists e, create_session eng uid = Raise e)
  \/ (exists info, create_session eng uid = Return info
                   /\ truthy (returned_sdk_id info) = false) ->
  resolve_sdk_session_id cache eng uid cid
  = Resolution (VStr cid) (<[uid := VStr cid]> cache)
      (if has_create_session eng then [uid] else []).
Proof.
  intros Hmiss Hcase. unfold resolve_sdk_session_id.
  assert (Hm : truthy match cache !! uid with Some v => v | None => VNone end = false).
  { by destruct (cache !! uid). }
  rewrite Hm. destruct Hcase as [->|[[e He]|(info & Hi & Ht)]]; [done| |].
  - rewrite He. by destruct (has_create_session eng).
  - rewrite Hi, Ht. by destruct (has_create_session eng).
Qed.

Lemma fallback_session_is_the_client_managed_id_witness :
  resolve_sdk_session_id ∅ engine_without_id "web_user_alice" "alice"
  = Resolution (VStr "alice") (<["web_user_alice" := VStr "alice"]> ∅) ["web_user_alice"].
Proof.
  apply (fallback_session_is_the_client_managed_id ∅ engine_without_id
           "web_user_alice" "alice").
  - reflexivity.
  - right. right. eexists. split; reflexivity.
Defined.

Lemma resolve_keeps_ids_truthy (cache : gmap string value) (eng : engine)
    (uid cid : string) :
  cid <> "" -> cache_ids_truthy cache ->
  cache_ids_truthy (cache_after (resolve_sdk_session_id cache eng uid cid)).
Proof.
  intros Hcid Hc. assert (Ht : truthy (VStr cid) = true).
  { cbn [truthy]. by destruct (String.eqb_spec cid ""). }
  unfold resolve_sdk_session_id, cache_ids_truthy in *.
  destruct (truthy match cache !! uid with Some v => v | None => VNone end); [done|].
  destruct (has_create_session eng);
    [destruct (create_session eng uid) as [info|];
     [destruct (truthy (returned_sdk_id info)) eqn:Hi|]|];
    cbn [cache_after]; by apply map_Forall_insert_2.
Qed.

(** X9.  The handler keeps the cache free of falsy ids: if every cached id
    is truthy before a request, every cached id is truthy after it.  This
    is what makes a cached session always a hit.  The fresh UUID is not
    empty. *)
Theorem chat_keeps_cached_ids_truthy {Itinerary : Type}
    (pyd : pydantic Itinerary) (g : globals) (fresh_uuid : string)
    (user_input : UserInput) :
  fresh_uuid <> "" ->
  cache_ids_truthy (_sdk_session_id_cache g) ->
  cache_ids_truthy (chat_cache (chat_with_agent_endpoint pyd g fresh_uuid user_input)).
Proof.
  intros Hu Hc.
  destruct (chat_cache_cases pyd g fresh_uuid user_input) as [->|[eng ->]]; [done|].
  apply resolve_keeps_ids_truthy; [|done].
  by apply client_managed_session_id_not_empty.
Qed.

Lemma chat_keeps_cached_ids_truthy_witness :
  cache_ids_truthy
    (chat_cache (chat_with_agent_endpoint pydantic_strict
                   (globals_ready engine_without_id)
                   fresh_uuid_example input_empty_session)).
Proof.
  apply chat_keeps_cached_ids_truthy; [discriminate|].
  apply map_Forall_empty.
Defined.

(** ** The chat endpoint, further *)

(** X10.  When the agent service is not initialized, or the client module
    is missing, not initialized or without an engine, the handler raises an
    [HTTPException] with status 503 before anything else: the cache is left
    as it is and [create_session] is not called. *)
Theorem chat_unavailable_is_503 {Itinerary : Type}
    (pyd : pydantic Itinerary) (g : globals) (fresh_uuid : string)
    (user_input : UserInput) :
  _fastapi_agent_service_initialized g = false
  \/ (forall eng, vertex_ai_client g <> Some (ClientModule true (Some eng))) ->
  exists detail,
    chat_with_agent_endpoint pyd g fresh_uuid user_input
    = ChatResult (Raise (HTTPException 503 detail)) (_sdk_session_id_cache g) [].
Proof.
  intros H. unfold chat_with_agent_endpoint.
  destruct (_fastapi_agent_service_initialized g); [|by eexists].
  destruct H as [H|H]; [discriminate|].
  destruct (vertex_ai_client g) as [[[] [eng|]]|]; try by eexists.
  by destruct (H eng).
Qed.

Lemma chat_unavailable_is_503_witness :
  exists detail,
    chat_with_agent_endpoint pydantic_strict globals_not_started
      fresh_uuid_example input_trip_42
    = ChatResult (Raise (HTTPException 503 detail)) ∅ [].
Proof.
  apply (chat_unavailable_is_503 pydantic_strict globals_not_started).
  left. reflexivity.
Defined.

(** X11.  With the database models available, an itinerary that the
    validation accepts reaches the response as validated: by
    [model_validate], or, where that method is missing and an
    [AttributeError] is raised, by the constructor. *)
Theorem valid_itinerary_is_returned {Itinerary : Type}
    (pyd : pydantic Itinerary) (g : globals) (eng : engine)
    (fresh_uuid : string) (user_input : UserInput) (d : AgentDict.t)
    (raw : list (string * value)) (it : Itinerary) :
  _fastapi_agent_service_initialized g = true ->
  vertex_ai_client g = Some (ClientModule true (Some eng)) ->
  db_available g = true ->
  let cid := client_managed_session_id user_input fresh_uuid in
  let uid := stable_agent_user_id cid in
  let r := resolve_sdk_session_id (_sdk_session_id_cache g) eng uid cid in
  process_agent_query true (Some eng) (query user_input)
    (sdk_session_id_for_agent_query r) uid = Return d ->
  AgentDict.structured_itinerary_raw d = Some (VDict raw) ->
  model_validate pyd raw = Return it
  \/ (exists msg, model_validate pyd raw = Raise (AttributeError msg)
                  /\ Itinerary_init pyd raw = Return it) ->
  forall resp,
    chat_outcome (chat_with_agent_endpoint pyd g fresh_uuid user_input) = Return resp ->
    AgentResponse.structured_itinerary resp = Some it.
Proof.
  intros Hs Hc Hdb cid uid r Hd Hraw Hok resp.
  pose proof (agent_itinerary_not_empty _ _ _ _ _ _ Hd Hraw) as Hne.
  rewrite (chat_with_agent_endpoint_ready pyd g eng fresh_uuid user_input Hs Hc).
  cbv zeta. fold cid uid r. rewrite Hd, Hraw. cbn [chat_outcome].
  change (default VNone (Some (VDict raw))) with (VDict raw).
  assert (Hp : parse_itinerary pyd (db_available g) (VDict raw) = Return (Some it)).
  { unfold parse_itinerary. rewrite Hdb.
    destruct raw as [|kv raw]; [done|]. cbn [truthy andb].
    destruct Hok as [->|(msg & -> & ->)]; done. }
  rewrite Hp. unfold build_response.
  destruct (AgentDict.suggestions d) as [l|];
    [destruct (validate_str_list pyd l); [|discriminate]|];
    by intros [= <-].
Qed.

Lemma valid_itinerary_is_returned_witness :
  exists resp,
    chat_outcome (chat_with_agent_endpoint pydantic_v1
                    (globals_ready (engine_with "sess-1" [event_rome_dated] Exhausted))
                    fresh_uuid_example input_trip_42) = Return resp
    /\ AgentResponse.structured_itinerary resp = Some rome_dated.
Proof.
  assert (H : { d | process_agent_query true
                      (Some (engine_with "sess-1" [event_rome_dated] Exhausted))
                      "plan a trip" (VStr "sess-1") "web_user_trip-42" = Return d
                    /\ AgentDict.structured_itinerary_raw d = Some (VDict rome_dated) })
    by (eexists; split; [vm_compute; reflexivity|reflexivity]).
  destruct H as (d & Hd & Hraw).
  assert (Hr : { resp | chat_outcome
                          (chat_with_agent_endpoint pydantic_v1
                             (globals_ready
                                (engine_with "sess-1" [event_rome_dated] Exhausted))
                             fresh_uuid_example input_trip_42) = Return resp })
    by (eexists; vm_compute; reflexivity).
  destruct Hr as [resp Hr]. exists resp. split; [exact Hr|].
  apply (valid_itinerary_is_returned pydantic_v1
           (globals_ready (engine_with "sess-1" [event_rome_dated] Exhausted))
           (engine_with "sess-1" [event_rome_dated] Exhausted)
           fresh_uuid_example input_trip_42 d rome_dated rome_dated
           eq_refl eq_refl eq_refl Hd Hraw); [|exact Hr].
  right. eexists. split; reflexivity.
Defined.

(** X12.  Without the database models the structured itinerary of the
    response is always [None], whatever the agent found: the validation is
    not attempted. *)
Theorem no_structured_itinerary_without_db {Itinerary : Type}
    (pyd : pydantic Itinerary) (g : globals) (fresh_uuid : string)
    (user_input : UserInput) (resp : AgentResponse.t Itinerary) :
  db_available g = false ->
  chat_outcome (chat_with_agent_endpoint pyd g fresh_uuid user_input) = Return resp ->
  AgentResponse.structured_itinerary resp = None.
Proof.
  intros Hdb H. unfold chat_with_agent_endpoint in H.
  destruct (_fastapi_agent_service_initialized g); [|discriminate].
  destruct (vertex_ai_client g) as [[[] [eng|]]|]; try discriminate.
  cbn [negb chat_outcome] in H.
  destruct (process_agent_query _ _ _ _ _) as [d|]; [|discriminate].
  assert (Hp : forall v, parse_itinerary pyd (db_available g) v = Return None).
  { intros v. unfold parse_itinerary. rewrite Hdb, andb_false_r. by destruct v. }
  rewrite Hp in H. unfold build_response in H.
  destruct (AgentDict.suggestions d) as [l|];
    [destruct (validate_str_list pyd l); [|discriminate]|];
    by injection H as <-.
Qed.

Lemma no_structured_itinerary_without_db_witness :
  exists resp,
    chat_outcome (chat_with_agent_endpoint pydantic_lenient globals_without_db
                    fresh_uuid_example input_trip_42) = Return resp
    /\ AgentResponse.structured_itinerary resp = None.
Proof.
  assert (Hr : { resp | chat_outcome
                          (chat_with_agent_endpoint pydantic_lenient globals_without_db
                             fresh_uuid_example input_trip_42) = Return resp })
    by (eexists; vm_compute; reflexivity).
  destruct Hr as [resp Hr]. exists resp. split; [exact Hr|].
  exact (no_structured_itinerary_without_db pydantic_lenient globals_without_db
           fresh_uuid_example input_trip_42 resp eq_refl Hr).
Defined.

(** ** Initialization *)

(** The three ways a call of [initialize_globals_and_agent] ends. *)
Lemma initialize_globals_and_agent_cases
    (p : platform) (environ : gmap string string) (m : client_module) :
  let r := initialize_globals_and_agent p environ m in
  (IS_INITIALIZED m = true /\ r = Initialization true m environ)
  \/ (exists e, r = Initialization false (ClientModule false e)
                       (load_dotenv (dotenv_file p) environ))
  \/ (exists eng, r = Initialization true (ClientModule true (Some eng))
                         (load_dotenv (dotenv_file p) environ)).
Proof.
  cbv zeta. unfold initialize_globals_and_agent.
  destruct (IS_INITIALIZED m) eqn:Hi; [by left|]. right. cbv zeta.
  destruct (load_dotenv (dotenv_file p) environ !! "GOOGLE_CLOUD_PROJECT") as [project|];
    [|left; by eexists].
  destruct (load_dotenv (dotenv_file p) environ !! "GOOGLE_CLOUD_LOCATION") as [loc|];
    [|left; by eexists].
  destruct (load_dotenv (dotenv_file p) environ !! "REASONING_ENGINE_RESOURCE_NAME")
    as [resource|]; [|left; by eexists].
  destruct (_ && _); [|left; by eexists].
  destruct (vertexai_init p project loc); [|left; by eexists].
  destruct (agent_engines_get p resource) as [[eng|]|];
    [right; by eexists|left; by eexists|left; by eexists].
Qed.

Lemma initialize_firestore_client_cases
    (p : platform) (environ : gmap string string)
    (FIRESTORE_CLIENT : option firestore) (project_id : option string)
    (database_id : string) :
  let r := initialize_firestore_client p environ FIRESTORE_CLIENT project_id database_id in
  r = (false, None) \/ exists client, r = (true, Some client).
Proof.
  cbv zeta. unfold initialize_firestore_client.
  destruct FIRESTORE_CLIENT as [client|]; [right; by eexists|].
  destruct (environ !! "GOOGLE_CLOUD_PROJECT") as [project|]; [|by left].
  destruct (env_truthy (Some project)); [|by left].
  destruct (firestore_Client p project (environ !! "GOOGLE_FIRESTORE_DB"))
    as [client|]; [right; by eexists|by left].
Qed.

(** X13.  [initialize_globals_and_agent] returns the value it leaves in
    [IS_INITIALIZED], and it keeps the module consistent: after a call, the
    module is marked initialized only with an engine. *)
Theorem initialize_globals_and_agent_sound
    (p : platform) (environ : gmap string string) (m : client_module) :
  module_consistent m ->
  let r := initialize_globals_and_agent p environ m in
  init_returned r = IS_INITIALIZED (init_module r)
  /\ module_consistent (init_module r).
Proof.
  intros Hm. cbv zeta.
  destruct (initialize_globals_and_agent_cases p environ m)
    as [[Hi ->]|[[e ->]|[eng ->]]]; cbn [init_returned init_module].
  - by split.
  - split; [done|]. intros H. discriminate H.
  - split; [done|]. intros _. by exists eng.
Qed.

Lemma initialize_globals_and_agent_sound_witness :
  init_returned (initialize_globals_and_agent platform_ok ∅ module_fresh) = true
  /\ module_consistent
       (init_module (initialize_globals_and_agent platform_ok ∅ module_fresh)).
Proof.
  destruct (initialize_globals_and_agent_sound platform_ok ∅ module_fresh) as [H1 H2].
  - intros H. discriminate H.
  - split; [|exact H2]. rewrite H1. vm_compute. reflexivity.
Defined.

(** X14.  Once a call has returned [True], later calls return [True] and
    change neither the module nor the environment, whatever the platform
    would then answer: the SDK is initialized at most once. *)
Theorem initialization_succeeds_once
    (p p' : platform) (environ : gmap string string) (m : client_module) :
  let r := initialize_globals_and_agent p environ m in
  init_returned r = true ->
  initialize_globals_and_agent p' (init_environ r) (init_module r)
  = Initialization true (init_module r) (init_environ r).
Proof.
  cbv zeta.
  destruct (initialize_globals_and_agent_cases p environ m)
    as [[Hi ->]|[[e ->]|[eng ->]]]; cbn [init_returned init_module init_environ];
    intros H; try discriminate H;
    unfold initialize_globals_and_agent; by rewrite ?Hi.
Qed.

Lemma initialization_succeeds_once_witness :
  let r := initialize_globals_and_agent platform_ok ∅ module_fresh in
  initialize_globals_and_agent platform_broken_sdk (init_environ r) (init_module r)
  = Initialization true (init_module r) (init_environ r).
Proof.
  apply (initialization_succeeds_once platform_ok platform_broken_sdk ∅ module_fresh).
  vm_compute. reflexivity.
Defined.

(** X15.  When, after the [.env] file has been loaded, one of the three
    variables is missing or empty, the initialization fails without calling
    the SDK: it returns [False] and leaves the engine as it was, whatever
    [vertexai.init] and [agent_engines.get] would do. *)
Theorem missing_configuration_fails_without_sdk
    (p : platform) (environ : gmap string string) (m : client_module)
    (variable : string) :
  IS_INITIALIZED m = false ->
  variable ∈ ["GOOGLE_CLOUD_PROJECT"; "GOOGLE_CLOUD_LOCATION";
              "REASONING_ENGINE_RESOURCE_NAME"] ->
  env_truthy (load_dotenv (dotenv_file p) environ !! variable) = false ->
  initialize_globals_and_agent p environ m
  = Initialization false (ClientModule false (REMOTE_AGENT_ENGINE m))
      (load_dotenv (dotenv_file p) environ).
Proof.
  intros Hi Hv Ht. unfold initialize_globals_and_agent. rewrite Hi. cbv zeta.
  set (env' := load_dotenv (dotenv_file p) environ) in *.
  assert (Hall : env_truthy (env' !! "GOOGLE_CLOUD_PROJECT")
                 && env_truthy (env' !! "GOOGLE_CLOUD_LOCATION")
                 && env_truthy (env' !! "REASONING_ENGINE_RESOURCE_NAME") = false).
  { repeat (apply elem_of_cons in Hv as [->|Hv]);
      [| | |by apply not_elem_of_nil in Hv]; rewrite Ht;
      by rewrite ?andb_false_r. }
  destruct (env' !! "GOOGLE_CLOUD_PROJECT") as [project|]; [|done].
  destruct (env' !! "GOOGLE_CLOUD_LOCATION") as [loc|]; [|done].
  destruct (env' !! "REASONING_ENGINE_RESOURCE_NAME") as [resource|]; [|done].
  by rewrite Hall.
Qed.

Lemma missing_configuration_fails_without_sdk_witness :
  init_returned (initialize_globals_and_agent platform_no_location ∅ module_fresh)
  = false.
Proof.
  rewrite (missing_configuration_fails_without_sdk platform_no_location ∅ module_fresh
             "GOOGLE_CLOUD_LOCATION"); [reflexivity|reflexivity| |].
  - apply elem_of_cons. right. apply elem_of_cons. by left.
  - vm_compute. reflexivity.
Defined.

(** X16.  [initialize_firestore_client] returns [True] exactly when
    [FIRESTORE_CLIENT] is set afterwards, it keeps a client that is already
    there, and its two arguments have no effect: the project and the
    database are those of the environment. *)
Theorem initialize_firestore_client_sound
    (p : platform) (environ : gmap string string)
    (FIRESTORE_CLIENT : option firestore)
    (project_id project_id' : option string) (database_id database_id' : string) :
  let r := initialize_firestore_client p environ FIRESTORE_CLIENT project_id database_id in
  (r.1 = true <-> exists client, r.2 = Some client)
  /\ (forall client, FIRESTORE_CLIENT = Some client -> r = (true, Some client))
  /\ r = initialize_firestore_client p environ FIRESTORE_CLIENT project_id' database_id'.
Proof.
  cbv zeta. unfold initialize_firestore_client.
  destruct FIRESTORE_CLIENT as [client|].
  - split; [split; [by eexists|done]|]. split; [by intros ? [= <-]|done].
  - split; [|by split].
    destruct (environ !! "GOOGLE_CLOUD_PROJECT") as [project|];
      [|split; [done|by intros [? [=]]]].
    destruct (env_truthy (Some project)); [|split; [done|by intros [? [=]]]].
    destruct (firestore_Client p project (environ !! "GOOGLE_FIRESTORE_DB"))
      as [client|]; [split; [by eexists|done]|split; [done|by intros [? [=]]]].
Qed.

(** X17.  After [startup_event] the session cache is empty, and if the
    agent service is marked initialized then the client module is
    initialized and has an engine, so that both guards of the chat handler
    pass; if the Firestore client is marked initialized then
    [FIRESTORE_CLIENT] is set. *)
Theorem startup_event_flags_are_sound (p : platform) (s : server) :
  (forall m, vertex_ai_client (main_globals s) = Some m -> module_consistent m) ->
  let s' := startup_event p s in
  _sdk_session_id_cache (main_globals s') = ∅
  /\ (_fastapi_agent_service_initialized (main_globals s') = true ->
      exists eng,
        vertex_ai_client (main_globals s') = Some (ClientModule true (Some eng)))
  /\ (_firestore_client_initialized (main_globals s') = true ->
      exists client, FIRESTORE_CLIENT s' = Some client).
Proof.
  intros Hm. cbv zeta. unfold startup_event. cbv zeta.
  cbn [main_globals _sdk_session_id_cache _fastapi_agent_service_initialized
       _firestore_client_initialized vertex_ai_client FIRESTORE_CLIENT].
  split; [done|]. split.
  - destruct (vertex_ai_client (main_globals s)) as [m|] eqn:Hv; [|done].
    cbn [fst snd].
    destruct (initialize_globals_and_agent_cases p (os_environ s) m)
      as [[Hi ->]|[[e ->]|[eng ->]]]; cbn [init_returned init_module];
      intros H; try discriminate H.
    + destruct (Hm m eq_refl Hi) as [eng He]. exists eng.
      destruct m as [i e]. cbn in *. by subst.
    + by exists eng.
  - destruct (db_available (main_globals s)); [|done].
    destruct (initialize_firestore_client_cases p
                (match vertex_ai_client (main_globals s) with
                 | Some m =>
                     (init_returned (initialize_globals_and_agent p (os_environ s) m),
                      Some (init_module (initialize_globals_and_agent p (os_environ s) m)),
                      init_environ (initialize_globals_and_agent p (os_environ s) m))
                 | None => (false, None, os_environ s)
                 end).2 (FIRESTORE_CLIENT s) None "ai-agent-dev") as [->|[client ->]];
      [done|]. intros _. by exists client.
Qed.

Lemma startup_event_flags_are_sound_witness :
  _sdk_session_id_cache (main_globals (startup_event platform_ok server_fresh)) = ∅
  /\ _fastapi_agent_service_initialized
       (main_globals (startup_event platform_ok server_fresh)) = true
  /\ exists eng,
      vertex_ai_client (main_globals (startup_event platform_ok server_fresh))
      = Some (ClientModule true (Some eng)).
Proof.
  destruct (startup_event_flags_are_sound platform_ok server_fresh) as (H1 & H2 & _).
  - intros m [= <-] H. discriminate H.
  - split; [exact H1|].
    assert (Hf : _fastapi_agent_service_initialized
                   (main_globals (startup_event platform_ok server_fresh)) = true)
      by (vm_compute; reflexivity).
    split; [exact Hf|exact (H2 Hf)].
Defined.

(** ** The trip store *)

Lemma ensure_firestore_client_keeps (p : platform) (environ : gmap string string)
    (client : firestore) :
  ensure_firestore_client p environ (Some client) = Some client.
Proof. reflexivity. Qed.


(** The three cases on the test store. *)
Example get_trip_details_examples :
  (get_trip_details_api_endpoint pydantic_strict platform_ok
     (server_with firestore_alice) "t-1").1 = Return rome_dated
  /\ (get_trip_details_api_endpoint pydantic_strict platform_ok
        (server_with firestore_alice) "t-9").1
     = Raise (HTTPException 404 (VStr "Trip with ID t-9 not found."))
  /\ (get_trip_details_api_endpoint pydantic_strict platform_ok
        (server_with firestore_down) "t-1").1
     = Raise (HTTPException 404 (VStr "Trip with ID t-1 not found.")).
Proof. repeat split; vm_compute; reflexivity. Qed.



Lemma trip_summary_fields (doc : list (string * value)) :
  dict_get_or_none "trip_id" (trip_summary_of doc) = dict_get_or_none "trip_id" doc
  /\ dict_get_or_none "trip_name" (trip_summary_of doc)
     = default (VStr "Untitled Trip") (dict_get "trip_name" doc).
Proof. split; reflexivity. Qed.

Lemma trip_summary_optional_fields (doc : list (string * value)) :
  dict_get_or_none "start_date" (trip_summary_of doc) = dict_get_or_none "start_date" doc
  /\ dict_get_or_none "end_date" (trip_summary_of doc) = dict_get_or_none "end_date" doc
  /\ dict_get_or_none "status" (trip_summary_of doc) = dict_get_or_none "status" doc.
Proof. repeat split; reflexivity. Qed.

Lemma validate_optional_str_absent (coerce_str : value -> option string)
    (k : string) (doc : list (string * value)) :
  str_or_absent (dict_get k doc) = true ->
  exists o, validate_optional_str coerce_str (dict_get_or_none k doc) = Some o.
Proof.
  unfold dict_get_or_none.
  destruct (dict_get k doc) as [[| b | n | t | l | d]|]; try discriminate;
    intros _; eexists; reflexivity.
Qed.

Lemma list_trips_lists (coerce_str : value -> option string)
    (p : platform) (s : server) (client_session_id : string) (status : option string)
    (client : firestore) (docs : list (list (string * value))) :
  _firestore_client_initialized (main_globals s) = true ->
  db_available (main_globals s) = true ->
  ensure_firestore_client p (os_environ s) (FIRESTORE_CLIENT s) = Some client ->
  query_stream client TRIPS_COLLECTION ("db_user_" +:+ client_session_id)
    (if env_truthy status then status else None) = Return docs ->
  (list_trips_api_endpoint coerce_str p s client_session_id status).1
  = Return (omap (listed_trip coerce_str) docs).
Proof.
  intros Hf Hdb Hc Hq. unfold list_trips_api_endpoint. cbv zeta. rewrite Hf, Hdb.
  cbn [negb orb fst]. unfold get_trips_for_user_from_firestore. rewrite Hc, Hq.
  cbn [fst]. f_equal. clear Hq.
  induction docs as [|doc docs IH]; [reflexivity|].
  change (map trip_summary_of (doc :: docs))
    with (trip_summary_of doc :: map trip_summary_of docs).
  change (omap (TripSummary_init coerce_str)
            (trip_summary_of doc :: map trip_summary_of docs))
    with (match TripSummary_init coerce_str (trip_summary_of doc) with
          | Some t => t :: omap (TripSummary_init coerce_str) (map trip_summary_of docs)
          | None => omap (TripSummary_init coerce_str) (map trip_summary_of docs)
          end).
  change (omap (listed_trip coerce_str) (doc :: docs))
    with (match listed_trip coerce_str doc with
          | Some t => t :: omap (listed_trip coerce_str) docs
          | None => omap (listed_trip coerce_str) docs
          end).
  rewrite IH. reflexivity.
Qed.

(** X20.  [GET /trips] answers with the entries of the documents the query
    gives, in their order, leaving out the documents that have none, and
    never fails on a document.  A document has no entry when its [trip_id]
    is missing or null or its [trip_name] is null; the entry of a document
    has the validated [trip_id] of that document, which is not null, and
    its validated [trip_name]; and a document whose [trip_id] is a string,
    whose [trip_name] is a string or missing and whose dates and status
    are strings, null or missing has an entry, with that id and that name,
    "Untitled Trip" when the name is missing. *)
Theorem list_trips_skips_invalid_documents (coerce_str : value -> option string)
    (p : platform) (s : server) (client_session_id : string) (status : option string)
    (client : firestore) (docs : list (list (string * value))) :
  _firestore_client_initialized (main_globals s) = true ->
  db_available (main_globals s) = true ->
  ensure_firestore_client p (os_environ s) (FIRESTORE_CLIENT s) = Some client ->
  query_stream client TRIPS_COLLECTION ("db_user_" +:+ client_session_id)
    (if env_truthy status then status else None) = Return docs ->
  (list_trips_api_endpoint coerce_str p s client_session_id status).1
  = Return (omap (listed_trip coerce_str) docs)
  /\ forall doc,
       (dict_get "trip_id" doc = None \/ dict_get "trip_id" doc = Some VNone
        \/ dict_get "trip_name" doc = Some VNone ->
        listed_trip coerce_str doc = None)
       /\ (forall t, listed_trip coerce_str doc = Some t ->
           (exists v, dict_get "trip_id" doc = Some v /\ v <> VNone
                      /\ validate_str coerce_str v = Some (trip_id t))
           /\ validate_str coerce_str
                (default (VStr "Untitled Trip") (dict_get "trip_name" doc))
              = Some (trip_name t))
       /\ (forall i,
           dict_get "trip_id" doc = Some (VStr i) ->
           str_or_absent (dict_get "trip_name" doc) = true ->
           dict_get "trip_name" doc <> Some VNone ->
           str_or_absent (dict_get "start_date" doc) = true ->
           str_or_absent (dict_get "end_date" doc) = true ->
           str_or_absent (dict_get "status" doc) = true ->
           exists t,
             listed_trip coerce_str doc = Some t
             /\ trip_id t = i
             /\ trip_name t = match dict_get "trip_name" doc with
                              | Some (VStr n) => n
                              | _ => "Untitled Trip"
                              end).
Proof.
  intros Hf Hdb Hc Hq.
  split; [exact (list_trips_lists coerce_str p s client_session_id status
                   client docs Hf Hdb Hc Hq)|].
  intros doc. unfold listed_trip, TripSummary_init.
  destruct (trip_summary_fields doc) as [-> ->].
  destruct (trip_summary_optional_fields doc) as (-> & -> & ->).
  split; [|split].
  - unfold dict_get_or_none at 1. intros [E | [E | E]]; rewrite E.
    + reflexivity.
    + reflexivity.
    + destruct (validate_str coerce_str (default VNone (dict_get "trip_id" doc)));
        reflexivity.
  - intros t. unfold dict_get_or_none at 1.
    destruct (dict_get "trip_id" doc) as [v|]; [|discriminate].
    change (default VNone (Some v)) with v.
    destruct (validate_str coerce_str v) as [i|] eqn:Hi; [|discriminate].
    destruct (validate_str coerce_str
                (default (VStr "Untitled Trip") (dict_get "trip_name" doc)))
      as [n|] eqn:Hn; [|discriminate].
    destruct (validate_optional_str _ _); [|discriminate].
    destruct (validate_optional_str _ _); [|discriminate].
    destruct (validate_optional_str _ _); [|discriminate].
    intros [= <-]. cbn [trip_id trip_name]. split; [|reflexivity].
    exists v. split; [reflexivity|]. split; [|exact Hi].
    intros ->. discriminate Hi.
  - intros i Hid Hname Hnn Hsd Hed Hst.
    unfold dict_get_or_none at 1. rewrite Hid.
    change (validate_str coerce_str (default VNone (Some (VStr i)))) with (Some i).
    destruct (validate_optional_str_absent coerce_str "start_date" doc Hsd) as [sd ->].
    destruct (validate_optional_str_absent coerce_str "end_date" doc Hed) as [ed ->].
    destruct (validate_optional_str_absent coerce_str "status" doc Hst) as [st ->].
    destruct (dict_get "trip_name" doc) as [[| b | n | t | l | d]|];
      try discriminate; try contradiction;
      eexists; split; try reflexivity; split; reflexivity.
Qed.

(** Of the three documents of alice only the first has an entry: the second
    has no trip id and the name of the third is null. *)
Lemma list_trips_skips_invalid_documents_witness :
  (list_trips_api_endpoint no_coercion platform_ok (server_with firestore_alice)
     "alice" (Some "upcoming")).1
  = Return [MkTripSummary "t-1" "Untitled Trip" (Some "2025-06-01") None
              (Some "upcoming")].
Proof.
  destruct (list_trips_skips_invalid_documents no_coercion platform_ok
              (server_with firestore_alice) "alice" (Some "upcoming")
              firestore_alice [stored_rome; stored_without_id; stored_null_name]
              eq_refl eq_refl eq_refl eq_refl) as [H _].
  rewrite H. vm_compute. reflexivity.
Defined.

(** ** The command-line loop *)

Lemma cli_loop_turns (eng : engine) (sid : value) (lines : list string) :
  Forall (fun t => exists m,
            m ∈ lines /\ is_blank m = false
            /\ turn_query t = build_query_args m sid cli_user_id)
    (cli_loop eng sid lines).1.
Proof.
  induction lines as [|l rest IH]; cbn [cli_loop]; [constructor|].
  destruct (is_exit l); [constructor|].
  destruct (is_blank l) eqn:Hb.
  - eapply Forall_impl; [exact IH|]. intros t (m & Hm & Hn & Hq).
    exists m. split; [by apply elem_of_cons; right|done].
  - destruct (process_agent_query _ _ _ _ _) as [d|]; [|constructor].
    cbn [fst]. constructor.
    + exists l. split; [apply list_elem_of_here|done].
    + eapply Forall_impl; [exact IH|]. intros t (m & Hm & Hn & Hq).
      exists m. split; [by apply elem_of_cons; right|done].
Qed.

(** X21.  Every query of one run of the command-line loop goes to the same
    session and the same user: the session created at the start (or the
    fresh UUID when none could be created) and [interactive_cli_user_001];
    and a blank line is never sent.  The fresh UUID is not empty. *)
Theorem cli_queries_share_one_session
    (eng : engine) (fresh_uuid : string) (lines : list string) :
  fresh_uuid <> "" ->
  let sid := create_cli_session eng fresh_uuid in
  truthy sid = true
  /\ Forall (fun t =>
               qa_session_id (turn_query t) = Some sid
               /\ qa_user_id (turn_query t) = Some cli_user_id
               /\ is_blank (qa_message (turn_query t)) = false)
       (run_cli_chat_loop true (Some eng) fresh_uuid lines).1.
Proof.
  intros Hu sid.
  assert (Ht : truthy sid = true).
  { assert (Hf : truthy (VStr fresh_uuid) = true).
    { cbn [truthy]. by destruct (String.eqb_spec fresh_uuid ""). }
    unfold sid, create_cli_session.
    destruct (has_create_session eng); [|done].
    destruct (create_session eng cli_user_id) as [info|]; [|done].
    cbv zeta. by destruct (truthy (returned_sdk_id info)) eqn:Hi. }
  split; [done|]. cbn [run_cli_chat_loop]. fold sid.
  eapply Forall_impl; [apply cli_loop_turns|].
  intros t (m & _ & Hb & ->). unfold build_query_args.
  cbn [qa_session_id qa_user_id qa_message]. by rewrite Ht.
Qed.

Lemma cli_queries_share_one_session_witness :
  Forall (fun t =>
            qa_session_id (turn_query t) = Some (VStr "sess-1")
            /\ qa_user_id (turn_query t) = Some cli_user_id
            /\ is_blank (qa_message (turn_query t)) = false)
    (run_cli_chat_loop true (Some (engine_with "sess-1" [event_text "Sure."] Exhausted))
       fresh_uuid_example cli_lines).1.
Proof.
  destruct (cli_queries_share_one_session
              (engine_with "sess-1" [event_text "Sure."] Exhausted)
              fresh_uuid_example cli_lines) as [_ H]; [discriminate|].
  exact H.
Defined.

(** X22.  The messages the loop sends are, in order, non-blank lines typed
    before the first exit command ([exit] or [quit] in any letter case);
    when the loop ends normally they are all of them, and an exit command
    was typed. *)
Theorem cli_sends_the_lines_before_exit
    (eng : engine) (sid : value) (lines : list string) :
  let r := cli_loop eng sid lines in
  let sent := map (fun t => qa_message (turn_query t)) r.1 in
  sent `prefix_of` List.filter (fun l => negb (is_blank l)) (before_exit lines)
  /\ (r.2 = Return tt ->
      sent = List.filter (fun l => negb (is_blank l)) (before_exit lines)
      /\ exists l, l ∈ lines /\ is_exit l = true).
Proof.
  cbv zeta. induction lines as [|l rest [IH1 IH2]]; cbn [cli_loop before_exit].
  - split; [done|]. intros H. discriminate H.
  - destruct (is_exit l) eqn:He.
    + split; [done|]. intros _. split; [done|].
      exists l. split; [apply list_elem_of_here|done].
    + cbn [List.filter]. destruct (is_blank l) eqn:Hb; cbn [negb].
      * split; [done|]. intros H. destruct (IH2 H) as [E (l' & Hl' & He')].
        split; [done|]. exists l'. split; [by apply elem_of_cons; right|done].
      * destruct (process_agent_query _ _ _ _ _) as [d|].
        -- cbn [fst snd map turn_query build_query_args qa_message]. split.
           ++ by apply prefix_cons.
           ++ intros H. destruct (IH2 H) as [E (l' & Hl' & He')].
              split; [by rewrite E|].
              exists l'. split; [by apply elem_of_cons; right|done].
        -- cbn [fst snd map]. split; [apply prefix_nil|]. intros H. discriminate H.
Qed.

Example cli_loop_example :
  run_cli_chat_loop true (Some (engine_with "sess-1" [event_text "Sure."] Exhausted))
    fresh_uuid_example cli_lines
  = ([CliTurn (QueryArgs "Plan a weekend in Rome" (Some (VStr "sess-1"))
                 (Some cli_user_id)) "Sure."],
     Return tt).
Proof. vm_compute. reflexivity. Qed.

(** ** The memory tools *)

Lemma eq_str_spec (s : string) (x : value) :
  eq_str s x = true <-> x = VStr s.
Proof.
  destruct x as [| b | n | t | l | d]; cbn [eq_str];
    try (split; [discriminate | discriminate]).
  rewrite String.eqb_eq. split; [intros -> | intros [= ->]]; reflexivity.
Qed.

Lemma existsb_eq_str (s : string) (l : list value) :
  existsb (eq_str s) l = true <-> VStr s ∈ l.
Proof.
  rewrite existsb_exists. split.
  - intros (x & Hin & Hx). apply eq_str_spec in Hx. subst x.
    apply list_elem_of_In. exact Hin.
  - intros Hin. exists (VStr s). split.
    + apply list_elem_of_In. exact Hin.
    + apply eq_str_spec. reflexivity.
Qed.

Lemma existsb_eq_str_false (s : string) (l : list value) :
  existsb (eq_str s) l = false <-> VStr s ∉ l.
Proof.
  rewrite <- existsb_eq_str. destruct (existsb (eq_str s) l).
  - split; [discriminate | intros H; exfalso; apply H; reflexivity].
  - split; [intros _; discriminate | reflexivity].
Qed.

Lemma existsb_eq_str_snoc (s : string) (l : list value) :
  existsb (eq_str s) (l ++ [VStr s]) = true.
Proof.
  apply existsb_eq_str. apply elem_of_app. right. apply list_elem_of_here.
Qed.

Lemma list_remove_snoc (s : string) (l : list value) :
  VStr s ∉ l -> list_remove s (l ++ [VStr s]) = l.
Proof.
  induction l as [|x l IH]; intros Hnot.
  - cbn [app list_remove eq_str]. rewrite String.eqb_refl. reflexivity.
  - change ((x :: l) ++ [VStr s]) with (x :: (l ++ [VStr s])).
    cbn [list_remove].
    destruct (eq_str s x) eqn:E.
    + apply eq_str_spec in E. subst x. exfalso. apply Hnot. apply list_elem_of_here.
    + f_equal. apply IH. intros Hin. apply Hnot. apply elem_of_cons. right. exact Hin.
Qed.

Lemma list_remove_elem_of (s : string) (l : list value) (x : value) :
  x ∈ list_remove s l -> x ∈ l.
Proof.
  induction l as [|y l IH]; cbn [list_remove]; [intros H; exact H|].
  destruct (eq_str s y).
  - intros H. apply elem_of_cons. right. exact H.
  - intros H. apply elem_of_cons in H. apply elem_of_cons.
    destruct H as [H | H]; [left; exact H | right; apply IH; exact H].
Qed.

Lemma list_remove_other (s : string) (l : list value) (x : value) :
  x ∈ l -> x <> VStr s -> x ∈ list_remove s l.
Proof.
  induction l as [|y l IH]; cbn [list_remove]; intros Hin Hne.
  - exact Hin.
  - apply elem_of_cons in Hin. destruct (eq_str s y) eqn:E.
    + destruct Hin as [-> | Hin]; [|exact Hin].
      apply eq_str_spec in E. contradiction.
    + apply elem_of_cons. destruct Hin as [-> | Hin]; [left; reflexivity|].
      right. apply IH; assumption.
Qed.

Lemma list_remove_NoDup (s : string) (l : list value) :
  NoDup l -> NoDup (list_remove s l) /\ VStr s ∉ list_remove s l.
Proof.
  induction 1 as [|y l Hy Hl IH]; cbn [list_remove].
  - split; [constructor | apply not_elem_of_nil].
  - destruct (eq_str s y) eqn:E.
    + apply eq_str_spec in E. subst y. split; assumption.
    + destruct IH as [IH1 IH2]. split.
      * constructor; [|exact IH1]. intros Hin. apply Hy.
        apply (list_remove_elem_of s). exact Hin.
      * intros Hin. apply elem_of_cons in Hin. destruct Hin as [Hin | Hin].
        -- symmetry in Hin. apply eq_str_spec in Hin. congruence.
        -- apply IH2. exact Hin.
Qed.

Lemma value_list_or_not (held : value) :
  (exists l, held = VList l) \/ (forall l, held <> VList l).
Proof.
  destruct held as [| b | n | t | l | d];
    try (right; intros l'; discriminate).
  left. exists l. reflexivity.
Qed.

Lemma memorize_list_new_key (key s : string) (state : gmap string value) :
  state !! key = None ->
  memorize_list key s state
  = (Return (tool_status "Stored" key s), <[key := VList [VStr s]]> state).
Proof.
  intros E. unfold memorize_list. cbv zeta. rewrite E. cbv beta iota.
  rewrite lookup_insert_eq.
  change (default VNone (Some (VList []))) with (VList []).
  cbn [py_contains existsb app]. rewrite insert_insert_eq. reflexivity.
Qed.

Lemma memorize_list_on_list (key s : string) (state : gmap string value)
    (l : list value) :
  state !! key = Some (VList l) ->
  memorize_list key s state
  = (Return (tool_status "Stored" key s),
     if existsb (eq_str s) l then state
     else <[key := VList (l ++ [VStr s])]> state).
Proof.
  intros E. unfold memorize_list. cbv zeta. rewrite E. cbv beta iota.
  rewrite E. change (default VNone (Some (VList l))) with (VList l).
  cbn [py_contains]. destruct (existsb (eq_str s) l); reflexivity.
Qed.

Lemma memorize_list_on_other (key s : string) (state : gmap string value)
    (held : value) :
  state !! key = Some held ->
  (forall l, held <> VList l) ->
  (memorize_list key s state).2 = state.
Proof.
  intros E Hl. unfold memorize_list. cbv zeta. rewrite E. cbv beta iota.
  rewrite E. change (default VNone (Some held)) with held.
  destruct held as [| b | n | t | l | d]; cbn [py_contains snd];
    try reflexivity.
  - destruct (is_substring s t); reflexivity.
  - exfalso. apply (Hl l). reflexivity.
  - destruct (dict_get s d); reflexivity.
Qed.

(** X23. [memorize_list] is idempotent: called again with the same key and
    value on the state it left, it gives the same answer and leaves that
    state as it is, whatever the key held. *)
Theorem memorize_list_is_idempotent (key s : string) (state : gmap string value) :
  memorize_list key s (memorize_list key s state).2 = memorize_list key s state.
Proof.
  assert (H : (memorize_list key s (memorize_list key s state).2).2
              = (memorize_list key s state).2
              /\ (memorize_list key s (memorize_list key s state).2).1
                 = (memorize_list key s state).1).
  { destruct (state !! key) as [held|] eqn:E.
    - destruct (value_list_or_not held) as [[l ->] | Hl].
      + rewrite (memorize_list_on_list key s state l E).
        destruct (existsb (eq_str s) l) eqn:Ex; cbn [fst snd].
        * rewrite (memorize_list_on_list key s state l E). rewrite Ex.
          split; reflexivity.
        * rewrite (memorize_list_on_list key s _ (l ++ [VStr s])
                     (lookup_insert_eq state key _)).
          rewrite existsb_eq_str_snoc. split; reflexivity.
      + rewrite !(memorize_list_on_other key s state held E Hl).
        split; reflexivity.
    - rewrite (memorize_list_new_key key s state E). cbn [fst snd].
      rewrite (memorize_list_on_list key s _ [VStr s]
                 (lookup_insert_eq state key _)).
      change [VStr s] with ([] ++ [VStr s]).
      rewrite (existsb_eq_str_snoc s []). split; reflexivity. }
  destruct H as [H2 H1].
  destruct (memorize_list key s (memorize_list key s state).2) as [o1 s1].
  destruct (memorize_list key s state) as [o2 s2].
  cbn [fst snd] in H1, H2. congruence.
Qed.

Lemma forget_on_list (key s : string) (state : gmap string value)
    (l : list value) :
  state !! key = Some (VList l) ->
  forget key s state
  = (Return (tool_status "Removed" key s),
     if existsb (eq_str s) l then <[key := VList (list_remove s l)]> state
     else state).
Proof.
  intros E. unfold forget. rewrite E. cbv zeta. cbv beta iota.
  cbn [py_contains]. destruct (existsb (eq_str s) l); reflexivity.
Qed.

Lemma forget_dom (key s : string) (state : gmap string value) :
  dom (forget key s state).2 = dom state.
Proof.
  unfold forget. destruct (state !! key) as [held|] eqn:E; [|reflexivity].
  assert (Hin : forall x, dom (<[key := x]> state) = dom state).
  { intros x. apply dom_insert_lookup_L. rewrite E. eexists. reflexivity. }
  destruct held as [| b | n | t | l | d]; cbv zeta; cbv beta iota;
    cbn [py_contains snd]; try reflexivity.
  - cbn [existsb snd]. apply Hin.
  - destruct (is_substring s t); reflexivity.
  - destruct (existsb (eq_str s) l); cbn [snd]; [apply Hin | reflexivity].
  - destruct (dict_get s d); reflexivity.
Qed.

(** X24. [memorize_list] keeps a list free of duplicates: on a key that
    holds a list without duplicates it returns its status and leaves under
    the key a list without duplicates that starts with the old list and
    contains the value; no other key changes. *)
Theorem memorize_list_keeps_lists_duplicate_free (key s : string)
    (state : gmap string value) (l : list value) :
  state !! key = Some (VList l) ->
  NoDup l ->
  exists l',
    memorize_list key s state
    = (Return (tool_status "Stored" key s), <[key := VList l']> state)
    /\ NoDup l' /\ VStr s ∈ l' /\ l `prefix_of` l'.
Proof.
  intros E Hl. rewrite (memorize_list_on_list key s state l E).
  destruct (existsb (eq_str s) l) eqn:Ex.
  - exists l. split; [|split; [exact Hl|split]].
    + rewrite (insert_id state key (VList l) E). reflexivity.
    + apply existsb_eq_str. exact Ex.
    + reflexivity.
  - exists (l ++ [VStr s]). split; [reflexivity|split; [|split]].
    + apply NoDup_app. split; [exact Hl|split].
      * intros x Hx Hx'. apply list_elem_of_singleton in Hx'. subst x.
        apply existsb_eq_str_false in Ex. contradiction.
      * apply NoDup_singleton.
    + apply elem_of_app. right. apply list_elem_of_here.
    + apply prefix_app_r. reflexivity.
Qed.

Lemma memorize_list_keeps_lists_duplicate_free_witness :
  exists l',
    memorize_list "likes" "beaches" state_likes
    = (Return (tool_status "Stored" "likes" "beaches"),
       <["likes" := VList l']> state_likes)
    /\ NoDup l' /\ VStr "beaches" ∈ l' /\ [VStr "museums"] `prefix_of` l'.
Proof.
  apply (memorize_list_keeps_lists_duplicate_free "likes" "beaches" state_likes
           [VStr "museums"]).
  - vm_compute. reflexivity.
  - apply NoDup_singleton.
Defined.

(** X25. [forget] undoes [memorize_list]: on a key that holds a list
    without the value, storing the value and then forgetting it gives the
    state back. *)
Theorem forget_undoes_memorize_list (key s : string)
    (state : gmap string value) (l : list value) :
  state !! key = Some (VList l) ->
  VStr s ∉ l ->
  forget key s (memorize_list key s state).2
  = (Return (tool_status "Removed" key s), state).
Proof.
  intros E Hnot. rewrite (memorize_list_on_list key s state l E).
  apply existsb_eq_str_false in Hnot. rewrite Hnot. cbn [snd].
  rewrite (forget_on_list key s _ (l ++ [VStr s]) (lookup_insert_eq state key _)).
  rewrite existsb_eq_str_snoc. rewrite insert_insert_eq.
  rewrite list_remove_snoc by (apply existsb_eq_str_false; exact Hnot).
  rewrite (insert_id state key (VList l) E). reflexivity.
Qed.

Lemma forget_undoes_memorize_list_witness :
  forget "likes" "beaches" (memorize_list "likes" "beaches" state_likes).2
  = (Return (tool_status "Removed" "likes" "beaches"), state_likes).
Proof.
  apply (forget_undoes_memorize_list "likes" "beaches" state_likes
           [VStr "museums"]).
  - vm_compute. reflexivity.
  - intros H. apply list_elem_of_singleton in H. discriminate H.
Defined.

(** X26. [forget] removes a value stored once: on a key that holds a list
    without duplicates it returns its status and leaves under the key the
    list of the other items; the value is no longer in it. *)
Theorem forget_removes_the_value (key s : string)
    (state : gmap string value) (l : list value) :
  state !! key = Some (VList l) ->
  NoDup l ->
  exists l',
    forget key s state
    = (Return (tool_status "Removed" key s), <[key := VList l']> state)
    /\ VStr s ∉ l'
    /\ forall x, x ∈ l' <-> x ∈ l /\ x <> VStr s.
Proof.
  intros E Hl. rewrite (forget_on_list key s state l E).
  destruct (existsb (eq_str s) l) eqn:Ex.
  - exists (list_remove s l). split; [reflexivity|].
    destruct (list_remove_NoDup s l Hl) as [_ Hnot]. split; [exact Hnot|].
    intros x. split.
    + intros Hx. split; [apply (list_remove_elem_of s); exact Hx|].
      intros ->. contradiction.
    + intros [Hx Hne]. apply list_remove_other; assumption.
  - apply existsb_eq_str_false in Ex. exists l. split; [|split; [exact Ex|]].
    + rewrite (insert_id state key (VList l) E). reflexivity.
    + intros x. split; [|intros [Hx _]; exact Hx].
      intros Hx. split; [exact Hx|]. intros ->. contradiction.
Qed.

Lemma forget_removes_the_value_witness :
  exists l',
    forget "likes" "museums" state_likes
    = (Return (tool_status "Removed" "likes" "museums"),
       <["likes" := VList l']> state_likes)
    /\ VStr "museums" ∉ l'
    /\ forall x, x ∈ l' <-> x ∈ [VStr "museums"] /\ x <> VStr "museums".
Proof.
  apply (forget_removes_the_value "likes" "museums" state_likes
           [VStr "museums"]).
  - vm_compute. reflexivity.
  - apply NoDup_singleton.
Defined.

(** X27. [forget] never adds a key, where [memorize_list] creates the
    list of a new key: the keys of the state it leaves are those it found,
    and it raises [KeyError] exactly when the state has no such key. *)
Theorem forget_never_adds_a_key (key s : string) (state : gmap string value) :
  dom (forget key s state).2 = dom state
  /\ ((forget key s state).1 = Raise (KeyError key) <-> state !! key = None).
Proof.
  split; [apply forget_dom|].
  unfold forget. destruct (state !! key) as [held|] eqn:E.
  - split; [|discriminate].
    destruct held as [| b | n | t | l | d]; cbv zeta; cbv beta iota;
      cbn [py_contains fst]; try discriminate.
    + destruct (is_substring s t); discriminate.
    + destruct (existsb (eq_str s) l); discriminate.
    + destruct (dict_get s d); discriminate.
  - split; reflexivity.
Qed.

Lemma prefix_append (s b : string) : String.prefix s (s +:+ b) = true.
Proof.
  induction s as [|c s IH].
  - change ("" +:+ b) with b. destruct b; reflexivity.
  - change (String c s +:+ b) with (String c (s +:+ b)).
    cbn [String.prefix]. destruct (ascii_dec c c) as [_ | Hne];
      [exact IH | contradiction].
Qed.

Lemma is_substring_unfold (s t : string) :
  is_substring s t
  = String.prefix s t
    || match t with
       | EmptyString => false
       | String _ t' => is_substring s t'
       end.
Proof. destruct t; reflexivity. Qed.

Lemma is_substring_append (a s b : string) :
  is_substring s (a +:+ s +:+ b) = true.
Proof.
  induction a as [|c a IH].
  - change ("" +:+ s +:+ b) with (s +:+ b).
    rewrite is_substring_unfold. rewrite prefix_append. reflexivity.
  - change (String c a +:+ s +:+ b) with (String c (a +:+ s +:+ b)).
    rewrite is_substring_unfold. rewrite IH. apply orb_true_r.
Qed.

(** X28. [memorize_list] on a key that [memorize] has set stores nothing:
    the key keeps the string, and when the value occurs in that string the
    tool still answers that it stored the value. *)
Theorem memorize_list_after_memorize_stores_nothing (key s : string)
    (state : gmap string value) :
  (forall t, (memorize_list key s (memorize key t state).2).2
             = <[key := VStr t]> state)
  /\ (forall a b,
        memorize_list key s (memorize key (a +:+ s +:+ b) state).2
        = (Return (tool_status "Stored" key s),
           <[key := VStr (a +:+ s +:+ b)]> state)).
Proof.
  split.
  - intros t. cbn [memorize snd].
    apply (memorize_list_on_other key s _ (VStr t) (lookup_insert_eq state key _)).
    intros l. discriminate.
  - intros a b. cbn [memorize snd]. unfold memorize_list. cbv zeta.
    rewrite lookup_insert_eq. cbv beta iota. rewrite lookup_insert_eq.
    change (default VNone (Some (VStr (a +:+ s +:+ b))))
      with (VStr (a +:+ s +:+ b)).
    cbn [py_contains]. rewrite is_substring_append. reflexivity.
Qed.

Lemma dict_update_lookup (source : list (string * value))
    (target : gmap string value) (key : string) :
  dict_update source target !! key
  = match dict_get key source with
    | Some v => Some v
    | None => target !! key
    end.
Proof.
  induction source as [|[k' v] source IH]; [reflexivity|].
  change (dict_update ((k', v) :: source) target)
    with (<[k' := v]> (dict_update source target)).
  cbn [dict_get]. destruct (String.eqb key k') eqn:E.
  - apply String.eqb_eq in E. subst k'. apply lookup_insert_eq.
  - apply String.eqb_neq in E. rewrite lookup_insert_ne by congruence.
    exact IH.
Qed.

Lemma dict_update_is_Some (source : list (string * value))
    (target : gmap string value) (key : string) :
  is_Some (target !! key) -> is_Some (dict_update source target !! key).
Proof.
  intros H. rewrite dict_update_lookup. destruct (dict_get key source).
  - eexists. reflexivity.
  - exact H.
Qed.

Lemma insert_is_Some (m : gmap string value) (k' key : string) (v : value) :
  is_Some (m !! key) -> is_Some (<[k' := v]> m !! key).
Proof.
  intros H. apply lookup_insert_is_Some. destruct (decide (k' = key)).
  - left. assumption.
  - right. split; assumption.
Qed.

Lemma _set_initial_states_once (k : constants) (now : string)
    (source : list (string * value)) (target : gmap string value) :
  is_Some (target !! SYSTEM_TIME k) ->
  is_Some (target !! ITIN_INITIALIZED k) ->
  _set_initial_states k now source target = (Return tt, target).
Proof.
  intros [x Hx] [y Hy]. unfold _set_initial_states. cbv zeta.
  rewrite Hx. cbv beta iota. rewrite Hy. reflexivity.
Qed.

Lemma _set_initial_states_marks (k : constants) (now : string)
    (source : list (string * value)) (target : gmap string value) :
  is_Some ((_set_initial_states k now source target).2 !! SYSTEM_TIME k)
  /\ is_Some ((_set_initial_states k now source target).2 !! ITIN_INITIALIZED k).
Proof.
  unfold _set_initial_states. cbv zeta.
  set (t1 := match target !! SYSTEM_TIME k with
             | Some _ => target
             | None => <[SYSTEM_TIME k := VStr now]> target
             end).
  assert (H1 : is_Some (t1 !! SYSTEM_TIME k)).
  { unfold t1. destruct (target !! SYSTEM_TIME k) eqn:E.
    - rewrite E. eexists. reflexivity.
    - rewrite lookup_insert_eq. eexists. reflexivity. }
  destruct (t1 !! ITIN_INITIALIZED k) eqn:E2.
  - cbn [snd]. split; [exact H1 | rewrite E2; eexists; reflexivity].
  - set (t2 := dict_update source (<[ITIN_INITIALIZED k := VBool true]> t1)).
    assert (H2 : is_Some (t2 !! SYSTEM_TIME k)
                 /\ is_Some (t2 !! ITIN_INITIALIZED k)).
    { split; apply dict_update_is_Some.
      - apply insert_is_Some. exact H1.
      - rewrite lookup_insert_eq. eexists. reflexivity. }
    destruct H2 as [H2 H3].
    destruct (truthy (default (VDict []) (dict_get (ITIN_KEY k) source)));
      [|cbn [snd]; split; assumption].
    destruct (py_subscript _ (START_DATE k)) as [start|e];
      [|cbn [snd]; split; assumption].
    destruct (py_subscript _ (END_DATE k)) as [finish|e]; cbn [snd].
    + split; repeat apply insert_is_Some; assumption.
    + split; apply insert_is_Some; assumption.
Qed.

(** X29. [_set_initial_states] sets the state once: after a first call,
    whether it returned or raised, a later call with whatever source and
    time returns without changing the state. *)
Theorem _set_initial_states_only_once (k : constants) (now now' : string)
    (source source' : list (string * value)) (target : gmap string value) :
  _set_initial_states k now' source'
    (_set_initial_states k now source target).2
  = (Return tt, (_set_initial_states k now source target).2).
Proof.
  destruct (_set_initial_states_marks k now source target) as [H1 H2].
  apply _set_initial_states_once; assumption.
Qed.

(** X30. On a state that is not yet initialized the source wins: every
    key of the source other than the three itinerary date keys is in the
    state [_set_initial_states] leaves, with the value of the source, also
    when the call raises and also for the system time and the
    initialization mark.  The system time and the initialization mark are
    taken to be different keys. *)
Theorem _set_initial_states_source_wins (k : constants) (now : string)
    (source : list (string * value)) (target : gmap string value)
    (key : string) (v : value) :
  SYSTEM_TIME k <> ITIN_INITIALIZED k ->
  target !! ITIN_INITIALIZED k = None ->
  dict_get key source = Some v ->
  key <> ITIN_START_DATE k -> key <> ITIN_END_DATE k -> key <> ITIN_DATETIME k ->
  (_set_initial_states k now source target).2 !! key = Some v.
Proof.
  intros Hk Hinit Hv Hs He Hd. unfold _set_initial_states. cbv zeta.
  set (t1 := match target !! SYSTEM_TIME k with
             | Some _ => target
             | None => <[SYSTEM_TIME k := VStr now]> target
             end).
  assert (E2 : t1 !! ITIN_INITIALIZED k = None).
  { unfold t1. destruct (target !! SYSTEM_TIME k); [exact Hinit|].
    rewrite lookup_insert_ne by exact Hk. exact Hinit. }
  rewrite E2.
  set (t2 := dict_update source (<[ITIN_INITIALIZED k := VBool true]> t1)).
  assert (H2 : t2 !! key = Some v).
  { unfold t2. rewrite dict_update_lookup. rewrite Hv. reflexivity. }
  destruct (truthy (default (VDict []) (dict_get (ITIN_KEY k) source)));
    [|cbn [snd]; exact H2].
  destruct (py_subscript _ (START_DATE k)) as [start|e];
    [|cbn [snd]; exact H2].
  destruct (py_subscript _ (END_DATE k)) as [finish|e]; cbn [snd].
  - rewrite lookup_insert_ne by congruence.
    rewrite lookup_insert_ne by congruence.
    rewrite lookup_insert_ne by congruence. exact H2.
  - rewrite lookup_insert_ne by congruence. exact H2.
Qed.

Lemma _set_initial_states_source_wins_witness :
  (_set_initial_states constants_example "2025-05-01 09:00:00" source_example
     state_likes).2 !! "user_profile"
  = Some (VDict [("home", VStr "San Diego")]).
Proof.
  apply (_set_initial_states_source_wins constants_example
           "2025-05-01 09:00:00" source_example state_likes "user_profile").
  - vm_compute. discriminate.
  - vm_compute. reflexivity.
  - vm_compute. reflexivity.
  - vm_compute. discriminate.
  - vm_compute. discriminate.
  - vm_compute. discriminate.
Defined.
